(** * Run polling and tool approval in the MCP agent samples

    A shallow embedding of [main.py] (the one-shot script) and of
    [mainchat.py] (the chat handler [AzureAIAgentHandler]).  Both files
    drive a hosted agent service through its client library; the service
    is not part of the repository, so every call into it is answered by
    an oracle over an abstract service state, and every call, sleep and
    console line the scripts produce is recorded, in order, as an
    [Event]. *)

From Stdlib Require Import String Ascii List Bool Arith Lia DecimalString.
From stdpp Require Import base option list strings gmap.
Import ListNotations.
Local Open Scope string_scope.
Local Open Scope list_scope.

(** ** Python values *)

(** Instances of Python's [Exception]: what [except Exception] catches.
    [exn_text] is what [str(e)] and an f-string give.  The exceptions
    outside this class ([BaseException] only) are no values of this
    type; the one the chat variant can meet, [asyncio.CancelledError], is
    the outcome [Cancelled] of a program. *)
Record Exception := mkExn { exn_class : string; exn_text : string }.

Definition ValueError (msg : string) : Exception := mkExn "ValueError" msg.

(** [None.attr]: the error Python raises when an attribute of [None] is read. *)
Definition AttributeError (attr : string) : Exception :=
  mkExn "AttributeError"
        ("'NoneType' object has no attribute '" +:+ attr +:+ "'").

(** Truth value of [os.environ.get(var)]: [None] and the empty string are
    false. *)
Definition truthy (v : option string) : bool :=
  match v with
  | Some s => negb (String.eqb s "")
  | None => false
  end.

(** Truth value of a list: empty lists are false. *)
Definition has_items {A} (l : list A) : bool :=
  match l with
  | [] => false
  | _ :: _ => true
  end.

(** Formatting an optional value in an f-string; [None] prints as its name. *)
Definition py_str (v : option string) : string :=
  match v with
  | Some s => s
  | None => "None"
  end.

(** [str.upper], on the ASCII letters. *)
Definition upper_ascii (c : ascii) : ascii :=
  let n := nat_of_ascii c in
  if ((97 <=? n)%nat && (n <=? 122)%nat)%bool then ascii_of_nat (n - 32) else c.

Fixpoint upper (s : string) : string :=
  match s with
  | EmptyString => EmptyString
  | String c rest => String (upper_ascii c) (upper rest)
  end.

(** ["-" * n] *)
Fixpoint repeat_str (s : string) (n : nat) : string :=
  match n with
  | O => ""
  | S k => s +:+ repeat_str s k
  end.

(** ** Records of the client library

    Only the fields the two files read are kept. *)

Inductive RequiredToolCall :=
| RequiredMcpToolCall (id name arguments server_label : string)
| RequiredFunctionToolCall (id name arguments : string).

Definition tool_call_id_of (tc : RequiredToolCall) : string :=
  match tc with
  | RequiredMcpToolCall id _ _ _ => id
  | RequiredFunctionToolCall id _ _ => id
  end.

(** [isinstance(tool_call, RequiredMcpToolCall)] *)
Definition is_mcp_tool_call (tc : RequiredToolCall) : bool :=
  match tc with
  | RequiredMcpToolCall _ _ _ _ => true
  | RequiredFunctionToolCall _ _ _ => false
  end.

(** [run.required_action]: absent, a request for tool approvals, or a
    request for tool outputs. *)
Inductive RequiredAction :=
| NoRequiredAction
| SubmitToolApprovalAction (tool_calls : list RequiredToolCall)
| SubmitToolOutputsAction (tool_calls : list RequiredToolCall).

(** [last_error] is the text the service reports, as an f-string renders
    [run.last_error]. *)
Record Run := mkRun {
  run_id : string;
  status : string;
  required_action : RequiredAction;
  last_error : string
}.

Record ToolApproval := mkToolApproval {
  tool_call_id : string;
  approve : bool;
  approval_headers : gmap string string
}.

Record Agent := mkAgent { agent_id : string }.
Record Thread := mkThread { thread_id : string }.

(** A thread message: [text_messages] holds, for each text segment, its
    [text.value]. *)
Record Message := mkMessage {
  message_id : string;
  role : string;
  text_messages : list string
}.

(** A run step as the script reads it: [step['id']], [step['status']] and
    the calls under [step_details.tool_calls] (empty when either key is
    missing), each with its optional [id] and [type]. *)
Record RunStep := mkRunStep {
  step_id : string;
  step_status : string;
  step_tool_calls : list (option string * option string)
}.

(** ** The MCP tool object *)

Record McpTool := mkMcpTool {
  server_label : string;
  server_url : string;
  headers : gmap string string;
  require_approval : string
}.

(** [McpTool(server_label=..., server_url=...)]: no headers, approval
    required. *)
Definition new_McpTool (label url : string) : McpTool :=
  mkMcpTool label url ∅ "always".

Definition update_headers (key value : string) (t : McpTool) : McpTool :=
  mkMcpTool (server_label t) (server_url t) (<[key := value]> (headers t))
            (require_approval t).

Definition set_approval_mode (mode : string) (t : McpTool) : McpTool :=
  mkMcpTool (server_label t) (server_url t) (headers t) mode.

Record ToolDefinition := mkToolDefinition {
  def_server_label : string;
  def_server_url : string
}.

Record ToolResources := mkToolResources {
  res_server_label : string;
  res_headers : gmap string string;
  res_require_approval : string
}.

(** [mcp_tool.definitions] and [mcp_tool.resources] *)
Definition definitions (t : McpTool) : list ToolDefinition :=
  [mkToolDefinition (server_label t) (server_url t)].

Definition resources (t : McpTool) : ToolResources :=
  mkToolResources (server_label t) (headers t) (require_approval t).

(** ** What the scripts do to the outside world *)

Inductive Call :=
| CreateAgent (model name instructions : string) (tools : list ToolDefinition)
| ThreadsCreate
| MessagesCreate (thread role content : string)
| RunsCreate (thread agent : string) (tool_resources : ToolResources)
| RunsGet (thread run : string)
| RunsCancel (thread run : string)
| RunsSubmitToolOutputs (thread run : string) (tool_approvals : list ToolApproval)
| RunStepsList (thread run : string)
| MessagesList (thread : string).

Inductive Event :=
| Print (line : string)
| Sleep (seconds : nat)
| ClientOpen (endpoint : string)
| ClientClose
| Request (c : Call).

(** Requests to the service are the only network activity. *)
Definition is_network (e : Event) : bool :=
  match e with
  | Request _ => true
  | _ => false
  end.

(** Requests that start a run or move one forward. *)
Definition is_run_request (e : Event) : bool :=
  match e with
  | Request (RunsCreate _ _ _) => true
  | Request (RunsGet _ _) => true
  | Request (RunsSubmitToolOutputs _ _ _) => true
  | Request (RunsCancel _ _) => true
  | _ => false
  end.

Definition is_runs_get (e : Event) : bool :=
  match e with
  | Request (RunsGet _ _) => true
  | _ => false
  end.

Definition is_runs_create (e : Event) : bool :=
  match e with
  | Request (RunsCreate _ _ _) => true
  | _ => false
  end.

(** ** The chat handler object

    [AzureAIAgentHandler.__init__] sets every attribute to [None];
    [initialize] fills them in one by one. *)

Record AzureAIAgentHandler := mkHandler {
  project_client : option string;      (* the client, by its endpoint *)
  agents_client : option string;       (* [project_client.agents] *)
  agent : option Agent;
  thread : option Thread;
  mcp_tool : option McpTool
}.

Definition new_handler : AzureAIAgentHandler :=
  mkHandler None None None None None.

(** ** Programs

    A program runs from a state (the service, and the module-level
    handler object of the chat variant) to an outcome, a new state and
    the events it produced.  [Diverge] stands for a poll loop that was
    still running when the fuel of the model ran out; the scripts have
    no such bound.  [Cancelled] stands for [asyncio.CancelledError]
    travelling up from an [await] at which the task was cancelled: it is
    a [BaseException] and no instance of [Exception]. *)

Inductive Outcome (A : Type) :=
| Return (a : A)
| Raise (e : Exception)
| Diverge
| Cancelled.
Arguments Return {A} a.
Arguments Raise {A} e.
Arguments Diverge {A}.
Arguments Cancelled {A}.

Record State (W : Type) := mkState {
  world : W;
  agent_handler : AzureAIAgentHandler
}.
Arguments mkState {W} world agent_handler.
Arguments world {W} s.
Arguments agent_handler {W} s.

Definition Prog (W A : Type) : Type :=
  State W -> Outcome A * State W * list Event.

Definition ret {W A} (a : A) : Prog W A := fun s => (Return a, s, []).

Definition raise {W A} (e : Exception) : Prog W A := fun s => (Raise e, s, []).

Definition diverge {W A} : Prog W A := fun s => (Diverge, s, []).

Definition bind {W A B} (m : Prog W A) (k : A -> Prog W B) : Prog W B :=
  fun s =>
    match m s with
    | (Return a, s1, evs1) =>
        match k a s1 with
        | (o, s2, evs2) => (o, s2, evs1 ++ evs2)
        end
    | (Raise e, s1, evs1) => (Raise e, s1, evs1)
    | (Diverge, s1, evs1) => (Diverge, s1, evs1)
    | (Cancelled, s1, evs1) => (Cancelled, s1, evs1)
    end.

Notation "x <- m ;; k" := (bind m (fun x => k))
  (at level 100, m at next level, right associativity).
Notation "m ;; k" := (bind m (fun _ => k))
  (at level 100, right associativity).

(** [try: body  except Exception as e: handler(e)]: the handler is for
    the instances of [Exception]; a cancellation passes through. *)
Definition try_except {W A} (body : Prog W A) (handler : Exception -> Prog W A)
  : Prog W A :=
  fun s =>
    match body s with
    | (Raise e, s1, evs1) =>
        match handler e s1 with
        | (o, s2, evs2) => (o, s2, evs1 ++ evs2)
        end
    | r => r
    end.

(** [with project_client: body]: the client is closed on the way out,
    whether the body returns or is left by an exception. *)
Definition with_client {W A} (body : Prog W A) : Prog W A :=
  fun s =>
    match body s with
    | (Diverge, s1, evs1) => (Diverge, s1, evs1)
    | (o, s1, evs1) => (o, s1, evs1 ++ [ClientClose])
    end.

Definition emit {W} (e : Event) : Prog W unit := fun s => (Return tt, s, [e]).

Definition print {W} (line : string) : Prog W unit := emit (Print line).
Definition sleep {W} (seconds : nat) : Prog W unit := emit (Sleep seconds).

Definition when {W} (b : bool) (m : Prog W unit) : Prog W unit :=
  if b then m else ret tt.

(** Reading [obj.attr] where [obj] may be [None]. *)
Definition attr_of {W A} (obj : option A) (attr : string) : Prog W A :=
  match obj with
  | Some o => ret o
  | None => raise (AttributeError attr)
  end.

Definition get_self {W} : Prog W AzureAIAgentHandler :=
  fun s => (Return (agent_handler s), s, []).

Definition set_self {W} (h : AzureAIAgentHandler) : Prog W unit :=
  fun s => (Return tt, mkState (world s) h, []).

(** ** The client library as an oracle

    [answer c w] is the reply of the service to the request [c] in the
    service state [w]: a value of the type the call returns, or the
    exception the client library raises.  [approval_fault] tells whether
    building the approval record for a tool call raises;
    [str_tool_call] and [repr_tool_approvals] are the texts the library
    gives for its objects in an f-string. *)

Definition Response (c : Call) : Type :=
  match c with
  | CreateAgent _ _ _ _ => Agent
  | ThreadsCreate => Thread
  | MessagesCreate _ _ _ => Message
  | RunsCreate _ _ _ => Run
  | RunsGet _ _ => Run
  | RunsCancel _ _ => Run
  | RunsSubmitToolOutputs _ _ _ => Run
  | RunStepsList _ _ => list RunStep
  | MessagesList _ => list Message
  end.

Record SDK (W : Type) := mkSDK {
  answer : forall c : Call, W -> (Exception + Response c) * W;
  approval_fault : RequiredToolCall -> option Exception;
  str_tool_call : RequiredToolCall -> string;
  repr_tool_approvals : list ToolApproval -> string
}.
Arguments answer {W} s c w.
Arguments approval_fault {W} s tc.
Arguments str_tool_call {W} s tc.
Arguments repr_tool_approvals {W} s l.

Definition request {W} (sdk : SDK W) (c : Call) : Prog W (Response c) :=
  fun s =>
    match answer sdk c (world s) with
    | (inr v, w) => (Return v, mkState w (agent_handler s), [Request c])
    | (inl e, w) => (Raise e, mkState w (agent_handler s), [Request c])
    end.

(** ** Configuration, shared by the two files *)

Definition required_vars : list string :=
  ["PROJECT_ENDPOINT"; "MODEL_DEPLOYMENT_NAME"; "MCP_SERVER_URL"; "MCP_SERVER_LABEL"].

(** [[var for var in required_vars if not os.environ.get(var)]] *)
Definition missing_vars (environ : gmap string string) : list string :=
  List.filter (fun var => negb (truthy (environ !! var))) required_vars.

Definition missing_message (missing : list string) : string :=
  "Missing required environment variables: " +:+ String.concat ", " missing.

Definition nl : string := String (ascii_of_nat 10) EmptyString.
Definition indent (n : nat) : string := repeat_str " " n.

Definition main_instructions (url label : string) : string :=
  "You are a helpful agent that can use MCP tools to assist users. " +:+ nl +:+
  indent 8 +:+ "You have access to a Home Assistant MCP server at " +:+ url +:+
  " with label '" +:+ label +:+ "'." +:+ nl +:+
  indent 8 +:+ "Use the available MCP tools to answer questions about home automation, sensor data, and device control." +:+ nl +:+
  indent 8 +:+ "When making MCP calls, ensure you use the proper authentication headers that have been configured.".

Definition chat_instructions (url label : string) : string :=
  "You are a helpful assistant that can use MCP tools to help users. " +:+ nl +:+
  indent 16 +:+ "You have access to a Home Assistant MCP server at " +:+ url +:+
  " with label '" +:+ label +:+ "'." +:+ nl +:+
  indent 16 +:+ "Use the available MCP tools to answer questions about home automation, sensor data, and device control." +:+ nl +:+
  indent 16 +:+ "When making MCP calls, ensure you use the proper authentication headers that have been configured." +:+ nl +:+
  indent 16 +:+ "Always respond in a clear and helpful manner.".

Definition no_token_warning : string :=
  "Warning: No MCP_SERVER_TOKEN found in environment variables".

(** The statuses under which the loop keeps polling. *)
Definition pending_statuses : list string :=
  ["queued"; "in_progress"; "requires_action"].

(** [run.status in ["queued", "in_progress", "requires_action"]] *)
Definition is_pending (st : string) : bool :=
  existsb (String.eqb st) pending_statuses.

(** The two files run the same loop; [main.py] also prints its progress. *)
Inductive Variant := CLI | Chat.

Definition verbose (v : Variant) : bool :=
  match v with
  | CLI => true
  | Chat => false
  end.

(** How an iteration of the [while] loop ends: at the end of its body, or
    at [break]. *)
Inductive Flow (A : Type) :=
| Next (a : A)
| Break (a : A).
Arguments Next {A} a.
Arguments Break {A} a.

Section Scripts.
Context {W : Type}.
Variable sdk : SDK W.

(** The methods of [agents_client] the two files call. *)
Definition create_agent (model name instructions : string)
           (tools : list ToolDefinition) : Prog W Agent :=
  request sdk (CreateAgent model name instructions tools).
Definition threads_create : Prog W Thread := request sdk ThreadsCreate.
Definition messages_create (thread role content : string) : Prog W Message :=
  request sdk (MessagesCreate thread role content).
Definition runs_create (thread agent : string) (tool_resources : ToolResources)
  : Prog W Run :=
  request sdk (RunsCreate thread agent tool_resources).
Definition runs_get (thread run : string) : Prog W Run :=
  request sdk (RunsGet thread run).
Definition runs_cancel (thread run : string) : Prog W Run :=
  request sdk (RunsCancel thread run).
Definition runs_submit_tool_outputs (thread run : string)
           (tool_approvals : list ToolApproval) : Prog W Run :=
  request sdk (RunsSubmitToolOutputs thread run tool_approvals).
Definition run_steps_list (thread run : string) : Prog W (list RunStep) :=
  request sdk (RunStepsList thread run).
Definition messages_list (thread : string) : Prog W (list Message) :=
  request sdk (MessagesList thread).

Definition check_required_vars (environ : gmap string string) : Prog W unit :=
  let missing := missing_vars environ in
  match missing with
  | [] => ret tt
  | _ :: _ => raise (ValueError (missing_message missing))
  end.

(** ** The tool-approval step of the poll loop *)

(** [ToolApproval(tool_call_id=tool_call.id, approve=True, headers=...)] *)
Definition new_ToolApproval (tool_call : RequiredToolCall)
           (hdrs : gmap string string) : Prog W ToolApproval :=
  match approval_fault sdk tool_call with
  | Some e => raise e
  | None => ret (mkToolApproval (tool_call_id_of tool_call) true hdrs)
  end.

(** The [for tool_call in tool_calls] loop; [tool_approvals] is the list
    built so far. *)
Fixpoint approve_tool_calls (v : Variant) (tool : McpTool)
         (tool_calls : list RequiredToolCall)
         (tool_approvals : list ToolApproval) : Prog W (list ToolApproval) :=
  match tool_calls with
  | [] => ret tool_approvals
  | tool_call :: rest =>
      if is_mcp_tool_call tool_call then
        tool_approvals' <-
          try_except
            (when (verbose v)
               (print ("Approving tool call: " +:+ str_tool_call sdk tool_call)) ;;
             approval <- new_ToolApproval tool_call (headers tool) ;;
             ret (tool_approvals ++ [approval]))
            (fun e =>
               print ("Error approving tool_call " +:+ tool_call_id_of tool_call
                      +:+ ": " +:+ exn_text e) ;;
               ret tool_approvals) ;;
        approve_tool_calls v tool rest tool_approvals'
      else approve_tool_calls v tool rest tool_approvals
  end.

(** [isinstance(run.required_action, SubmitToolApprovalAction)], with
    the [submit_tool_approval.tool_calls] of the action. *)
Definition approval_request (r : Run) : option (list RequiredToolCall) :=
  match required_action r with
  | SubmitToolApprovalAction tool_calls => Some tool_calls
  | _ => None
  end.

(** One iteration of the [while] body. *)
Definition poll_once (v : Variant) (thread : string) (tool : McpTool)
           (run : Run) : Prog W (Flow Run) :=
  sleep 1 ;;
  run <- runs_get thread (run_id run) ;;
  match (if String.eqb (status run) "requires_action"
         then approval_request run else None) with
  | Some [] =>
      print "No tool calls provided - cancelling run" ;;
      runs_cancel thread (run_id run) ;;
      ret (Break run)
  | Some tool_calls =>
      tool_approvals <- approve_tool_calls v tool tool_calls [] ;;
      when (verbose v)
        (print ("tool_approvals: " +:+ repr_tool_approvals sdk tool_approvals)) ;;
      match tool_approvals with
      | [] => ret tt
      | _ :: _ =>
          runs_submit_tool_outputs thread (run_id run) tool_approvals ;;
          ret tt
      end ;;
      when (verbose v) (print ("Current run status: " +:+ status run)) ;;
      ret (Next run)
  | None =>
      when (verbose v) (print ("Current run status: " +:+ status run)) ;;
      ret (Next run)
  end.

(** [while run.status in [...]: ...], at most [fuel] iterations. *)
Fixpoint poll (v : Variant) (fuel : nat) (thread : string) (tool : McpTool)
         (run : Run) : Prog W Run :=
  if is_pending (status run) then
    match fuel with
    | O => diverge
    | S fuel' =>
        flow <- poll_once v thread tool run ;;
        match flow with
        | Break run' => ret run'
        | Next run' => poll v fuel' thread tool run'
        end
    end
  else ret run.

(** [await asyncio.sleep(1)] when the task is cancelled while it waits
    there: asyncio throws [CancelledError] into the coroutine at the
    [await]. *)
Definition sleep_cancelled {A} (seconds : nat) : Prog W A :=
  fun s => (Cancelled, s, [Sleep seconds]).

(** The loop of [send_message] in a task that can be cancelled.  The
    sleep is the one [await] of the method, so it is there that a
    cancellation reaches it: [cancel_at] is [Some n] when the task is
    cancelled during the sleep of the iteration number [n], counted from
    0, and [None] when it is not cancelled, in which case the loop is
    [poll Chat]. *)
Fixpoint poll_awaited (cancel_at : option nat) (fuel : nat) (thread : string)
         (tool : McpTool) (run : Run) : Prog W Run :=
  if is_pending (status run) then
    match fuel with
    | O => diverge
    | S fuel' =>
        match cancel_at with
        | Some O => sleep_cancelled 1
        | _ =>
            flow <- poll_once Chat thread tool run ;;
            match flow with
            | Break run' => ret run'
            | Next run' =>
                poll_awaited (option_map Nat.pred cancel_at) fuel' thread tool run'
            end
        end
    end
  else ret run.

(** ** [main.py] *)

Definition configure_headers (token : option string) (tool : McpTool)
  : Prog W McpTool :=
  if truthy token
  then ret (update_headers "Authorization" ("Bearer " +:+ py_str token) tool)
  else print no_token_warning ;; ret tool.

(** The calls of one step, [for call in tool_calls]. *)
Fixpoint print_tool_calls (calls : list (option string * option string))
  : Prog W unit :=
  match calls with
  | [] => ret tt
  | call :: rest =>
      print ("    Tool Call ID: " +:+ py_str (fst call)) ;;
      print ("    Type: " +:+ py_str (snd call)) ;;
      print_tool_calls rest
  end.

(** [for step in run_steps] *)
Fixpoint print_run_steps (run_steps : list RunStep) : Prog W unit :=
  match run_steps with
  | [] => ret tt
  | step :: rest =>
      print ("Step " +:+ step_id step +:+ " status: " +:+ step_status step) ;;
      match step_tool_calls step with
      | [] => ret tt
      | _ :: _ =>
          print "  MCP Tool calls:" ;;
          print_tool_calls (step_tool_calls step)
      end ;;
      print "" ;;
      print_run_steps rest
  end.

Definition rule : string := repeat_str "-" 50.

(** [for msg in messages] *)
Fixpoint print_conversation (messages : list Message) : Prog W unit :=
  match messages with
  | [] => ret tt
  | msg :: rest =>
      match text_messages msg with
      | [] => ret tt
      | first :: others =>
          let last_text := List.last others first in
          print (upper (role msg) +:+ ": " +:+ last_text) ;;
          print rule
      end ;;
      print_conversation rest
  end.

(** What the script does once the loop is over. *)
Definition report_run (thread : string) (run : Run) : Prog W unit :=
  print ("Run completed with status: " +:+ status run) ;;
  when (String.eqb (status run) "failed")
    (print ("Run failed: " +:+ last_error run)) ;;
  run_steps <- run_steps_list thread (run_id run) ;;
  print_run_steps run_steps ;;
  messages <- messages_list thread ;;
  print (nl +:+ "Conversation:") ;;
  print rule ;;
  print_conversation messages.

Definition user_question : string := "Qué temperatura hace en el salón?".

(** The script up to the end of the poll loop: it returns the thread id
    and the run the loop ended with. *)
Definition main_session (fuel : nat) (environ : gmap string string)
           (mcp_tool : McpTool) : Prog W (string * Run) :=
  let mcp_server_url := environ !! "MCP_SERVER_URL" in
  let mcp_server_label := environ !! "MCP_SERVER_LABEL" in
  let azure_model_deployment_name := environ !! "MODEL_DEPLOYMENT_NAME" in
  agent <- create_agent (py_str azure_model_deployment_name) "HomeAssistantMCPAgent"
      (main_instructions (py_str mcp_server_url) (py_str mcp_server_label))
      (definitions mcp_tool) ;;
  print ("Created agent, ID: " +:+ agent_id agent) ;;
  print ("MCP Server: " +:+ server_label mcp_tool +:+ " at " +:+ server_url mcp_tool) ;;
  thread <- threads_create ;;
  print ("Created thread, ID: " +:+ thread_id thread) ;;
  message <- messages_create (thread_id thread) "user" user_question ;;
  print ("Created message, ID: " +:+ message_id message) ;;
  let mcp_tool := set_approval_mode "never" mcp_tool in
  run <- runs_create (thread_id thread) (agent_id agent) (resources mcp_tool) ;;
  print ("Created run, ID: " +:+ run_id run) ;;
  run <- poll CLI fuel (thread_id thread) mcp_tool run ;;
  ret (thread_id thread, run).

(** The module body of [main.py], run with the environment [environ]
    (after [load_dotenv()]). *)
Definition main (fuel : nat) (environ : gmap string string) : Prog W unit :=
  let mcp_server_url := environ !! "MCP_SERVER_URL" in
  let mcp_server_label := environ !! "MCP_SERVER_LABEL" in
  let mcp_server_token := environ !! "MCP_SERVER_TOKEN" in
  let azure_project_endpoint := environ !! "PROJECT_ENDPOINT" in
  check_required_vars environ ;;
  emit (ClientOpen (py_str azure_project_endpoint)) ;;
  mcp_tool <- configure_headers mcp_server_token
                (new_McpTool (py_str mcp_server_label) (py_str mcp_server_url)) ;;
  with_client
    (session <- main_session fuel environ mcp_tool ;;
     report_run (fst session) (snd session)).

(** ** [mainchat.py]: [AzureAIAgentHandler] *)

Definition set_project_client (v : option string) (h : AzureAIAgentHandler) :=
  mkHandler v (agents_client h) (agent h) (thread h) (mcp_tool h).
Definition set_agents_client (v : option string) (h : AzureAIAgentHandler) :=
  mkHandler (project_client h) v (agent h) (thread h) (mcp_tool h).
Definition set_agent (v : option Agent) (h : AzureAIAgentHandler) :=
  mkHandler (project_client h) (agents_client h) v (thread h) (mcp_tool h).
Definition set_thread (v : option Thread) (h : AzureAIAgentHandler) :=
  mkHandler (project_client h) (agents_client h) (agent h) v (mcp_tool h).
Definition set_mcp_tool (v : option McpTool) (h : AzureAIAgentHandler) :=
  mkHandler (project_client h) (agents_client h) (agent h) (thread h) v.

(** [self.field = value] *)
Definition assign (setter : AzureAIAgentHandler -> AzureAIAgentHandler)
  : Prog W unit :=
  self <- get_self ;; set_self (setter self).

(** The [try] block of [initialize]. *)
Definition initialize_body (environ : gmap string string) : Prog W bool :=
  let mcp_server_url := environ !! "MCP_SERVER_URL" in
  let mcp_server_label := environ !! "MCP_SERVER_LABEL" in
  let mcp_server_token := environ !! "MCP_SERVER_TOKEN" in
  let azure_project_endpoint := environ !! "PROJECT_ENDPOINT" in
  let azure_model_deployment_name := environ !! "MODEL_DEPLOYMENT_NAME" in
  check_required_vars environ ;;
  emit (ClientOpen (py_str azure_project_endpoint)) ;;
  assign (set_project_client (Some (py_str azure_project_endpoint))) ;;
  assign (set_mcp_tool
            (Some (new_McpTool (py_str mcp_server_label) (py_str mcp_server_url)))) ;;
  (if truthy mcp_server_token
   then
     self <- get_self ;;
     tool <- attr_of (mcp_tool self) "update_headers" ;;
     assign (set_mcp_tool
               (Some (update_headers "Authorization"
                        ("Bearer " +:+ py_str mcp_server_token) tool)))
   else print no_token_warning) ;;
  self <- get_self ;;
  client <- attr_of (project_client self) "agents" ;;
  assign (set_agents_client (Some client)) ;;
  self <- get_self ;;
  _ <- attr_of (agents_client self) "create_agent" ;;
  tool <- attr_of (mcp_tool self) "definitions" ;;
  new_agent <- create_agent (py_str azure_model_deployment_name) "HomeAssistantMCPChatAgent"
      (chat_instructions (py_str mcp_server_url) (py_str mcp_server_label))
      (definitions tool) ;;
  assign (set_agent (Some new_agent)) ;;
  self <- get_self ;;
  _ <- attr_of (agents_client self) "threads" ;;
  new_thread <- threads_create ;;
  assign (set_thread (Some new_thread)) ;;
  self <- get_self ;;
  tool <- attr_of (mcp_tool self) "set_approval_mode" ;;
  assign (set_mcp_tool (Some (set_approval_mode "never" tool))) ;;
  ret true.

Definition initialize (environ : gmap string string) : Prog W bool :=
  try_except (initialize_body environ)
    (fun e => print ("Error initializing agent: " +:+ exn_text e) ;; ret false).

(** [for msg in messages: if msg.role == "assistant" and
    msg.text_messages: return ...], then the fixed answer. *)
Definition no_response : string := "No response received from agent.".

Fixpoint latest_assistant_response (messages : list Message) : string :=
  match messages with
  | [] => no_response
  | msg :: rest =>
      if String.eqb (role msg) "assistant" && has_items (text_messages msg)
      then List.last (text_messages msg) ""
      else latest_assistant_response rest
  end.

(** The [try] block of [send_message], up to the end of the poll loop:
    it returns the thread id and the run the loop ended with.  Nothing
    assigns to the attributes of [self] while a message is handled, so
    the loop is given the thread id and the tool that the calls before it
    have read.  The loop itself is a parameter: [poll Chat] when the task
    runs to its end, [poll_awaited] when it may be cancelled. *)
Definition send_message_run_with (loop : string -> McpTool -> Run -> Prog W Run)
           (content : string) : Prog W (string * Run) :=
  self <- get_self ;;
  _ <- attr_of (agents_client self) "messages" ;;
  th <- attr_of (thread self) "id" ;;
  _ <- messages_create (thread_id th) "user" content ;;
  _ <- attr_of (agents_client self) "runs" ;;
  th <- attr_of (thread self) "id" ;;
  ag <- attr_of (agent self) "id" ;;
  tool <- attr_of (mcp_tool self) "resources" ;;
  run <- runs_create (thread_id th) (agent_id ag) (resources tool) ;;
  run <- loop (thread_id th) tool run ;;
  ret (thread_id th, run).

Definition send_message_run (fuel : nat) (content : string)
  : Prog W (string * Run) :=
  send_message_run_with (poll Chat fuel) content.

(** The rest of the [try] block. *)
Definition send_message_reply (thread : string) (run : Run) : Prog W string :=
  if String.eqb (status run) "failed"
  then ret ("Error: Run failed - " +:+ last_error run)
  else
    messages <- messages_list thread ;;
    ret (latest_assistant_response messages).

Definition send_message_body_with (loop : string -> McpTool -> Run -> Prog W Run)
           (content : string) : Prog W string :=
  session <- send_message_run_with loop content ;;
  send_message_reply (fst session) (snd session).

Definition send_message_with (loop : string -> McpTool -> Run -> Prog W Run)
           (content : string) : Prog W string :=
  try_except (send_message_body_with loop content)
    (fun e => ret ("Error processing message: " +:+ exn_text e)).

(** [send_message] in a task that runs to its end. *)
Definition send_message_body (fuel : nat) (content : string) : Prog W string :=
  send_message_body_with (poll Chat fuel) content.

Definition send_message (fuel : nat) (content : string) : Prog W string :=
  send_message_with (poll Chat fuel) content.

(** [send_message] in a task that is cancelled as [cancel_at] tells. *)
Definition send_message_awaited (cancel_at : option nat) (fuel : nat)
           (content : string) : Prog W string :=
  send_message_with (poll_awaited cancel_at fuel) content.

(** [cleanup]: close the client if there is one. *)
Definition cleanup : Prog W unit :=
  self <- get_self ;;
  match project_client self with
  | Some _ => emit ClientClose
  | None => ret tt
  end.

End Scripts.

(** ** A scripted service

    A concrete service for running the scripts: it answers the polls of a
    run from a fixed list, one reply per poll, and every other request
    with a fixed value.  Building an approval fails for the tool calls
    whose id is listed in [faulty_calls]. *)

Record Scenario := mkScenario {
  created_run : Run;
  polls : list (Exception + Run);
  cancel_reply : Exception + Run;
  conversation : Exception + list Message;
  run_steps : list RunStep
}.

Definition service_down : Exception := mkExn "HttpResponseError" "service unavailable".

Definition scripted_answer (c : Call) (w : Scenario)
  : (Exception + Response c) * Scenario :=
  match c return (Exception + Response c) * Scenario with
  | CreateAgent _ _ _ _ => (inr (mkAgent "asst_1"), w)
  | ThreadsCreate => (inr (mkThread "thread_1"), w)
  | MessagesCreate _ r content => (inr (mkMessage "msg_1" r [content]), w)
  | RunsCreate _ _ _ => (inr (created_run w), w)
  | RunsGet _ _ =>
      match polls w with
      | [] => (inl service_down, w)
      | reply :: rest =>
          (reply, mkScenario (created_run w) rest (cancel_reply w)
                             (conversation w) (run_steps w))
      end
  | RunsCancel _ _ => (cancel_reply w, w)
  | RunsSubmitToolOutputs _ _ _ => (inr (created_run w), w)
  | RunStepsList _ _ => (inr (run_steps w), w)
  | MessagesList _ => (conversation w, w)
  end.

Definition bad_arguments : Exception := mkExn "TypeError" "bad tool call".

Definition scripted (faulty_calls : list string) : SDK Scenario :=
  mkSDK Scenario scripted_answer
    (fun tc => if existsb (String.eqb (tool_call_id_of tc)) faulty_calls
               then Some bad_arguments else None)
    (fun tc => "<tool call " +:+ tool_call_id_of tc +:+ ">")
    (fun l => "<" +:+ String.concat ", " (List.map tool_call_id l) +:+ ">").

(** The batches of approvals submitted in a sequence of events. *)
Fixpoint submitted (evs : list Event) : list (list ToolApproval) :=
  match evs with
  | [] => []
  | Request (RunsSubmitToolOutputs _ _ batch) :: rest => batch :: submitted rest
  | _ :: rest => submitted rest
  end.

(** The tool resources of the runs created in a sequence of events. *)
Fixpoint created_with (evs : list Event) : list ToolResources :=
  match evs with
  | [] => []
  | Request (RunsCreate _ _ res) :: rest => res :: created_with rest
  | _ :: rest => created_with rest
  end.

(** The tool the script has configured when its session starts. *)
Definition configured_tool (environ : gmap string string) : McpTool :=
  let tool := new_McpTool (py_str (environ !! "MCP_SERVER_LABEL"))
                          (py_str (environ !! "MCP_SERVER_URL")) in
  if truthy (environ !! "MCP_SERVER_TOKEN")
  then update_headers "Authorization"
         ("Bearer " +:+ py_str (environ !! "MCP_SERVER_TOKEN")) tool
  else tool.

(** [sub] occurs in [s]. *)
Definition occurs_in (sub s : string) : Prop :=
  exists before after, s = before +:+ sub +:+ after.

(** ** What the approval loop builds *)

(** The tool calls for which a record is built: those of the MCP type
    whose record can be built. *)
Definition approvable {W} (sdk : SDK W) (tc : RequiredToolCall) : bool :=
  is_mcp_tool_call tc &&
  match approval_fault sdk tc with
  | Some _ => false
  | None => true
  end.

Definition approval_for (hdrs : gmap string string) (tc : RequiredToolCall)
  : ToolApproval :=
  mkToolApproval (tool_call_id_of tc) true hdrs.

Definition built_approvals {W} (sdk : SDK W) (tool : McpTool)
           (tool_calls : list RequiredToolCall) : list ToolApproval :=
  List.map (approval_for (headers tool)) (List.filter (approvable sdk) tool_calls).

(** The console lines of the approval loop. *)
Definition approval_lines {W} (sdk : SDK W) (v : Variant) (tc : RequiredToolCall)
  : list Event :=
  if is_mcp_tool_call tc then
    (if verbose v then [Print ("Approving tool call: " +:+ str_tool_call sdk tc)]
     else []) ++
    match approval_fault sdk tc with
    | Some e => [Print ("Error approving tool_call " +:+ tool_call_id_of tc
                        +:+ ": " +:+ exn_text e)]
    | None => []
    end
  else [].

Definition approval_log {W} (sdk : SDK W) (v : Variant)
           (tool_calls : list RequiredToolCall) : list Event :=
  List.concat (List.map (approval_lines sdk v) tool_calls).

Definition status_line (v : Variant) (run : Run) : list Event :=
  if verbose v then [Print ("Current run status: " +:+ status run)] else [].

Definition approvals_line {W} (sdk : SDK W) (v : Variant)
           (batch : list ToolApproval) : list Event :=
  if verbose v then [Print ("tool_approvals: " +:+ repr_tool_approvals sdk batch)]
  else [].

(** The result [r] of the rest of a program, after the events [evs]. *)
Definition after {W A} (evs : list Event) (r : Outcome A * State W * list Event)
  : Outcome A * State W * list Event :=
  match r with
  | (o, s, evs') => (o, s, evs ++ evs')
  end.

(** Every event of a program satisfies [P]. *)
Definition emits {W A} (P : Event -> Prop) (m : Prog W A) : Prop :=
  forall s, Forall P (snd (m s)).

(** What both files do between the check of the variables and the first
    request: open the client and, without a token, print the warning. *)
Definition startup_events (environ : gmap string string) : list Event :=
  ClientOpen (py_str (environ !! "PROJECT_ENDPOINT")) ::
  (if truthy (environ !! "MCP_SERVER_TOKEN") then [] else [Print no_token_warning]).

(** The reply of the chat variant in the words of the specification: the
    last text segment of the first message whose role is assistant and
    which has a text segment, or else the fixed answer. *)
Definition first_assistant_message (messages : list Message) : option Message :=
  List.find (fun msg => String.eqb (role msg) "assistant" &&
                        has_items (text_messages msg)) messages.

Definition first_assistant_reply (messages : list Message) : string :=
  match first_assistant_message messages with
  | Some msg => List.last (text_messages msg) ""
  | None => "No response received from agent."
  end.

(** The handler while [initialize] runs: once the client and the tool are
    set, and once the agents client is set too. *)
Definition handler_with_tool (environ : gmap string string)
           (h : AzureAIAgentHandler) : AzureAIAgentHandler :=
  mkHandler (Some (py_str (environ !! "PROJECT_ENDPOINT")))
            (Some (py_str (environ !! "PROJECT_ENDPOINT")))
            (agent h) (thread h) (Some (configured_tool environ)).

Definition handler_ready (environ : gmap string string)
           (new_agent : Agent) (new_thread : Thread) : AzureAIAgentHandler :=
  mkHandler (Some (py_str (environ !! "PROJECT_ENDPOINT")))
            (Some (py_str (environ !! "PROJECT_ENDPOINT")))
            (Some new_agent) (Some new_thread)
            (Some (set_approval_mode "never" (configured_tool environ))).

Definition chat_agent_request (environ : gmap string string) : Call :=
  CreateAgent (py_str (environ !! "MODEL_DEPLOYMENT_NAME"))
    "HomeAssistantMCPChatAgent"
    (chat_instructions (py_str (environ !! "MCP_SERVER_URL"))
                       (py_str (environ !! "MCP_SERVER_LABEL")))
    (definitions (configured_tool environ)).

Definition main_agent_request (environ : gmap string string) : Call :=
  CreateAgent (py_str (environ !! "MODEL_DEPLOYMENT_NAME"))
    "HomeAssistantMCPAgent"
    (main_instructions (py_str (environ !! "MCP_SERVER_URL"))
                       (py_str (environ !! "MCP_SERVER_LABEL")))
    (definitions (configured_tool environ)).

(** "With the variable set, the header is Bearer followed by the token":
    the claim on the token, as stated. *)
Definition bearer_when_set (environ : gmap string string) (tool : McpTool) : Prop :=
  forall token, environ !! "MCP_SERVER_TOKEN" = Some token ->
                headers tool !! "Authorization" = Some ("Bearer " +:+ token).

(** An event that creates a run does so with tool resources satisfying
    [Q]. *)
Definition carries (Q : ToolResources -> Prop) (e : Event) : Prop :=
  forall thread agent res, e = Request (RunsCreate thread agent res) -> Q res.

(** The service accepts the batch of approvals the loop has built for
    the run; an empty batch is not submitted. *)
Definition accepts {W} (sdk : SDK W) (thread : string) (run : Run)
           (batch : list ToolApproval) (w w' : W) : Prop :=
  match batch with
  | [] => w' = w
  | _ :: _ =>
      exists r : Run,
        answer sdk (RunsSubmitToolOutputs thread (run_id run) batch) w = (inr r, w')
  end.

(** The service brings the run from [run] to [final] in [n] polls: it
    answers every fetch, the run it returns either asks for nothing or
    asks approval for at least one tool call, and it accepts the batches
    built for these tool calls. *)
Inductive settles {W} (sdk : SDK W) (thread : string) (tool : McpTool)
  : Run -> W -> nat -> Run -> W -> Prop :=
| settles_now run w :
    is_pending (status run) = false ->
    settles sdk thread tool run w 0 run w
| settles_later run w (run' : Run) w' n final w_final :
    is_pending (status run) = true ->
    answer sdk (RunsGet thread (run_id run)) w = (inr run', w') ->
    (status run' <> "requires_action" \/ approval_request run' = None) ->
    settles sdk thread tool run' w' n final w_final ->
    settles sdk thread tool run w (S n) final w_final
| settles_after_approvals run w (run' : Run) w' tool_calls w'' n final w_final :
    is_pending (status run) = true ->
    answer sdk (RunsGet thread (run_id run)) w = (inr run', w') ->
    status run' = "requires_action" ->
    required_action run' = SubmitToolApprovalAction tool_calls ->
    tool_calls <> [] ->
    accepts sdk thread run' (built_approvals sdk tool tool_calls) w' w'' ->
    settles sdk thread tool run' w'' n final w_final ->
    settles sdk thread tool run w (S n) final w_final.

(** The number of polls in a sequence of events. *)
Definition polls_made (evs : list Event) : nat :=
  length (List.filter is_runs_get evs).

(** ** The claims of the specification that the code does not meet, as
    stated *)

(** "Every pending tool call receives exactly one approval record with
    approve = true carrying the configured headers, and all approvals go
    out in a single batch": one batch is submitted and each tool call
    has a record in it. *)
Definition every_call_approved (hdrs : gmap string string)
           (tool_calls : list RequiredToolCall) (evs : list Event) : Prop :=
  exists batch,
    submitted evs = [batch] /\
    forall tc, In tc tool_calls ->
      exists a, In a batch /\ tool_call_id a = tool_call_id_of tc /\
                approve a = true /\ approval_headers a = hdrs.

(** "The batch is still submitted": some submission is among the events. *)
Definition batch_submitted (evs : list Event) : Prop :=
  exists thread run batch,
    In (Request (RunsSubmitToolOutputs thread run batch)) evs.

(** "Every exception raised while a message is handled is caught at the
    top level of the send operation and converted into an error string
    that is returned, never propagated to the caller": when the [try]
    block is left by an exception, of whatever class, the caller of
    [send_message] gets a text back. *)
Definition converted_into_reply {W}
           (body result : Outcome string * State W * list Event) : Prop :=
  match fst (fst body) with
  | Raise _ | Cancelled => exists reply, fst (fst result) = Return reply
  | Return _ | Diverge => True
  end.

(** ** Concrete runs, environments and services *)

Definition run_queued : Run := mkRun "run_1" "queued" NoRequiredAction "".
Definition run_completed : Run := mkRun "run_1" "completed" NoRequiredAction "".
Definition run_failed : Run :=
  mkRun "run_1" "failed" NoRequiredAction "server_error: tool call timed out".

Definition call_1 : RequiredToolCall :=
  RequiredMcpToolCall "call_1" "get_state" "{}" "homeassistant".
Definition call_2 : RequiredToolCall :=
  RequiredFunctionToolCall "call_2" "get_weather" "{}".
Definition call_3 : RequiredToolCall :=
  RequiredMcpToolCall "call_3" "turn_on" "{}" "homeassistant".

Definition run_asking (tool_calls : list RequiredToolCall) : Run :=
  mkRun "run_1" "requires_action" (SubmitToolApprovalAction tool_calls) "".

Definition the_conversation : list Message :=
  [mkMessage "msg_3" "assistant" [];
   mkMessage "msg_2" "assistant" ["Un momento"; "22 grados"];
   mkMessage "msg_1" "user" ["temperatura?"]].

Definition scenario (replies : list (Exception + Run)) : State Scenario :=
  mkState (mkScenario run_queued replies (inr run_queued) (inr the_conversation) [])
          new_handler.

Definition env_required : gmap string string :=
  <["PROJECT_ENDPOINT" := "https://example.test/project"]>
    (<["MODEL_DEPLOYMENT_NAME" := "gpt-4o"]>
       (<["MCP_SERVER_URL" := "https://ha.test/mcp"]>
          (<["MCP_SERVER_LABEL" := "homeassistant"]> ∅))).

Definition env_token : gmap string string :=
  <["MCP_SERVER_TOKEN" := "s3cret"]> env_required.

Definition env_empty_token : gmap string string :=
  <["MCP_SERVER_TOKEN" := ""]> env_required.

Definition env_incomplete : gmap string string :=
  <["PROJECT_ENDPOINT" := "https://example.test/project"]>
    (<["MCP_SERVER_URL" := ""]> ∅).

Definition tool_with_token : McpTool :=
  update_headers "Authorization" "Bearer s3cret"
    (new_McpTool "homeassistant" "https://ha.test/mcp").

(** A handler as [initialize] leaves it. *)
Definition ready_handler : AzureAIAgentHandler :=
  mkHandler (Some "https://example.test/project")
            (Some "https://example.test/project")
            (Some (mkAgent "asst_1")) (Some (mkThread "thread_1"))
            (Some (set_approval_mode "never" tool_with_token)).

Definition chat_scenario (replies : list (Exception + Run)) : State Scenario :=
  mkState (mkScenario run_queued replies (inr run_queued) (inr the_conversation) [])
          ready_handler.

(** The events of an iteration of [main.py] in which the service asks
    approval for an MCP tool call and a function tool call. *)
Definition mixed_request_events : list Event :=
  snd (poll_once (scripted []) CLI "thread_1" tool_with_token run_queued
         (scenario [inr (run_asking [call_1; call_2])])).

(** The events of an iteration of [mainchat.py] in which the service asks
    approval for one MCP tool call whose record cannot be built. *)
Definition failed_request_events : list Event :=
  snd (poll_once (scripted ["call_1"]) Chat "thread_1" tool_with_token run_queued
         (scenario [inr (run_asking [call_1])])).

(** The events of the session of [main.py] when the first poll finds the
    run failed. *)
Definition failed_session_events : list Event :=
  snd (main_session (scripted []) 5 env_token (configured_tool env_token)
         (scenario [inr run_failed])).

(** ** The chat application of [mainchat.py]

    The three hooks of the chat runtime: [start], [main] and [end].  They
    use the module-level handler, the session store of the runtime
    ([cl.user_session]) and the messages and steps the runtime shows to
    the user. *)

(** A value kept in [cl.user_session]. *)
Inductive SessionValue :=
| SBool (b : bool)
| SText (s : string).

(** Truth value of [cl.user_session.get(key, False)]. *)
Definition session_truthy (v : option SessionValue) : bool :=
  match v with
  | Some (SBool b) => b
  | Some (SText t) => negb (String.eqb t "")
  | None => false
  end.

(** What a hook does: what the handler does behind it, a message sent to
    the chat, and the life of a step shown while a message is handled. *)
Inductive ChatEvent :=
| Backend (e : Event)
| ChatSend (author content : string)
| StepOpen (name : string)
| StepOutput (output : string)
| StepClose.

Record ChatState (W : Type) := mkChat {
  backend : State W;
  user_session : gmap string SessionValue
}.
Arguments mkChat {W} backend user_session.
Arguments backend {W} c.
Arguments user_session {W} c.

Definition ChatProg (W A : Type) : Type :=
  ChatState W -> Outcome A * ChatState W * list ChatEvent.

Definition chat_ret {W A} (a : A) : ChatProg W A := fun cs => (Return a, cs, []).

Definition chat_bind {W A B} (m : ChatProg W A) (k : A -> ChatProg W B)
  : ChatProg W B :=
  fun cs =>
    match m cs with
    | (Return a, cs1, evs1) =>
        match k a cs1 with
        | (o, cs2, evs2) => (o, cs2, evs1 ++ evs2)
        end
    | (Raise e, cs1, evs1) => (Raise e, cs1, evs1)
    | (Diverge, cs1, evs1) => (Diverge, cs1, evs1)
    | (Cancelled, cs1, evs1) => (Cancelled, cs1, evs1)
    end.

Notation "x <-- m ;;; k" := (chat_bind m (fun x => k))
  (at level 100, m at next level, right associativity).
Notation "m ;;; k" := (chat_bind m (fun _ => k))
  (at level 100, right associativity).

(** A method of the handler called from a hook. *)
Definition lift {W A} (m : Prog W A) : ChatProg W A :=
  fun cs =>
    match m (backend cs) with
    | (o, s, evs) => (o, mkChat s (user_session cs), List.map Backend evs)
    end.

Definition chat_emit {W} (e : ChatEvent) : ChatProg W unit :=
  fun cs => (Return tt, cs, [e]).

(** [await cl.Message(content=..., author=...).send()] *)
Definition send {W} (content author : string) : ChatProg W unit :=
  chat_emit (ChatSend author content).

(** [cl.user_session.set(key, value)] and [cl.user_session.get(key)] *)
Definition session_set {W} (key : string) (value : SessionValue) : ChatProg W unit :=
  fun cs => (Return tt, mkChat (backend cs) (<[key := value]> (user_session cs)), []).

Definition session_get {W} (key : string) : ChatProg W (option SessionValue) :=
  fun cs => (Return (user_session cs !! key), cs, []).

(** [async with cl.Step(name=...) as step: body]: the step is closed on
    the way out, whether the body returns or is left by an exception. *)
Definition with_step {W A} (name : string) (body : ChatProg W A) : ChatProg W A :=
  fun cs =>
    match body cs with
    | (Diverge, cs1, evs1) => (Diverge, cs1, StepOpen name :: evs1)
    | (o, cs1, evs1) => (o, cs1, StepOpen name :: evs1 ++ [StepClose])
    end.

(** [len(response)]: the number of characters of a text held as UTF-8
    bytes, that is, of the bytes that do not continue a character. *)
Definition is_continuation (c : ascii) : bool :=
  let n := nat_of_ascii c in ((128 <=? n)%nat && (n <? 192)%nat)%bool.

Fixpoint py_len (s : string) : nat :=
  match s with
  | EmptyString => 0
  | String c rest => (if is_continuation c then 0 else 1) + py_len rest
  end.

(** A number in an f-string. *)
Definition show_nat (n : nat) : string := NilZero.string_of_uint (Nat.to_uint n).

Definition initializing_message : string := "ü§ñ Initializing Azure AI agent with MCP...".
Definition initialized_message : string := "‚úÖ Agent initialized successfully! You can now ask questions about your home automation system.".
Definition not_initialized_message : string := "‚ùå Error initializing agent. Please check your environment variables configuration.".
Definition not_ready_message : string := "‚ùå Agent is not properly initialized. Please reload the page.".
Definition session_information_head : string := "üìã **Session Information:**".

Definition session_information (agent thread label : string) : string :=
  session_information_head +:+ nl +:+
  "- Agent ID: `" +:+ agent +:+ "`" +:+ nl +:+
  "- Thread ID: `" +:+ thread +:+ "`" +:+ nl +:+
  "- MCP Server: `" +:+ label +:+ "`".

Module ChatApp.
Section Hooks.
Context {W : Type}.
Variable sdk : SDK W.

(** [@cl.on_chat_start async def start()] *)
Definition start (environ : gmap string string) : ChatProg W unit :=
  send initializing_message "System" ;;;
  success <-- lift (initialize sdk environ) ;;;
  if success : bool then
    send initialized_message "System" ;;;
    session_set "agent_ready" (SBool true) ;;;
    self <-- lift get_self ;;;
    ag <-- lift (attr_of (agent self) "id") ;;;
    session_set "agent_id" (SText (agent_id ag)) ;;;
    self <-- lift get_self ;;;
    th <-- lift (attr_of (thread self) "id") ;;;
    session_set "thread_id" (SText (thread_id th)) ;;;
    self <-- lift get_self ;;;
    ag <-- lift (attr_of (agent self) "id") ;;;
    th <-- lift (attr_of (thread self) "id") ;;;
    tool <-- lift (attr_of (mcp_tool self) "server_label") ;;;
    send (session_information (agent_id ag) (thread_id th) (server_label tool))
         "System"
  else
    send not_initialized_message "System" ;;;
    session_set "agent_ready" (SBool false).

(** [@cl.on_message async def main(message)], for the text
    [message.content]. *)
Definition main (fuel : nat) (content : string) : ChatProg W unit :=
  ready <-- session_get "agent_ready" ;;;
  if negb (session_truthy ready) then
    send not_ready_message "System"
  else
    response <--
      with_step "Processing with Azure AI Agent + MCP"
        (chat_emit (StepOutput "Sending message to agent...") ;;;
         response <-- lift (send_message sdk fuel content) ;;;
         chat_emit (StepOutput ("Response received: " +:+ show_nat (py_len response)
                                +:+ " characters")) ;;;
         chat_ret response) ;;;
    send response "AI Assistant".

(** [@cl.on_chat_end async def end()] *)
Definition end_ : ChatProg W unit :=
  lift (cleanup) ;;;
  lift (print "Chat session ended, resources cleaned up.").

End Hooks.
End ChatApp.

(** A new session of the chat, over the scripted service. *)
Definition chat_start (replies : list (Exception + Run)) : ChatState Scenario :=
  mkChat (scenario replies) ∅.

(** ** The observable behaviour of the poll loop

    What one iteration does, by cases, and what the loop does, as the
    iterations follow each other. *)

Inductive iteration {W} (sdk : SDK W) (v : Variant) (thread : string)
          (tool : McpTool) (run : Run)
  : Outcome (Flow Run) -> list Event -> Prop :=
| fetch_fails e :
    iteration sdk v thread tool run (Raise e)
      [Sleep 1; Request (RunsGet thread (run_id run))]
| nothing_to_approve run' :
    (status run' <> "requires_action" \/ approval_request run' = None) ->
    iteration sdk v thread tool run (Return (Next run'))
      ([Sleep 1; Request (RunsGet thread (run_id run))] ++ status_line v run')
| cancelled run' :
    status run' = "requires_action" ->
    required_action run' = SubmitToolApprovalAction [] ->
    iteration sdk v thread tool run (Return (Break run'))
      [Sleep 1; Request (RunsGet thread (run_id run));
       Print "No tool calls provided - cancelling run";
       Request (RunsCancel thread (run_id run'))]
| cancel_fails run' e :
    status run' = "requires_action" ->
    required_action run' = SubmitToolApprovalAction [] ->
    iteration sdk v thread tool run (Raise e)
      [Sleep 1; Request (RunsGet thread (run_id run));
       Print "No tool calls provided - cancelling run";
       Request (RunsCancel thread (run_id run'))]
| nothing_built run' tool_calls :
    status run' = "requires_action" ->
    required_action run' = SubmitToolApprovalAction tool_calls ->
    tool_calls <> [] ->
    built_approvals sdk tool tool_calls = [] ->
    iteration sdk v thread tool run (Return (Next run'))
      ([Sleep 1; Request (RunsGet thread (run_id run))] ++
       approval_log sdk v tool_calls ++ approvals_line sdk v [] ++
       status_line v run')
| approvals_submitted run' tool_calls :
    status run' = "requires_action" ->
    required_action run' = SubmitToolApprovalAction tool_calls ->
    built_approvals sdk tool tool_calls <> [] ->
    iteration sdk v thread tool run (Return (Next run'))
      ([Sleep 1; Request (RunsGet thread (run_id run))] ++
       approval_log sdk v tool_calls ++
       approvals_line sdk v (built_approvals sdk tool tool_calls) ++
       [Request (RunsSubmitToolOutputs thread (run_id run')
                   (built_approvals sdk tool tool_calls))] ++
       status_line v run')
| submission_fails run' tool_calls e :
    status run' = "requires_action" ->
    required_action run' = SubmitToolApprovalAction tool_calls ->
    built_approvals sdk tool tool_calls <> [] ->
    iteration sdk v thread tool run (Raise e)
      ([Sleep 1; Request (RunsGet thread (run_id run))] ++
       approval_log sdk v tool_calls ++
       approvals_line sdk v (built_approvals sdk tool tool_calls) ++
       [Request (RunsSubmitToolOutputs thread (run_id run')
                   (built_approvals sdk tool tool_calls))]).

Inductive loop_trace {W} (sdk : SDK W) (v : Variant) (thread : string)
          (tool : McpTool)
  : Run -> Outcome Run -> list Event -> Prop :=
| loop_over run :
    is_pending (status run) = false ->
    loop_trace sdk v thread tool run (Return run) []
| loop_still_running run :
    is_pending (status run) = true ->
    loop_trace sdk v thread tool run Diverge []
| loop_goes_on run run' evs1 o evs2 :
    is_pending (status run) = true ->
    iteration sdk v thread tool run (Return (Next run')) evs1 ->
    loop_trace sdk v thread tool run' o evs2 ->
    loop_trace sdk v thread tool run o (evs1 ++ evs2)
| loop_broken run run' evs :
    is_pending (status run) = true ->
    iteration sdk v thread tool run (Return (Break run')) evs ->
    loop_trace sdk v thread tool run (Return run') evs
| loop_raises run e evs :
    is_pending (status run) = true ->
    iteration sdk v thread tool run (Raise e) evs ->
    loop_trace sdk v thread tool run (Raise e) evs.

Definition is_cancel (e : Event) : bool :=
  match e with
  | Request (RunsCancel _ _) => true
  | _ => false
  end.

Definition is_sleep (e : Event) : bool :=
  match e with
  | Sleep _ => true
  | _ => false
  end.

(** The thread a request is about, for the requests that name one. *)
Definition thread_of (c : Call) : option string :=
  match c with
  | CreateAgent _ _ _ _ => None
  | ThreadsCreate => None
  | MessagesCreate thread _ _ => Some thread
  | RunsCreate thread _ _ => Some thread
  | RunsGet thread _ => Some thread
  | RunsCancel thread _ => Some thread
  | RunsSubmitToolOutputs thread _ _ => Some thread
  | RunStepsList thread _ => Some thread
  | MessagesList thread => Some thread
  end.

(** An event of the poll loop on [thread]: a line, a sleep of one second,
    or a request to fetch, cancel or feed a run of that thread. *)
Definition loop_event (thread : string) (e : Event) : Prop :=
  match e with
  | Print _ => True
  | Sleep n => n = 1
  | Request (RunsGet t _) => t = thread
  | Request (RunsCancel t _) => t = thread
  | Request (RunsSubmitToolOutputs t _ _) => t = thread
  | _ => False
  end.

(** A submission is a non-empty batch of records that all approve and
    carry the headers [hdrs]. *)
Definition blind_approval (hdrs : gmap string string) (e : Event) : Prop :=
  match e with
  | Request (RunsSubmitToolOutputs _ _ batch) =>
      batch <> [] /\
      Forall (fun a => approve a = true /\ approval_headers a = hdrs) batch
  | _ => True
  end.

(** Every fetch of the run comes right after a sleep of one second. *)
Inductive paced : list Event -> Prop :=
| paced_nil : paced []
| paced_fetch thread run evs :
    paced evs -> paced (Sleep 1 :: Request (RunsGet thread run) :: evs)
| paced_other e evs :
    is_runs_get e = false -> paced evs -> paced (e :: evs).

(** A request to cancel, if there is one, is the last event. *)
Definition cancel_last (evs : list Event) : Prop :=
  forall before e rest,
    evs = before ++ e :: rest -> is_cancel e = true -> rest = [].

(** A program creates at most [n] runs. *)
Definition creates_at_most {W A} (n : nat) (m : Prog W A) : Prop :=
  forall s, length (created_with (snd (m s))) <= n.

Definition is_client_event (e : Event) : bool :=
  match e with
  | ClientOpen _ => true
  | ClientClose => true
  | _ => false
  end.

(** The result [r] of the rest of a hook, after the events [evs]. *)
Definition chat_after {W A} (evs : list ChatEvent)
           (r : Outcome A * ChatState W * list ChatEvent)
  : Outcome A * ChatState W * list ChatEvent :=
  match r with
  | (o, cs, evs') => (o, cs, evs ++ evs')
  end.

(** A service that refuses to create agents and to list the steps of a
    run, and otherwise answers like the scripted one. *)
Definition refusing_answer (c : Call) (w : Scenario)
  : (Exception + Response c) * Scenario :=
  match c return (Exception + Response c) * Scenario with
  | CreateAgent _ _ _ _ => (inl service_down, w)
  | ThreadsCreate => scripted_answer ThreadsCreate w
  | MessagesCreate t r content => scripted_answer (MessagesCreate t r content) w
  | RunsCreate t a res => scripted_answer (RunsCreate t a res) w
  | RunsGet t r => scripted_answer (RunsGet t r) w
  | RunsCancel t r => scripted_answer (RunsCancel t r) w
  | RunsSubmitToolOutputs t r batch =>
      scripted_answer (RunsSubmitToolOutputs t r batch) w
  | RunStepsList t r => (inl service_down, w)
  | MessagesList t => scripted_answer (MessagesList t) w
  end.

Definition refusing : SDK Scenario :=
  mkSDK Scenario refusing_answer (approval_fault (scripted []))
        (str_tool_call (scripted [])) (repr_tool_approvals (scripted [])).

(** A chat session marked ready, over a handler that is. *)
Definition ready_chat (replies : list (Exception + Run)) : ChatState Scenario :=
  mkChat (chat_scenario replies) (<["agent_ready" := SBool true]> ∅).

(** ** Stepping through programs *)

(** Equal lists of events, up to the grouping of [++]. *)
Ltac flatten :=
  repeat (rewrite <- app_assoc || rewrite app_nil_r || (progress (cbn [app])));
  reflexivity.

Section Steps.
Context {W : Type}.

Lemma bind_return {A B} (m : Prog W A) (k : A -> Prog W B) s a s1 evs1 :
  m s = (Return a, s1, evs1) ->
  bind m k s = after evs1 (k a s1).
Proof. intros Hm. unfold bind, after. now rewrite Hm. Qed.

Lemma after_after {A} evs1 evs2 (r : Outcome A * State W * list Event) :
  after evs1 (after evs2 r) = after (evs1 ++ evs2) r.
Proof. destruct r as [[o s] evs]. unfold after. now rewrite app_assoc. Qed.

Lemma bind_raise {A B} (m : Prog W A) (k : A -> Prog W B) s e s1 evs1 :
  m s = (Raise e, s1, evs1) -> bind m k s = (Raise e, s1, evs1).
Proof. intros Hm. unfold bind. now rewrite Hm. Qed.

Lemma bind_events {A B} (m : Prog W A) (k : A -> Prog W B) s :
  exists rest, snd (bind m k s) = snd (m s) ++ rest.
Proof.
  unfold bind. destruct (m s) as [[[a | e | |] s1] evs1]; simpl.
  - destruct (k a s1) as [[o s2] evs2]. now exists evs2.
  - exists []. now rewrite app_nil_r.
  - exists []. now rewrite app_nil_r.
  - exists []. now rewrite app_nil_r.
Qed.

Lemma emits_ret {A} P (a : A) : emits P (@ret W A a).
Proof. intros s. constructor. Qed.

Lemma emits_raise {A} P e : emits P (@raise W A e).
Proof. intros s. constructor. Qed.

Lemma emits_diverge {A} P : emits P (@diverge W A).
Proof. intros s. constructor. Qed.

Lemma emits_emit P e : P e -> emits P (@emit W e).
Proof. intros He s. simpl. repeat constructor. exact He. Qed.

Lemma emits_print P line : P (Print line) -> emits P (@print W line).
Proof. apply emits_emit. Qed.

Lemma emits_sleep P n : P (Sleep n) -> emits P (@sleep W n).
Proof. apply emits_emit. Qed.

Lemma emits_bind {A B} P (m : Prog W A) (k : A -> Prog W B) :
  emits P m -> (forall a, emits P (k a)) -> emits P (bind m k).
Proof.
  intros Hm Hk s. unfold bind. specialize (Hm s).
  destruct (m s) as [[[a | e | |] s1] evs1]; simpl in *; try exact Hm.
  specialize (Hk a s1). destruct (k a s1) as [[o s2] evs2]. simpl in *.
  apply Forall_app. split; assumption.
Qed.

Lemma emits_try_except {A} P (m : Prog W A) h :
  emits P m -> (forall e, emits P (h e)) -> emits P (try_except m h).
Proof.
  intros Hm Hh s. unfold try_except. specialize (Hm s).
  destruct (m s) as [[[a | e | |] s1] evs1]; simpl in *; try exact Hm.
  specialize (Hh e s1). destruct (h e s1) as [[o s2] evs2]. simpl in *.
  apply Forall_app. split; assumption.
Qed.

Lemma emits_with_client {A} P (m : Prog W A) :
  emits P m -> P ClientClose -> emits P (with_client m).
Proof.
  intros Hm Hc s. unfold with_client. specialize (Hm s).
  destruct (m s) as [[[a | e | |] s1] evs1]; simpl in *; try exact Hm;
    apply Forall_app; split; try assumption; repeat constructor; exact Hc.
Qed.

Lemma events_bind {A B} P (m : Prog W A) (k : A -> Prog W B) s :
  Forall P (snd (m s)) -> (forall a, emits P (k a)) -> Forall P (snd (bind m k s)).
Proof.
  intros Hm Hk. unfold bind.
  destruct (m s) as [[[a | e | |] s1] evs1]; simpl in *; try exact Hm.
  specialize (Hk a s1). destruct (k a s1) as [[o s2] evs2]. simpl in *.
  apply Forall_app. split; assumption.
Qed.

Lemma events_try_except {A} P (m : Prog W A) h s :
  Forall P (snd (m s)) -> (forall e, emits P (h e)) ->
  Forall P (snd (try_except m h s)).
Proof.
  intros Hm Hh. unfold try_except.
  destruct (m s) as [[[a | e | |] s1] evs1]; simpl in *; try exact Hm.
  specialize (Hh e s1). destruct (h e s1) as [[o s2] evs2]. simpl in *.
  apply Forall_app. split; assumption.
Qed.

Lemma emits_bind_attr_some {A B} P (x : A) attr (k : A -> Prog W B) :
  emits P (k x) -> emits P (bind (attr_of (Some x) attr) k).
Proof.
  intros Hk s. unfold bind, attr_of, ret. specialize (Hk s).
  destruct (k x s) as [[o s1] evs]. exact Hk.
Qed.

Lemma emits_when P b (m : Prog W unit) : emits P m -> emits P (when b m).
Proof. intros Hm. destruct b; simpl; [exact Hm | apply emits_ret]. Qed.

Lemma emits_attr_of {A} P (obj : option A) attr : emits P (@attr_of W A obj attr).
Proof. destruct obj; [apply emits_ret | apply emits_raise]. Qed.

Lemma emits_get_self P : emits P (@get_self W).
Proof. intros s. constructor. Qed.

Lemma emits_set_self P h : emits P (@set_self W h).
Proof. intros s. constructor. Qed.

Lemma emits_request P (sdk : SDK W) c : P (Request c) -> emits P (request sdk c).
Proof.
  intros Hc s. unfold request.
  destruct (answer sdk c (world s)) as [[e | v] w]; simpl; repeat constructor; exact Hc.
Qed.

Lemma emits_create_agent P (sdk : SDK W) model name instructions tools :
  P (Request (CreateAgent model name instructions tools)) -> emits P (create_agent sdk model name instructions tools).
Proof. exact (emits_request P sdk (CreateAgent model name instructions tools)). Qed.

Lemma emits_threads_create P (sdk : SDK W) :
  P (Request (ThreadsCreate)) -> emits P (threads_create sdk).
Proof. exact (emits_request P sdk (ThreadsCreate)). Qed.

Lemma emits_messages_create P (sdk : SDK W) thread r content :
  P (Request (MessagesCreate thread r content)) -> emits P (messages_create sdk thread r content).
Proof. exact (emits_request P sdk (MessagesCreate thread r content)). Qed.

Lemma emits_runs_create P (sdk : SDK W) thread ag res :
  P (Request (RunsCreate thread ag res)) -> emits P (runs_create sdk thread ag res).
Proof. exact (emits_request P sdk (RunsCreate thread ag res)). Qed.

Lemma emits_runs_get P (sdk : SDK W) thread run :
  P (Request (RunsGet thread run)) -> emits P (runs_get sdk thread run).
Proof. exact (emits_request P sdk (RunsGet thread run)). Qed.

Lemma emits_runs_cancel P (sdk : SDK W) thread run :
  P (Request (RunsCancel thread run)) -> emits P (runs_cancel sdk thread run).
Proof. exact (emits_request P sdk (RunsCancel thread run)). Qed.

Lemma emits_runs_submit_tool_outputs P (sdk : SDK W) thread run batch :
  P (Request (RunsSubmitToolOutputs thread run batch)) -> emits P (runs_submit_tool_outputs sdk thread run batch).
Proof. exact (emits_request P sdk (RunsSubmitToolOutputs thread run batch)). Qed.

Lemma emits_run_steps_list P (sdk : SDK W) thread run :
  P (Request (RunStepsList thread run)) -> emits P (run_steps_list sdk thread run).
Proof. exact (emits_request P sdk (RunStepsList thread run)). Qed.

Lemma emits_messages_list P (sdk : SDK W) thread :
  P (Request (MessagesList thread)) -> emits P (messages_list sdk thread).
Proof. exact (emits_request P sdk (MessagesList thread)). Qed.

End Steps.

(** ** The approval loop, step by step *)

Section ApprovalLoop.
Context {W : Type}.
Variable sdk : SDK W.

Lemma approve_tool_calls_run v tool tool_calls acc s :
  approve_tool_calls sdk v tool tool_calls acc s =
  (Return (acc ++ built_approvals sdk tool tool_calls), s,
   approval_log sdk v tool_calls).
Proof.
  revert acc. induction tool_calls as [| tc rest IH]; intros acc.
  - unfold built_approvals, approval_log. simpl. unfold ret.
    now rewrite app_nil_r.
  - unfold built_approvals, approval_log, approvable, approval_lines in *.
    cbn [approve_tool_calls List.filter List.map List.concat].
    destruct (is_mcp_tool_call tc) eqn:Hmcp; cbn [andb].
    + unfold bind at 1, try_except, new_ToolApproval.
      destruct (approval_fault sdk tc) as [e |] eqn:Hfault.
      * destruct v; cbn; rewrite IH; reflexivity.
      * destruct v; cbn; rewrite IH; cbn; rewrite <- app_assoc; reflexivity.
    + rewrite IH. reflexivity.
Qed.

Lemma submitted_app l1 l2 : submitted (l1 ++ l2) = submitted l1 ++ submitted l2.
Proof.
  induction l1 as [| e l1 IH]; [reflexivity |].
  destruct e as [| | | | c]; simpl; try exact IH.
  destruct c; simpl; try exact IH. now rewrite IH.
Qed.

Lemma submitted_approval_log v tool_calls :
  submitted (approval_log sdk v tool_calls) = [].
Proof.
  unfold approval_log. induction tool_calls as [| tc rest IH]; [reflexivity |].
  cbn [List.map List.concat]. rewrite submitted_app, IH, app_nil_r.
  unfold approval_lines.
  destruct (is_mcp_tool_call tc), (verbose v), (approval_fault sdk tc); reflexivity.
Qed.

Lemma submitted_status_line v run : submitted (status_line v run) = [].
Proof. unfold status_line. now destruct (verbose v). Qed.

Lemma submitted_approvals_line v batch : submitted (approvals_line sdk v batch) = [].
Proof. unfold approvals_line. now destruct (verbose v). Qed.

(** An iteration that finds a request for approvals with at least one
    tool call. *)
Lemma poll_once_approvals v thread tool run s run' w' tool_calls :
  answer sdk (RunsGet thread (run_id run)) (world s) = (inr run', w') ->
  status run' = "requires_action" ->
  required_action run' = SubmitToolApprovalAction tool_calls ->
  tool_calls <> [] ->
  let batch := built_approvals sdk tool tool_calls in
  let before :=
    [Sleep 1; Request (RunsGet thread (run_id run))] ++
    approval_log sdk v tool_calls ++ approvals_line sdk v batch in
  poll_once sdk v thread tool run s =
  match batch with
  | [] => (Return (Next run'), mkState w' (agent_handler s),
           before ++ status_line v run')
  | _ :: _ =>
      let submit := RunsSubmitToolOutputs thread (run_id run') batch in
      match answer sdk submit w' with
      | (inr _, w'') =>
          (Return (Next run'), mkState w'' (agent_handler s),
           before ++ [Request submit] ++ status_line v run')
      | (inl e, w'') =>
          (Raise e, mkState w'' (agent_handler s), before ++ [Request submit])
      end
  end.
Proof.
  intros Hget Hstatus Haction Hne batch before.
  unfold poll_once.
  rewrite (bind_return _ _ s tt s [Sleep 1]) by reflexivity.
  rewrite (bind_return _ _ s run' (mkState w' (agent_handler s))
             [Request (RunsGet thread (run_id run))])
    by (unfold runs_get, request; now rewrite Hget).
  rewrite after_after.
  unfold approval_request. rewrite Haction.
  replace (String.eqb (status run') "requires_action") with true
    by now rewrite Hstatus.
  destruct tool_calls as [| tc rest]; [contradiction |].
  rewrite (bind_return _ _ _ _ _ _ (approve_tool_calls_run v tool (tc :: rest) [] _)).
  rewrite after_after. cbn [app]. fold batch.
  subst before. unfold approvals_line, status_line, when.
  destruct batch as [| a batch'].
  - destruct (verbose v); cbn; flatten.
  - unfold bind, runs_submit_tool_outputs, request, print, emit, ret, after.
    destruct (verbose v); cbn;
      destruct (answer sdk (RunsSubmitToolOutputs thread (run_id run') (a :: batch')) w')
        as [[e | r] w'']; cbn; flatten.
Qed.

End ApprovalLoop.

(** ** The poll loop, step by step *)

Section PollLoop.
Context {W : Type}.
Variable sdk : SDK W.

Lemma is_pending_iff st :
  is_pending st = true <-> In st ["queued"; "in_progress"; "requires_action"].
Proof.
  unfold is_pending, pending_statuses. rewrite existsb_exists. split.
  - intros [x [Hin Heq]]. apply String.eqb_eq in Heq. now subst.
  - intros Hin. exists st. split; [exact Hin | apply String.eqb_refl].
Qed.

Lemma is_pending_not st :
  is_pending st = false <-> ~ In st ["queued"; "in_progress"; "requires_action"].
Proof.
  rewrite <- is_pending_iff. destruct (is_pending st); split; congruence.
Qed.

Lemma snd_after {A} evs (r : Outcome A * State W * list Event) :
  snd (after evs r) = evs ++ snd r.
Proof. now destruct r as [[o s] evs']. Qed.

Lemma snd_request c s : snd (request sdk c s) = [Request c].
Proof. unfold request. now destruct (answer sdk c (world s)) as [[e | v] w]. Qed.

Lemma request_answered c s v w :
  answer sdk c (world s) = (inr v, w) ->
  request sdk c s = (Return v, mkState w (agent_handler s), [Request c]).
Proof. intros H. unfold request. now rewrite H. Qed.

Lemma snd_runs_get thread run s :
  snd (runs_get sdk thread run s) = [Request (RunsGet thread run)].
Proof. exact (snd_request (RunsGet thread run) s). Qed.

Lemma runs_get_answered thread run s run' w' :
  answer sdk (RunsGet thread run) (world s) = (inr run', w') ->
  runs_get sdk thread run s =
  (Return run', mkState w' (agent_handler s), [Request (RunsGet thread run)]).
Proof. exact (request_answered (RunsGet thread run) s run' w'). Qed.

Lemma messages_list_answered thread s messages w' :
  answer sdk (MessagesList thread) (world s) = (inr messages, w') ->
  messages_list sdk thread s =
  (Return messages, mkState w' (agent_handler s), [Request (MessagesList thread)]).
Proof. exact (request_answered (MessagesList thread) s messages w'). Qed.

(** Every iteration sleeps one second and fetches the run. *)
Lemma poll_once_fetches v thread tool run s :
  exists evs,
    snd (poll_once sdk v thread tool run s) =
    Sleep 1 :: Request (RunsGet thread (run_id run)) :: evs.
Proof.
  unfold poll_once.
  rewrite (bind_return _ _ s tt s [Sleep 1]) by reflexivity.
  rewrite snd_after.
  match goal with
  | |- context [bind ?m ?k s] => destruct (bind_events m k s) as [rest Hrest]
  end.
  exists rest. now rewrite Hrest, snd_runs_get.
Qed.

(** An iteration that finds nothing to approve. *)
Lemma poll_once_plain v thread tool run s run' w' :
  answer sdk (RunsGet thread (run_id run)) (world s) = (inr run', w') ->
  (status run' <> "requires_action" \/ approval_request run' = None) ->
  poll_once sdk v thread tool run s =
  (Return (Next run'), mkState w' (agent_handler s),
   [Sleep 1; Request (RunsGet thread (run_id run))] ++ status_line v run').
Proof.
  intros Hget Hplain. unfold poll_once.
  rewrite (bind_return _ _ s tt s [Sleep 1]) by reflexivity.
  rewrite (bind_return _ _ _ _ _ _ (runs_get_answered _ _ _ _ _ Hget)).
  rewrite after_after.
  assert ((if String.eqb (status run') "requires_action"
           then approval_request run' else None) = None) as ->.
  { destruct Hplain as [Hst | Hnone].
    - apply String.eqb_neq in Hst. now rewrite Hst.
    - rewrite Hnone. now destruct (String.eqb _ _). }
  unfold status_line, when. destruct (verbose v); reflexivity.
Qed.

(** An iteration that finds a request for approvals without tool calls. *)
Lemma poll_once_cancel v thread tool run s run' w' :
  answer sdk (RunsGet thread (run_id run)) (world s) = (inr run', w') ->
  status run' = "requires_action" ->
  required_action run' = SubmitToolApprovalAction [] ->
  let cancel := RunsCancel thread (run_id run') in
  poll_once sdk v thread tool run s =
  (match fst (answer sdk cancel w') with
   | inr _ => Return (Break run')
   | inl e => Raise e
   end,
   mkState (snd (answer sdk cancel w')) (agent_handler s),
   [Sleep 1; Request (RunsGet thread (run_id run));
    Print "No tool calls provided - cancelling run"; Request cancel]).
Proof.
  intros Hget Hstatus Haction cancel. unfold poll_once.
  rewrite (bind_return _ _ s tt s [Sleep 1]) by reflexivity.
  rewrite (bind_return _ _ _ _ _ _ (runs_get_answered _ _ _ _ _ Hget)).
  rewrite after_after.
  unfold approval_request. rewrite Haction.
  replace (String.eqb (status run') "requires_action") with true
    by now rewrite Hstatus.
  unfold bind, print, emit, runs_cancel, request, ret, after. cbn. fold cancel.
  destruct (answer sdk cancel w') as [[e | r] w'']; reflexivity.
Qed.

Lemma poll_step v fuel thread tool run s :
  is_pending (status run) = true ->
  poll sdk v (S fuel) thread tool run s =
  bind (poll_once sdk v thread tool run)
       (fun flow => match flow with
                    | Break run' => ret run'
                    | Next run' => poll sdk v fuel thread tool run'
                    end) s.
Proof. intros Hp. cbn [poll]. now rewrite Hp. Qed.

Lemma poll_done v fuel thread tool run s :
  is_pending (status run) = false ->
  poll sdk v fuel thread tool run s = (Return run, s, []).
Proof. intros Hp. destruct fuel; cbn [poll]; now rewrite Hp. Qed.

(** With a pending status and fuel left, the loop sleeps and fetches. *)
Lemma poll_fetches v fuel thread tool run s :
  is_pending (status run) = true ->
  exists rest,
    snd (poll sdk v (S fuel) thread tool run s) =
    Sleep 1 :: Request (RunsGet thread (run_id run)) :: rest.
Proof.
  intros Hin. rewrite poll_step by exact Hin.
  match goal with
  | |- context [bind ?m ?k s] => destruct (bind_events m k s) as [rest Hrest]
  end.
  destruct (poll_once_fetches v thread tool run s) as [evs1 Hevs1].
  exists (evs1 ++ rest). now rewrite Hrest, Hevs1.
Qed.

Lemma polls_made_app l1 l2 : polls_made (l1 ++ l2) = polls_made l1 + polls_made l2.
Proof. unfold polls_made. now rewrite List.filter_app, length_app. Qed.

Lemma polls_made_status_line v run : polls_made (status_line v run) = 0.
Proof. unfold status_line. now destruct (verbose v). Qed.

Lemma polls_made_approval_log v tool_calls :
  polls_made (approval_log sdk v tool_calls) = 0.
Proof.
  unfold approval_log. induction tool_calls as [| tc rest IH]; [reflexivity |].
  cbn [List.map List.concat]. rewrite polls_made_app, IH.
  unfold approval_lines.
  destruct (is_mcp_tool_call tc), (verbose v), (approval_fault sdk tc); reflexivity.
Qed.

Lemma polls_made_approvals_line v batch :
  polls_made (approvals_line sdk v batch) = 0.
Proof. unfold approvals_line. now destruct (verbose v). Qed.

(** An iteration that handles a request for approvals which the service
    accepts goes back to the loop test. *)
Lemma poll_once_accepted v thread tool run s run' w' tool_calls w'' :
  answer sdk (RunsGet thread (run_id run)) (world s) = (inr run', w') ->
  status run' = "requires_action" ->
  required_action run' = SubmitToolApprovalAction tool_calls ->
  tool_calls <> [] ->
  accepts sdk thread run' (built_approvals sdk tool tool_calls) w' w'' ->
  exists evs,
    poll_once sdk v thread tool run s =
    (Return (Next run'), mkState w'' (agent_handler s),
     Sleep 1 :: Request (RunsGet thread (run_id run)) :: evs) /\
    polls_made evs = 0 /\
    submitted evs =
    match built_approvals sdk tool tool_calls with
    | [] => []
    | batch => [batch]
    end.
Proof.
  intros Hget Hstatus Haction Hne Haccepts.
  rewrite (poll_once_approvals sdk v thread tool run s run' w' tool_calls
             Hget Hstatus Haction Hne).
  cbv zeta. unfold accepts in Haccepts.
  destruct (built_approvals sdk tool tool_calls) as [| a batch].
  - subst w''.
    exists (approval_log sdk v tool_calls ++ approvals_line sdk v [] ++
            status_line v run').
    split; [f_equal; flatten |].
    rewrite !polls_made_app, !submitted_app.
    rewrite polls_made_approval_log, polls_made_approvals_line,
      polls_made_status_line.
    rewrite submitted_approval_log, submitted_approvals_line,
      submitted_status_line.
    split; reflexivity.
  - destruct Haccepts as [r Hsubmit]. rewrite Hsubmit.
    exists (approval_log sdk v tool_calls ++ approvals_line sdk v (a :: batch) ++
            [Request (RunsSubmitToolOutputs thread (run_id run') (a :: batch))] ++
            status_line v run').
    split; [f_equal; flatten |].
    rewrite !polls_made_app, !submitted_app.
    rewrite polls_made_approval_log, polls_made_approvals_line,
      polls_made_status_line.
    rewrite submitted_approval_log, submitted_approvals_line,
      submitted_status_line.
    split; reflexivity.
Qed.

Lemma settles_final thread tool run w n final w_final :
  settles sdk thread tool run w n final w_final -> is_pending (status final) = false.
Proof. induction 1; assumption. Qed.

(** With enough fuel, the loop returns the run the service settles on,
    after exactly as many polls as the service needs. *)
Lemma poll_settles v thread tool run w n final w_final h fuel :
  settles sdk thread tool run w n final w_final ->
  n <= fuel ->
  exists evs,
    poll sdk v fuel thread tool run (mkState w h) =
    (Return final, mkState w_final h, evs) /\
    polls_made evs = n.
Proof.
  intros Hsettles. revert fuel.
  induction Hsettles
    as [run w Hdone
       | run w run' w' n final w_final Hpending Hget Hplain _ IH
       | run w run' w' tool_calls w'' n final w_final
             Hpending Hget Hstatus Haction Hne Haccepts _ IH];
    intros fuel Hfuel.
  - exists []. split; [now apply poll_done | reflexivity].
  - destruct fuel as [| fuel]; [lia |].
    destruct (IH fuel ltac:(lia)) as (evs & Hrest & Hcount).
    rewrite poll_step by exact Hpending.
    rewrite (bind_return _ _ _ _ _ _
               (poll_once_plain v thread tool run (mkState w h) run' w' Hget Hplain)).
    cbn [agent_handler]. rewrite Hrest. unfold after.
    eexists. split; [reflexivity |].
    rewrite !polls_made_app, polls_made_status_line, Hcount. reflexivity.
  - destruct fuel as [| fuel]; [lia |].
    destruct (IH fuel ltac:(lia)) as (evs & Hrest & Hcount).
    destruct (poll_once_accepted v thread tool run (mkState w h) run' w' tool_calls w''
                Hget Hstatus Haction Hne Haccepts) as (evs1 & Honce & Hnone & _).
    rewrite poll_step by exact Hpending.
    rewrite (bind_return _ _ _ _ _ _ Honce).
    cbn [agent_handler]. rewrite Hrest. unfold after.
    eexists. split; [reflexivity |].
    change (Sleep 1 :: Request (RunsGet thread (run_id run)) :: evs1)
      with ([Sleep 1; Request (RunsGet thread (run_id run))] ++ evs1).
    rewrite !polls_made_app, Hnone, Hcount. reflexivity.
Qed.

End PollLoop.

(** ** The poll loop: what the specification claims *)

Section PollClaims.
Context {W : Type}.
Variable sdk : SDK W.

(** C2.  When an iteration of the poll loop fetches a run whose status
    is requires_action and whose required action is a request for tool
    approvals with no tool call, the script asks the service to cancel
    the run and leaves the loop at once, whatever fuel the loop has
    left: after the fetch the loop only prints its notice and sends the
    cancel request, and it ends with the fetched run.  (Should the
    cancel request itself raise, the loop is left by that exception.) *)
Theorem empty_tool_calls_cancel_and_break
        v fuel thread tool run s (run' : Run) w' :
  is_pending (status run) = true ->
  answer sdk (RunsGet thread (run_id run)) (world s) = (inr run', w') ->
  status run' = "requires_action" ->
  required_action run' = SubmitToolApprovalAction [] ->
  let cancel := RunsCancel thread (run_id run') in
  poll sdk v (S fuel) thread tool run s =
  (match fst (answer sdk cancel w') with
   | inr _ => Return run'
   | inl e => Raise e
   end,
   mkState (snd (answer sdk cancel w')) (agent_handler s),
   [Sleep 1; Request (RunsGet thread (run_id run));
    Print "No tool calls provided - cancelling run"; Request cancel]).
Proof.
  intros Hpending Hget Hstatus Haction cancel.
  rewrite poll_step by exact Hpending.
  unfold bind.
  rewrite (poll_once_cancel sdk v thread tool run s run' w' Hget Hstatus Haction).
  fold cancel. destruct (fst (answer sdk cancel w')); reflexivity.
Qed.

(** C3.  The loop test is membership of the run status in
    queued, in_progress, requires_action.  With a status outside the
    set the loop ends there, with that run, without sleeping or
    fetching.  With a status in the set the loop runs its body: it
    sleeps one second and fetches the run again; when the status fetched
    is outside the set, the loop ends with the fetched run right after
    that iteration (the CLI variant prints the status first); and when
    the run fetched asks approval for tool calls and the service accepts
    the batch built for them, the loop does not end there: it goes back
    to its test with the fetched run, whose status is still in the set,
    so it sleeps and fetches again.  So when the service takes [n] polls
    to bring the run out of the set, with or without requests for
    approvals on the way, the loop polls [n] times and ends with the run
    whose status left the set.  (The one exit with a status in the set
    is the [break] of C2.) *)
Theorem poll_iterates_while_pending v fuel thread tool run s :
  (~ In (status run) ["queued"; "in_progress"; "requires_action"] ->
   poll sdk v fuel thread tool run s = (Return run, s, [])) /\
  (In (status run) ["queued"; "in_progress"; "requires_action"] ->
   (exists o s' evs,
      poll sdk v (S fuel) thread tool run s =
      (o, s', Sleep 1 :: Request (RunsGet thread (run_id run)) :: evs)) /\
   (forall (run' : Run) w',
      answer sdk (RunsGet thread (run_id run)) (world s) = (inr run', w') ->
      ~ In (status run') ["queued"; "in_progress"; "requires_action"] ->
      poll sdk v (S fuel) thread tool run s =
      (Return run', mkState w' (agent_handler s),
       [Sleep 1; Request (RunsGet thread (run_id run))] ++ status_line v run')) /\
   (forall (run' : Run) w' tool_calls w'',
      answer sdk (RunsGet thread (run_id run)) (world s) = (inr run', w') ->
      status run' = "requires_action" ->
      required_action run' = SubmitToolApprovalAction tool_calls ->
      tool_calls <> [] ->
      accepts sdk thread run' (built_approvals sdk tool tool_calls) w' w'' ->
      exists evs1 o s' evs2,
        polls_made evs1 = 0 /\
        poll sdk v (S (S fuel)) thread tool run s =
        (o, s',
         Sleep 1 :: Request (RunsGet thread (run_id run)) :: evs1 ++
         Sleep 1 :: Request (RunsGet thread (run_id run')) :: evs2) /\
        poll sdk v (S fuel) thread tool run' (mkState w'' (agent_handler s)) =
        (o, s', Sleep 1 :: Request (RunsGet thread (run_id run')) :: evs2))) /\
  (forall n final w_final,
     settles sdk thread tool run (world s) n final w_final ->
     n <= fuel ->
     ~ In (status final) ["queued"; "in_progress"; "requires_action"] /\
     exists evs,
       poll sdk v fuel thread tool run s =
       (Return final, mkState w_final (agent_handler s), evs) /\
       polls_made evs = n).
Proof.
  split; [| split].
  - intros Hout. apply poll_done. now apply is_pending_not.
  - intros Hin. apply is_pending_iff in Hin. split; [| split].
    + destruct (poll_fetches sdk v fuel thread tool run s Hin) as [rest Hrest].
      destruct (poll sdk v (S fuel) thread tool run s) as [[o s'] evs].
      exists o, s', rest. cbn [snd] in Hrest. now rewrite Hrest.
    + intros run' w' Hget Hout.
      assert (is_pending (status run') = false) as Hdone
          by now apply is_pending_not.
      assert (status run' <> "requires_action" \/ approval_request run' = None)
        as Hplain.
      { left. intros Heq. apply Hout. rewrite Heq. simpl. tauto. }
      rewrite poll_step by exact Hin.
      rewrite (bind_return _ _ _ _ _ _
                 (poll_once_plain sdk v thread tool run s run' w' Hget Hplain)).
      rewrite poll_done by exact Hdone. unfold after. now rewrite app_nil_r.
    + intros run' w' tool_calls w'' Hget Hstatus Haction Hne Haccepts.
      destruct (poll_once_accepted sdk v thread tool run s run' w' tool_calls w''
                  Hget Hstatus Haction Hne Haccepts) as (evs1 & Honce & Hnone & _).
      assert (is_pending (status run') = true) as Hagain by now rewrite Hstatus.
      destruct (poll_fetches sdk v fuel thread tool run'
                  (mkState w'' (agent_handler s)) Hagain) as [evs2 Hevs2].
      destruct (poll sdk v (S fuel) thread tool run' (mkState w'' (agent_handler s)))
        as [[o s'] evs] eqn:Hrest.
      cbn [snd] in Hevs2. subst evs.
      exists evs1, o, s', evs2. split; [exact Hnone |]. split; [| reflexivity].
      rewrite poll_step by exact Hin.
      rewrite (bind_return _ _ _ _ _ _ Honce).
      rewrite Hrest. reflexivity.
  - intros n final w_final Hsettles Hfuel. split.
    + apply is_pending_not. exact (settles_final sdk _ _ _ _ _ _ _ Hsettles).
    + destruct s as [w h].
      exact (poll_settles sdk v thread tool run w n final w_final h fuel
               Hsettles Hfuel).
Qed.

Lemma batch_submitted_iff evs : batch_submitted evs <-> submitted evs <> [].
Proof.
  unfold batch_submitted. induction evs as [| ev evs IH].
  - split; [intros (t & r & b & []) | intros H; now elim H].
  - split.
    + intros (t & r & b & [Heq | Hin]).
      * subst ev. discriminate.
      * assert (submitted evs <> []) as Hne by (apply IH; eauto).
        destruct ev as [| | | | c]; try exact Hne. destruct c; try exact Hne.
        discriminate.
    + intros Hne.
      destruct ev as [| | | | c];
        try (apply IH in Hne; destruct Hne as (t & r & b & Hin);
             exists t, r, b; now right).
      destruct c as [? ? ? ? | | ? ? ? | ? ? ? | ? ? | ? ? | t r b | ? ? | ?];
        try (apply IH in Hne; destruct Hne as (t & r & b & Hin);
             exists t, r, b; now right).
      exists t, r, b. now left.
Qed.

(** The batches submitted by an iteration that finds a request for
    approvals with at least one tool call. *)
Lemma submitted_poll_once v thread tool run s (run' : Run) w' tool_calls :
  answer sdk (RunsGet thread (run_id run)) (world s) = (inr run', w') ->
  status run' = "requires_action" ->
  required_action run' = SubmitToolApprovalAction tool_calls ->
  tool_calls <> [] ->
  submitted (snd (poll_once sdk v thread tool run s)) =
  match built_approvals sdk tool tool_calls with
  | [] => []
  | _ :: _ => [built_approvals sdk tool tool_calls]
  end.
Proof.
  intros Hget Hstatus Haction Hne.
  rewrite (poll_once_approvals sdk v thread tool run s run' w' tool_calls
             Hget Hstatus Haction Hne).
  cbv zeta.
  destruct (built_approvals sdk tool tool_calls) as [| a batch] eqn:Hbatch.
  - cbn [snd]. rewrite !submitted_app, submitted_approval_log,
      submitted_approvals_line, submitted_status_line. reflexivity.
  - destruct (answer sdk _ w') as [[e | r] w'']; cbn [snd];
      rewrite !submitted_app, submitted_approval_log,
        submitted_approvals_line, ?submitted_status_line; reflexivity.
Qed.

Lemma built_approvals_match tool tool_calls :
  Forall2 (fun tc a => tool_call_id a = tool_call_id_of tc /\
                       approve a = true /\
                       approval_headers a = headers tool)
          (List.filter (approvable sdk) tool_calls)
          (built_approvals sdk tool tool_calls).
Proof.
  unfold built_approvals.
  induction (List.filter (approvable sdk) tool_calls) as [| tc l IH];
    constructor; [now repeat split | exact IH].
Qed.

Lemma built_approvals_from_mcp tool tool_calls a :
  In a (built_approvals sdk tool tool_calls) ->
  exists tc, In tc tool_calls /\ is_mcp_tool_call tc = true /\
             tool_call_id a = tool_call_id_of tc.
Proof.
  unfold built_approvals. rewrite in_map_iff. intros (tc & Ha & Hin).
  apply filter_In in Hin. destruct Hin as [Hin Hok].
  unfold approvable in Hok. apply andb_prop in Hok.
  exists tc. subst a. now repeat split.
Qed.

Lemma built_approvals_app tool l1 l2 :
  built_approvals sdk tool (l1 ++ l2) =
  built_approvals sdk tool l1 ++ built_approvals sdk tool l2.
Proof. unfold built_approvals. now rewrite List.filter_app, List.map_app. Qed.

Lemma approval_log_app v l1 l2 :
  approval_log sdk v (l1 ++ l2) = approval_log sdk v l1 ++ approval_log sdk v l2.
Proof. unfold approval_log. now rewrite List.map_app, List.concat_app. Qed.

Lemma built_approvals_none tool tool_calls :
  Forall (fun tc => is_mcp_tool_call tc = false) tool_calls ->
  built_approvals sdk tool tool_calls = [].
Proof.
  unfold built_approvals, approvable.
  induction 1 as [| tc l Htc _ IH]; [reflexivity |].
  cbn [List.filter]. now rewrite Htc.
Qed.

Lemma approval_log_none v tool_calls :
  Forall (fun tc => is_mcp_tool_call tc = false) tool_calls ->
  approval_log sdk v tool_calls = [].
Proof.
  unfold approval_log, approval_lines.
  induction 1 as [| tc l Htc _ IH]; [reflexivity |].
  cbn [List.map List.concat]. now rewrite Htc.
Qed.

(** An iteration that finds only tool calls of another type. *)
Lemma poll_once_no_mcp v thread tool run s (run' : Run) w' tool_calls :
  answer sdk (RunsGet thread (run_id run)) (world s) = (inr run', w') ->
  status run' = "requires_action" ->
  required_action run' = SubmitToolApprovalAction tool_calls ->
  tool_calls <> [] ->
  Forall (fun tc => is_mcp_tool_call tc = false) tool_calls ->
  poll_once sdk v thread tool run s =
  (Return (Next run'), mkState w' (agent_handler s),
   [Sleep 1; Request (RunsGet thread (run_id run))] ++
   approvals_line sdk v [] ++ status_line v run').
Proof.
  intros Hget Hstatus Haction Hne Hnone.
  rewrite (poll_once_approvals sdk v thread tool run s run' w' tool_calls
             Hget Hstatus Haction Hne).
  cbv zeta. rewrite built_approvals_none, approval_log_none by assumption.
  cbn [app]. flatten.
Qed.

(** C1, as the code has it.  In an iteration that fetches a run whose
    status is requires_action and whose required action asks approval
    for a non-empty list of tool calls, the records built correspond one
    to one, in order, to the tool calls of the MCP type whose record can
    be built: each carries the id of its tool call, approve = true and
    the headers configured on the tool.  The records go out in one
    submission, and nothing is submitted when no record was built.  Tool
    calls of another type get no record. *)
Theorem mcp_tool_calls_approved_in_one_batch
        v thread tool run s (run' : Run) w' tool_calls :
  answer sdk (RunsGet thread (run_id run)) (world s) = (inr run', w') ->
  status run' = "requires_action" ->
  required_action run' = SubmitToolApprovalAction tool_calls ->
  tool_calls <> [] ->
  exists batch,
    approve_tool_calls sdk v tool tool_calls [] (mkState w' (agent_handler s)) =
    (Return batch, mkState w' (agent_handler s), approval_log sdk v tool_calls) /\
    Forall2 (fun tc a => tool_call_id a = tool_call_id_of tc /\
                         approve a = true /\
                         approval_headers a = headers tool)
            (List.filter (approvable sdk) tool_calls) batch /\
    submitted (snd (poll_once sdk v thread tool run s)) =
    match batch with
    | [] => []
    | _ :: _ => [batch]
    end.
Proof.
  intros Hget Hstatus Haction Hne.
  exists (built_approvals sdk tool tool_calls). split; [| split].
  - now rewrite approve_tool_calls_run.
  - apply built_approvals_match.
  - now apply (submitted_poll_once v thread tool run s run' w').
Qed.

(** C9.  In the same kind of iteration, every record built belongs to a
    tool call of the MCP type; a submission is made exactly when at
    least one record was built, and it carries all of them; and when no
    tool call is of that type nothing is built or submitted, the
    iteration ends normally and the loop, whose status is still
    requires_action, goes on to sleep and fetch the run again. *)
Theorem approvals_only_for_mcp_tool_calls
        v fuel thread tool run s (run' : Run) w' tool_calls :
  answer sdk (RunsGet thread (run_id run)) (world s) = (inr run', w') ->
  status run' = "requires_action" ->
  required_action run' = SubmitToolApprovalAction tool_calls ->
  tool_calls <> [] ->
  let s1 := mkState w' (agent_handler s) in
  let evs := snd (poll_once sdk v thread tool run s) in
  exists batch,
    approve_tool_calls sdk v tool tool_calls [] s1 =
    (Return batch, s1, approval_log sdk v tool_calls) /\
    (forall a, In a batch ->
       exists tc, In tc tool_calls /\ is_mcp_tool_call tc = true /\
                  tool_call_id a = tool_call_id_of tc) /\
    (batch_submitted evs <-> batch <> []) /\
    (batch <> [] -> submitted evs = [batch]) /\
    (Forall (fun tc => is_mcp_tool_call tc = false) tool_calls ->
       batch = [] /\ submitted evs = [] /\
       poll_once sdk v thread tool run s =
       (Return (Next run'), s1,
        [Sleep 1; Request (RunsGet thread (run_id run))] ++
        approvals_line sdk v [] ++ status_line v run') /\
       (is_pending (status run) = true ->
        exists o s2 rest,
          poll sdk v (S (S fuel)) thread tool run s =
          (o, s2,
           ([Sleep 1; Request (RunsGet thread (run_id run))] ++
            approvals_line sdk v [] ++ status_line v run') ++
           Sleep 1 :: Request (RunsGet thread (run_id run')) :: rest))).
Proof.
  intros Hget Hstatus Haction Hne s1 evs.
  pose proof (submitted_poll_once v thread tool run s run' w' tool_calls
                Hget Hstatus Haction Hne) as Hsub.
  fold evs in Hsub.
  exists (built_approvals sdk tool tool_calls). repeat split.
  - now rewrite approve_tool_calls_run.
  - apply built_approvals_from_mcp.
  - rewrite batch_submitted_iff, Hsub.
    now destruct (built_approvals sdk tool tool_calls).
  - rewrite batch_submitted_iff, Hsub.
    now destruct (built_approvals sdk tool tool_calls).
  - rewrite Hsub. now destruct (built_approvals sdk tool tool_calls).
  - now apply built_approvals_none.
  - rewrite Hsub. now rewrite built_approvals_none.
  - now apply (poll_once_no_mcp v thread tool run s run' w' tool_calls).
  - intros Hpending.
    rewrite poll_step by exact Hpending.
    rewrite (bind_return _ _ _ _ _ _
               (poll_once_no_mcp v thread tool run s run' w' tool_calls
                  Hget Hstatus Haction Hne H)).
    assert (is_pending (status run') = true) as Hstill by now rewrite Hstatus.
    destruct (poll_fetches sdk v fuel thread tool run' s1 Hstill) as [rest Hrest].
    fold s1. destruct (poll sdk v (S fuel) thread tool run' s1) as [[o s2] more].
    cbn [snd] in Hrest. subst more. exists o, s2, rest. reflexivity.
Qed.

Lemma built_approvals_faulty tool tc e :
  approval_fault sdk tc = Some e -> built_approvals sdk tool [tc] = [].
Proof.
  intros Hfault. unfold built_approvals, approvable. cbn [List.filter].
  rewrite Hfault. now rewrite andb_false_r.
Qed.

(** The lines of the approval loop are among the events of the
    iteration. *)
Lemma approval_log_in_poll_once v thread tool run s (run' : Run) w' tool_calls ev :
  answer sdk (RunsGet thread (run_id run)) (world s) = (inr run', w') ->
  status run' = "requires_action" ->
  required_action run' = SubmitToolApprovalAction tool_calls ->
  tool_calls <> [] ->
  In ev (approval_log sdk v tool_calls) ->
  In ev (snd (poll_once sdk v thread tool run s)).
Proof.
  intros Hget Hstatus Haction Hne Hin.
  rewrite (poll_once_approvals sdk v thread tool run s run' w' tool_calls
             Hget Hstatus Haction Hne).
  cbv zeta.
  destruct (built_approvals sdk tool tool_calls) as [| a batch].
  - cbn [snd]. rewrite !in_app_iff. tauto.
  - destruct (answer sdk _ w') as [[e | r] w'']; cbn [snd];
      rewrite !in_app_iff; tauto.
Qed.

(** C7, as the code has it.  When building the record of one tool call
    of a request raises, the exception is caught there and a line
    naming the tool call and the error is printed; the loop goes on
    with the tool calls that follow, so the records built are exactly
    those the request would give without the failing call; and these
    records are submitted, in one batch, whenever there is at least one
    of them (with none, nothing is submitted). *)
Theorem approval_failure_is_logged_and_skipped
        v thread tool run s (run' : Run) w' pre tc post e :
  answer sdk (RunsGet thread (run_id run)) (world s) = (inr run', w') ->
  status run' = "requires_action" ->
  required_action run' = SubmitToolApprovalAction (pre ++ tc :: post) ->
  is_mcp_tool_call tc = true ->
  approval_fault sdk tc = Some e ->
  let s1 := mkState w' (agent_handler s) in
  let evs := snd (poll_once sdk v thread tool run s) in
  exists batch,
    approve_tool_calls sdk v tool (pre ++ tc :: post) [] s1 =
    (Return batch, s1, approval_log sdk v (pre ++ tc :: post)) /\
    approve_tool_calls sdk v tool (pre ++ post) [] s1 =
    (Return batch, s1, approval_log sdk v (pre ++ post)) /\
    In (Print ("Error approving tool_call " +:+ tool_call_id_of tc +:+ ": "
               +:+ exn_text e)) evs /\
    submitted evs = match batch with
                    | [] => []
                    | _ :: _ => [batch]
                    end.
Proof.
  intros Hget Hstatus Haction Hmcp Hfault s1 evs.
  assert (pre ++ tc :: post <> []) as Hne by now destruct pre.
  assert (built_approvals sdk tool (pre ++ tc :: post) =
          built_approvals sdk tool (pre ++ post)) as Hsame.
  { change (tc :: post) with ([tc] ++ post).
    rewrite !built_approvals_app, (built_approvals_faulty tool tc e Hfault).
    reflexivity. }
  exists (built_approvals sdk tool (pre ++ tc :: post)). repeat split.
  - now rewrite approve_tool_calls_run.
  - now rewrite approve_tool_calls_run, Hsame.
  - apply (approval_log_in_poll_once v thread tool run s run' w' (pre ++ tc :: post));
      try assumption.
    change (tc :: post) with ([tc] ++ post).
    rewrite !approval_log_app, !in_app_iff. right. left.
    unfold approval_log, approval_lines. cbn [List.map List.concat].
    rewrite Hmcp, Hfault, app_nil_r, in_app_iff. right. now left.
  - now apply (submitted_poll_once v thread tool run s run' w').
Qed.

End PollClaims.

(** ** The poll loop on concrete services *)

Lemma empty_tool_calls_cancel_and_break_witness :
  poll (scripted []) CLI 3 "thread_1" tool_with_token run_queued
       (scenario [inr (run_asking []); inr run_completed]) =
  (Return (run_asking []), scenario [inr run_completed],
   [Sleep 1; Request (RunsGet "thread_1" "run_1");
    Print "No tool calls provided - cancelling run";
    Request (RunsCancel "thread_1" "run_1")]).
Proof.
  exact (empty_tool_calls_cancel_and_break (scripted []) CLI 2 "thread_1"
           tool_with_token run_queued
           (scenario [inr (run_asking []); inr run_completed])
           (run_asking []) (world (scenario [inr run_completed]))
           eq_refl eq_refl eq_refl eq_refl).
Defined.

Lemma poll_iterates_while_pending_witness :
  poll (scripted []) Chat 0 "thread_1" tool_with_token run_completed
       (scenario [inr run_queued]) =
  (Return run_completed, scenario [inr run_queued], []) /\
  poll (scripted []) CLI 1 "thread_1" tool_with_token run_queued
       (scenario [inr run_completed; inr run_queued]) =
  (Return run_completed, scenario [inr run_queued],
   [Sleep 1; Request (RunsGet "thread_1" "run_1");
    Print "Current run status: completed"]) /\
  (exists evs1 o s' evs2,
     polls_made evs1 = 0 /\
     poll (scripted []) Chat 2 "thread_1" tool_with_token run_queued
          (scenario [inr (run_asking [call_1]); inr run_completed]) =
     (o, s',
      Sleep 1 :: Request (RunsGet "thread_1" "run_1") :: evs1 ++
      Sleep 1 :: Request (RunsGet "thread_1" "run_1") :: evs2) /\
     poll (scripted []) Chat 1 "thread_1" tool_with_token (run_asking [call_1])
          (scenario [inr run_completed]) =
     (o, s', Sleep 1 :: Request (RunsGet "thread_1" "run_1") :: evs2)) /\
  exists evs,
    poll (scripted []) Chat 5 "thread_1" tool_with_token run_queued
         (scenario [inr run_queued; inr (run_asking [call_1; call_2]);
                    inr run_completed; inr run_queued]) =
    (Return run_completed, scenario [inr run_queued], evs) /\
    polls_made evs = 3.
Proof.
  split; [| split; [| split]].
  - apply (proj1 (poll_iterates_while_pending (scripted []) Chat 0 "thread_1"
                    tool_with_token run_completed (scenario [inr run_queued]))).
    simpl. intuition discriminate.
  - apply (proj1 (proj2 (proj1 (proj2 (poll_iterates_while_pending (scripted []) CLI 0
                                         "thread_1" tool_with_token run_queued
                                         (scenario [inr run_completed; inr run_queued])))
                           ltac:(simpl; tauto)))
             run_completed (world (scenario [inr run_queued]))).
    + reflexivity.
    + simpl. intuition discriminate.
  - apply (proj2 (proj2 (proj1 (proj2 (poll_iterates_while_pending (scripted []) Chat 0
                                         "thread_1" tool_with_token run_queued
                                         (scenario [inr (run_asking [call_1]);
                                                    inr run_completed])))
                           ltac:(simpl; tauto)))
             (run_asking [call_1]) (world (scenario [inr run_completed])) [call_1]
             (world (scenario [inr run_completed]))).
    + reflexivity.
    + reflexivity.
    + reflexivity.
    + discriminate.
    + exists run_queued. reflexivity.
  - apply (proj2 (proj2 (poll_iterates_while_pending (scripted []) Chat 5
                           "thread_1" tool_with_token run_queued
                           (scenario [inr run_queued; inr (run_asking [call_1; call_2]);
                                      inr run_completed; inr run_queued])))
             3 run_completed (world (scenario [inr run_queued]))).
    + apply (settles_later _ _ _ _ _ run_queued
               (world (scenario [inr (run_asking [call_1; call_2]);
                                 inr run_completed; inr run_queued])));
        [reflexivity | reflexivity | left; discriminate |].
      apply (settles_after_approvals _ _ _ _ _ (run_asking [call_1; call_2])
               (world (scenario [inr run_completed; inr run_queued]))
               [call_1; call_2]
               (world (scenario [inr run_completed; inr run_queued])));
        [reflexivity | reflexivity | reflexivity | reflexivity | discriminate
        | exists run_queued; reflexivity |].
      apply (settles_later _ _ _ _ _ run_completed
               (world (scenario [inr run_queued])));
        [reflexivity | reflexivity | left; discriminate |].
      apply settles_now. reflexivity.
    + lia.
Defined.

(** C1, as stated, fails: the service asks approval for an MCP tool call
    and a function tool call; one batch goes out, with the record of the
    MCP call only, and the function call gets none. *)
Lemma function_tool_call_gets_no_approval :
  submitted mixed_request_events =
  [[approval_for (headers tool_with_token) call_1]] /\
  ~ every_call_approved (headers tool_with_token) [call_1; call_2]
      mixed_request_events.
Proof.
  assert (submitted mixed_request_events =
          [[approval_for (headers tool_with_token) call_1]]) as Hsub
      by reflexivity.
  split; [exact Hsub |].
  intros (batch & Hbatch & Hall). rewrite Hsub in Hbatch.
  injection Hbatch as <-.
  destruct (Hall call_2 (or_intror (or_introl eq_refl))) as (a & Hin & Hid & _).
  destruct Hin as [<- | []]. discriminate Hid.
Qed.

Lemma mcp_tool_calls_approved_in_one_batch_witness :
  exists batch,
    approve_tool_calls (scripted []) CLI tool_with_token [call_1; call_2; call_3] []
      (scenario []) =
    (Return batch, scenario [], approval_log (scripted []) CLI [call_1; call_2; call_3]) /\
    Forall2 (fun tc a => tool_call_id a = tool_call_id_of tc /\
                         approve a = true /\
                         approval_headers a = headers tool_with_token)
            [call_1; call_3] batch /\
    submitted (snd (poll_once (scripted []) CLI "thread_1" tool_with_token run_queued
                      (scenario [inr (run_asking [call_1; call_2; call_3])]))) =
    match batch with
    | [] => []
    | _ :: _ => [batch]
    end.
Proof.
  apply (mcp_tool_calls_approved_in_one_batch (scripted []) CLI "thread_1"
           tool_with_token run_queued
           (scenario [inr (run_asking [call_1; call_2; call_3])])
           (run_asking [call_1; call_2; call_3]) (world (scenario []))
           [call_1; call_2; call_3]);
    [reflexivity | reflexivity | reflexivity | discriminate].
Defined.

Lemma approvals_only_for_mcp_tool_calls_witness :
  ~ batch_submitted
      (snd (poll_once (scripted []) Chat "thread_1" tool_with_token run_queued
              (scenario [inr (run_asking [call_2])]))).
Proof.
  destruct (approvals_only_for_mcp_tool_calls (scripted []) Chat 0 "thread_1"
              tool_with_token run_queued (scenario [inr (run_asking [call_2])])
              (run_asking [call_2]) (world (scenario [])) [call_2]
              eq_refl eq_refl eq_refl ltac:(discriminate))
    as (batch & _ & _ & Hiff & _ & Hnone).
  destruct Hnone as (Hbatch & _); [repeat constructor |].
  intros Hsub. apply Hiff in Hsub. now apply Hsub.
Defined.

(** C7, as stated, fails: the only tool call of the request is one whose
    record cannot be built; the failure is printed and nothing is
    submitted. *)
Lemma failed_approval_leaves_nothing_to_submit :
  failed_request_events =
  [Sleep 1; Request (RunsGet "thread_1" "run_1");
   Print "Error approving tool_call call_1: bad tool call"] /\
  ~ batch_submitted failed_request_events.
Proof.
  split; [reflexivity |].
  intros (t & r & b & Hin). cbn in Hin.
  destruct Hin as [H | [H | [H | []]]]; discriminate H.
Qed.

Lemma approval_failure_is_logged_and_skipped_witness :
  submitted
    (snd (poll_once (scripted ["call_1"]) Chat "thread_1" tool_with_token
            run_queued (scenario [inr (run_asking [call_1; call_3])]))) =
  [[approval_for (headers tool_with_token) call_3]].
Proof.
  destruct (approval_failure_is_logged_and_skipped (scripted ["call_1"]) Chat
              "thread_1" tool_with_token run_queued
              (scenario [inr (run_asking [call_1; call_3])])
              (run_asking [call_1; call_3]) (world (scenario []))
              [] call_1 [call_3] bad_arguments
              eq_refl eq_refl eq_refl eq_refl eq_refl)
    as (batch & _ & Hrest & _ & Hsub).
  rewrite Hsub. injection Hrest as <-. reflexivity.
Defined.

(** ** Configuration *)

Lemma append_assoc (a b c : string) : (a +:+ b) +:+ c = a +:+ (b +:+ c).
Proof.
  induction a as [| ch a IH]; [reflexivity |].
  change (String ch ((a +:+ b) +:+ c) = String ch (a +:+ (b +:+ c))).
  now rewrite IH.
Qed.

Lemma append_empty_r (a : string) : a +:+ "" = a.
Proof.
  induction a as [| ch a IH]; [reflexivity |].
  change (String ch (a +:+ "") = String ch a). now rewrite IH.
Qed.

Lemma occurs_in_prefixed sub p s : occurs_in sub s -> occurs_in sub (p +:+ s).
Proof.
  intros (before & rest & ->). exists (p +:+ before), rest.
  now rewrite append_assoc.
Qed.

Lemma occurs_in_concat sep var vars :
  In var vars -> occurs_in var (String.concat sep vars).
Proof.
  induction vars as [| x rest IH]; [intros [] |].
  intros [-> | Hin].
  - destruct rest as [| y rest].
    + exists "", "". cbn. now rewrite append_empty_r.
    + exists "", (sep +:+ String.concat sep (y :: rest)). reflexivity.
  - destruct rest as [| y rest]; [destruct Hin |].
    change (String.concat sep (x :: y :: rest))
      with (x +:+ sep +:+ String.concat sep (y :: rest)).
    apply occurs_in_prefixed, occurs_in_prefixed, IH, Hin.
Qed.

Lemma truthy_false (v : option string) :
  truthy v = false <-> v = None \/ v = Some "".
Proof.
  destruct v as [t |]; cbn.
  - rewrite negb_false_iff, String.eqb_eq. split.
    + intros ->. now right.
    + intros [H | H]; [discriminate | now injection H].
  - split; [now left | reflexivity].
Qed.

Lemma in_missing_vars environ var :
  In var (missing_vars environ) <->
  In var required_vars /\ (environ !! var = None \/ environ !! var = Some "").
Proof.
  unfold missing_vars. rewrite filter_In, negb_true_iff, truthy_false. reflexivity.
Qed.

Section Configuration.
Context {W : Type}.
Variable sdk : SDK W.

Lemma check_required_vars_raises environ (s : State W) :
  missing_vars environ <> [] ->
  check_required_vars environ s =
  (Raise (ValueError (missing_message (missing_vars environ))), s, []).
Proof.
  intros Hne. unfold check_required_vars.
  destruct (missing_vars environ); [now elim Hne | reflexivity].
Qed.

Lemma check_required_vars_passes environ (s : State W) :
  missing_vars environ = [] ->
  check_required_vars environ s = (Return tt, s, []).
Proof. intros Hnil. unfold check_required_vars. now rewrite Hnil. Qed.

(** C4.  When a required variable is absent or empty, the check raises
    a [ValueError] before anything else is done.  In [main.py] it ends
    the script: nothing was printed or requested.  In [mainchat.py] it
    leaves the [try] block of [initialize], which prints it and reports
    failure, the handler untouched and nothing requested.  In both, the
    message names every required variable that is absent or empty. *)
Theorem missing_variables_fail_before_any_request fuel environ (s : State W) :
  (exists var, In var ["PROJECT_ENDPOINT"; "MODEL_DEPLOYMENT_NAME";
                       "MCP_SERVER_URL"; "MCP_SERVER_LABEL"] /\
               (environ !! var = None \/ environ !! var = Some "")) ->
  let message := missing_message (missing_vars environ) in
  main sdk fuel environ s = (Raise (ValueError message), s, []) /\
  initialize_body sdk environ s = (Raise (ValueError message), s, []) /\
  initialize sdk environ s =
  (Return false, s, [Print ("Error initializing agent: " +:+ message)]) /\
  (forall var, In var ["PROJECT_ENDPOINT"; "MODEL_DEPLOYMENT_NAME";
                       "MCP_SERVER_URL"; "MCP_SERVER_LABEL"] ->
               (environ !! var = None \/ environ !! var = Some "") ->
               In var (missing_vars environ) /\ occurs_in var message).
Proof.
  intros (var & Hreq & Hmissing) message.
  assert (missing_vars environ <> []) as Hne.
  { intros Hnil. assert (In var (missing_vars environ)) as Hin
        by (apply in_missing_vars; split; assumption).
    rewrite Hnil in Hin. destruct Hin. }
  assert (initialize_body sdk environ s = (Raise (ValueError message), s, []))
    as Hbody.
  { unfold initialize_body.
    now rewrite (bind_raise _ _ _ _ _ _ (check_required_vars_raises environ s Hne)). }
  repeat split.
  - unfold main.
    now rewrite (bind_raise _ _ _ _ _ _ (check_required_vars_raises environ s Hne)).
  - exact Hbody.
  - unfold initialize, try_except. rewrite Hbody. reflexivity.
  - apply in_missing_vars. split; assumption.
  - unfold message, missing_message.
    apply occurs_in_prefixed, occurs_in_concat, in_missing_vars. split; assumption.
Qed.

End Configuration.

Lemma missing_variables_fail_before_any_request_witness :
  main (scripted []) 5 env_incomplete (scenario []) =
  (Raise (ValueError "Missing required environment variables: MODEL_DEPLOYMENT_NAME, MCP_SERVER_URL, MCP_SERVER_LABEL"),
   scenario [], []) /\
  initialize (scripted []) env_incomplete (scenario []) =
  (Return false, scenario [],
   [Print "Error initializing agent: Missing required environment variables: MODEL_DEPLOYMENT_NAME, MCP_SERVER_URL, MCP_SERVER_LABEL"]).
Proof.
  destruct (missing_variables_fail_before_any_request (scripted []) 5
              env_incomplete (scenario [])) as (Hmain & _ & Hinit & _).
  - exists "MCP_SERVER_URL". split; [simpl; tauto | right; reflexivity].
  - split; [exact Hmain | exact Hinit].
Defined.

(** ** What kinds of events the parts of the scripts produce *)

Ltac emits_step side :=
  first
    [ apply emits_ret
    | apply emits_raise
    | apply emits_diverge
    | apply emits_attr_of
    | apply emits_get_self
    | apply emits_set_self
    | apply emits_print; side
    | apply emits_sleep; side
    | apply emits_emit; side
    | apply emits_request; side
    | apply emits_create_agent; side
    | apply emits_threads_create; side
    | apply emits_messages_create; side
    | apply emits_runs_create; side
    | apply emits_runs_get; side
    | apply emits_runs_cancel; side
    | apply emits_runs_submit_tool_outputs; side
    | apply emits_run_steps_list; side
    | apply emits_messages_list; side
    | apply emits_when
    | apply emits_bind; [| intros ?]
    | apply emits_try_except; [| intros ?]
    | apply emits_with_client; [| side] ].

Ltac emits_all side := repeat (emits_step side).

Section Traces.
Context {W : Type}.
Variable sdk : SDK W.
Variable P : Event -> Prop.

Lemma emits_print_tool_calls calls :
  (forall line, P (Print line)) -> emits P (@print_tool_calls W calls).
Proof.
  intros HP. induction calls as [| call rest IH]; cbn [print_tool_calls].
  - apply emits_ret.
  - emits_all ltac:(apply HP). exact IH.
Qed.

Lemma emits_print_run_steps steps :
  (forall line, P (Print line)) -> emits P (@print_run_steps W steps).
Proof.
  intros HP. induction steps as [| step rest IH]; cbn [print_run_steps].
  - apply emits_ret.
  - apply emits_bind; [apply emits_print, HP | intros _].
    apply emits_bind; [| intros _].
    + destruct (step_tool_calls step).
      * apply emits_ret.
      * apply emits_bind; [apply emits_print, HP | intros _].
        now apply emits_print_tool_calls.
    + apply emits_bind; [apply emits_print, HP | intros _]. exact IH.
Qed.

Lemma emits_print_conversation messages :
  (forall line, P (Print line)) -> emits P (@print_conversation W messages).
Proof.
  intros HP. induction messages as [| msg rest IH]; cbn [print_conversation].
  - apply emits_ret.
  - apply emits_bind; [| intros _; exact IH].
    destruct (text_messages msg); emits_all ltac:(apply HP).
Qed.

Lemma emits_approve_tool_calls v tool tool_calls acc :
  (forall line, P (Print line)) ->
  emits P (approve_tool_calls sdk v tool tool_calls acc).
Proof.
  intros HP s. rewrite approve_tool_calls_run. cbn [snd].
  unfold approval_log. induction tool_calls as [| tc rest IH]; [constructor |].
  cbn [List.map List.concat]. apply Forall_app. split; [| exact IH].
  unfold approval_lines.
  destruct (is_mcp_tool_call tc), (verbose v), (approval_fault sdk tc);
    repeat constructor; apply HP.
Qed.

Lemma emits_poll_once v thread tool run :
  (forall e, is_runs_create e = false -> P e) ->
  emits P (poll_once sdk v thread tool run).
Proof.
  intros HP. unfold poll_once.
  apply emits_bind; [apply emits_sleep, HP; reflexivity | intros _].
  apply emits_bind; [apply emits_runs_get, HP; reflexivity | intros run'].
  destruct (if String.eqb (status run') "requires_action"
            then approval_request run' else None) as [[| tc rest] |].
  - emits_all ltac:(apply HP; reflexivity).
  - apply emits_bind; [| intros batch].
    + apply emits_approve_tool_calls. intros line. now apply HP.
    + emits_all ltac:(apply HP; reflexivity).
      destruct batch; emits_all ltac:(apply HP; reflexivity).
  - emits_all ltac:(apply HP; reflexivity).
Qed.

Lemma emits_poll v fuel thread tool run :
  (forall e, is_runs_create e = false -> P e) ->
  emits P (poll sdk v fuel thread tool run).
Proof.
  intros HP. revert run. induction fuel as [| fuel IH]; intros run; cbn [poll].
  - destruct (is_pending (status run)); [apply emits_diverge | apply emits_ret].
  - destruct (is_pending (status run)); [| apply emits_ret].
    apply emits_bind; [now apply emits_poll_once | intros [run' | run']].
    + apply IH.
    + apply emits_ret.
Qed.

(** After the loop, [main.py] only prints and lists steps and messages. *)
Lemma emits_after_report thread run :
  (forall e, is_run_request e = false -> P e) ->
  emits P (run_steps <- run_steps_list sdk thread (run_id run) ;;
           print_run_steps run_steps ;;
           messages <- messages_list sdk thread ;;
           print (nl +:+ "Conversation:") ;;
           print rule ;;
           print_conversation messages).
Proof.
  intros HP.
  assert (forall line, P (Print line)) as HPrint by (intros line; now apply HP).
  apply emits_bind; [apply emits_run_steps_list, HP; reflexivity | intros steps].
  apply emits_bind; [now apply emits_print_run_steps | intros _].
  apply emits_bind; [apply emits_messages_list, HP; reflexivity | intros messages].
  apply emits_bind; [apply emits_print, HPrint | intros _].
  apply emits_bind; [apply emits_print, HPrint | intros _].
  now apply emits_print_conversation.
Qed.

End Traces.

(** ** The end of a run *)

Section Replies.
Context {W : Type}.
Variable sdk : SDK W.

Lemma latest_assistant_response_is_first messages :
  latest_assistant_response messages = first_assistant_reply messages.
Proof.
  unfold first_assistant_reply, first_assistant_message.
  induction messages as [| msg rest IH]; [reflexivity |].
  cbn [latest_assistant_response List.find].
  destruct (String.eqb (role msg) "assistant" && has_items (text_messages msg));
    [reflexivity | exact IH].
Qed.

Lemma not_an_answer msg :
  role msg <> "assistant" \/ text_messages msg = [] ->
  String.eqb (role msg) "assistant" && has_items (text_messages msg) = false.
Proof.
  intros [Hrole | Htext].
  - apply String.eqb_neq in Hrole. now rewrite Hrole.
  - rewrite Htext. apply andb_false_r.
Qed.

Lemma first_assistant_message_none messages :
  (forall m, In m messages -> role m <> "assistant" \/ text_messages m = []) ->
  first_assistant_message messages = None.
Proof.
  unfold first_assistant_message.
  induction messages as [| m rest IH]; intros Hnone; [reflexivity |].
  cbn [List.find]. rewrite not_an_answer by (apply Hnone; now left).
  apply IH. intros m' Hin. apply Hnone. now right.
Qed.

Lemma first_assistant_message_found before msg rest :
  role msg = "assistant" -> text_messages msg <> [] ->
  (forall m, In m before -> role m <> "assistant" \/ text_messages m = []) ->
  first_assistant_message (before ++ msg :: rest) = Some msg.
Proof.
  unfold first_assistant_message. intros Hrole Htext.
  induction before as [| m before IH]; intros Hbefore.
  - cbn [app List.find]. rewrite Hrole.
    destruct (text_messages msg); [now elim Htext | reflexivity].
  - cbn [app List.find]. rewrite not_an_answer by (apply Hbefore; now left).
    apply IH. intros m' Hin. apply Hbefore. now right.
Qed.

Lemma configure_headers_run environ (s : State W) :
  configure_headers (environ !! "MCP_SERVER_TOKEN")
    (new_McpTool (py_str (environ !! "MCP_SERVER_LABEL"))
                 (py_str (environ !! "MCP_SERVER_URL"))) s =
  (Return (configured_tool environ), s,
   if truthy (environ !! "MCP_SERVER_TOKEN") then [] else [Print no_token_warning]).
Proof.
  unfold configure_headers, configured_tool.
  destruct (truthy (environ !! "MCP_SERVER_TOKEN")); reflexivity.
Qed.

(** [main.py] from the check of the variables to the start of its session. *)
Lemma main_startup fuel environ (s : State W) :
  missing_vars environ = [] ->
  main sdk fuel environ s =
  after (startup_events environ)
        (with_client
           (session <- main_session sdk fuel environ (configured_tool environ) ;;
            report_run sdk (fst session) (snd session)) s).
Proof.
  intros Hnone. unfold main.
  rewrite (bind_return _ _ _ _ _ _ (check_required_vars_passes environ s Hnone)).
  rewrite (bind_return _ _ s tt s
             [ClientOpen (py_str (environ !! "PROJECT_ENDPOINT"))])
    by reflexivity.
  rewrite (bind_return _ _ _ _ _ _ (configure_headers_run environ s)).
  rewrite !after_after. reflexivity.
Qed.

(** C5.  When the poll loop ends with the status failed: [send_message]
    returns the text of [run.last_error] after a fixed prefix, and does
    nothing after the loop; [main.py] prints the status and then the text
    of [run.last_error] after a fixed prefix, and from there on makes no
    request that creates, fetches, feeds or cancels a run. *)
Theorem failed_run_is_reported_not_retried
        fuel environ content (s s1 : State W) thread run evs1 :
  status run = "failed" ->
  (send_message_run sdk fuel content s = (Return (thread, run), s1, evs1) ->
   send_message sdk fuel content s =
   (Return ("Error: Run failed - " +:+ last_error run), s1, evs1)) /\
  (missing_vars environ = [] ->
   main_session sdk fuel environ (configured_tool environ) s =
   (Return (thread, run), s1, evs1) ->
   exists o s2 rest,
     main sdk fuel environ s =
     (o, s2,
      startup_events environ ++ evs1 ++
      Print "Run completed with status: failed" ::
      Print ("Run failed: " +:+ last_error run) :: rest) /\
     Forall (fun e => is_run_request e = false) rest).
Proof.
  intros Hfailed. split.
  - intros Hrun. unfold send_message, send_message_with, try_except, send_message_body_with.
    unfold send_message_run in Hrun.
    rewrite (bind_return _ _ _ _ _ _ Hrun). cbn [fst snd].
    unfold send_message_reply. rewrite Hfailed. cbn. now rewrite app_nil_r.
  - intros Hnone Hrun. rewrite main_startup by exact Hnone.
    unfold with_client. rewrite (bind_return _ _ _ _ _ _ Hrun). cbn [fst snd].
    unfold report_run.
    rewrite (bind_return _ _ s1 tt s1
               [Print ("Run completed with status: " +:+ status run)])
      by reflexivity.
    rewrite Hfailed.
    rewrite (bind_return _ _ s1 tt s1
               [Print ("Run failed: " +:+ last_error run)])
      by reflexivity.
    rewrite !after_after.
    pose proof (emits_after_report sdk (fun e => is_run_request e = false)
                  thread run (fun e H => H) s1) as Hrest.
    destruct ((run_steps <- run_steps_list sdk thread (run_id run) ;;
               print_run_steps run_steps ;;
               messages <- messages_list sdk thread ;;
               print (nl +:+ "Conversation:") ;;
               print rule ;;
               print_conversation messages) s1) as [[o s2] rest].
    cbn [snd] in Hrest. unfold after.
    destruct o as [u | e | |].
    + exists (Return u), s2, (rest ++ [ClientClose]). split.
      * f_equal. flatten.
      * apply Forall_app. split; [exact Hrest | now repeat constructor].
    + exists (Raise e), s2, (rest ++ [ClientClose]). split.
      * f_equal. flatten.
      * apply Forall_app. split; [exact Hrest | now repeat constructor].
    + exists Diverge, s2, rest. split; [f_equal; flatten | exact Hrest].
    + exists Cancelled, s2, (rest ++ [ClientClose]). split.
      * f_equal. flatten.
      * apply Forall_app. split; [exact Hrest | now repeat constructor].
Qed.

(** Before [initialize], [send_message] fails on the first attribute it
    reads, and answers with that error. *)
Lemma send_message_before_initialize fuel content (w : W) :
  send_message sdk fuel content (mkState w new_handler) =
  (Return "Error processing message: 'NoneType' object has no attribute 'messages'",
   mkState w new_handler, []).
Proof. reflexivity. Qed.

(** C10.  When the poll loop of [send_message] ends with a status other
    than failed and the service returns the messages of the thread, the
    answer is the last text segment of the first message whose role is
    assistant and which has a text segment; without such a message it is
    the fixed answer. *)
Theorem send_message_returns_first_assistant_reply
        fuel content (s s1 : State W) thread run evs1 messages w' :
  send_message_run sdk fuel content s = (Return (thread, run), s1, evs1) ->
  status run <> "failed" ->
  answer sdk (MessagesList thread) (world s1) = (inr messages, w') ->
  send_message sdk fuel content s =
  (Return (first_assistant_reply messages), mkState w' (agent_handler s1),
   evs1 ++ [Request (MessagesList thread)]) /\
  (forall before msg rest,
     messages = before ++ msg :: rest ->
     role msg = "assistant" -> text_messages msg <> [] ->
     (forall m, In m before -> role m <> "assistant" \/ text_messages m = []) ->
     first_assistant_reply messages = List.last (text_messages msg) "") /\
  ((forall m, In m messages -> role m <> "assistant" \/ text_messages m = []) ->
   first_assistant_reply messages = "No response received from agent.").
Proof.
  intros Hrun Hstatus Hlist. split; [| split].
  - unfold send_message, send_message_with, try_except, send_message_body_with.
    unfold send_message_run in Hrun.
    rewrite (bind_return _ _ _ _ _ _ Hrun). cbn [fst snd].
    unfold send_message_reply.
    apply String.eqb_neq in Hstatus. rewrite Hstatus.
    rewrite (bind_return _ _ _ _ _ _ (messages_list_answered sdk thread s1 messages w' Hlist)).
    rewrite latest_assistant_response_is_first. reflexivity.
  - intros before msg rest -> Hrole Htext Hbefore.
    unfold first_assistant_reply.
    now rewrite (first_assistant_message_found before msg rest).
  - intros Hnone. unfold first_assistant_reply.
    now rewrite (first_assistant_message_none messages).
Qed.

End Replies.

Lemma failed_run_is_reported_not_retried_witness :
  send_message (scripted []) 5 "temperatura?" (chat_scenario [inr run_queued; inr run_failed]) =
  (Return "Error: Run failed - server_error: tool call timed out",
   chat_scenario [],
   [Request (MessagesCreate "thread_1" "user" "temperatura?");
    Request (RunsCreate "thread_1" "asst_1"
               (resources (set_approval_mode "never" tool_with_token)));
    Sleep 1; Request (RunsGet "thread_1" "run_1");
    Sleep 1; Request (RunsGet "thread_1" "run_1")]) /\
  exists o s2 rest,
    main (scripted []) 5 env_token (scenario [inr run_failed]) =
    (o, s2,
     startup_events env_token ++ failed_session_events ++
     Print "Run completed with status: failed" ::
     Print "Run failed: server_error: tool call timed out" :: rest) /\
    Forall (fun e => is_run_request e = false) rest.
Proof.
  split.
  - apply (proj1 (failed_run_is_reported_not_retried (scripted []) 5 env_token
                    "temperatura?"
                    (chat_scenario [inr run_queued; inr run_failed])
                    (chat_scenario []) "thread_1" run_failed _ eq_refl)).
    reflexivity.
  - apply (proj2 (failed_run_is_reported_not_retried (scripted []) 5 env_token
                    "temperatura?" (scenario [inr run_failed])
                    (scenario []) "thread_1" run_failed failed_session_events
                    eq_refl)).
    + reflexivity.
    + reflexivity.
Defined.

Lemma send_message_returns_first_assistant_reply_witness :
  send_message (scripted []) 5 "temperatura?" (chat_scenario [inr run_completed]) =
  (Return (first_assistant_reply the_conversation), chat_scenario [],
   [Request (MessagesCreate "thread_1" "user" "temperatura?");
    Request (RunsCreate "thread_1" "asst_1"
               (resources (set_approval_mode "never" tool_with_token)));
    Sleep 1; Request (RunsGet "thread_1" "run_1");
    Request (MessagesList "thread_1")]) /\
  first_assistant_reply the_conversation = "22 grados".
Proof.
  destruct (send_message_returns_first_assistant_reply (scripted []) 5
              "temperatura?" (chat_scenario [inr run_completed])
              (chat_scenario []) "thread_1" run_completed _
              the_conversation (world (chat_scenario []))
              eq_refl ltac:(discriminate) eq_refl)
    as (Hreply & Hfirst & _).
  split; [exact Hreply |].
  apply (Hfirst [mkMessage "msg_3" "assistant" []]
                (mkMessage "msg_2" "assistant" ["Un momento"; "22 grados"])
                [mkMessage "msg_1" "user" ["temperatura?"]]).
  - reflexivity.
  - reflexivity.
  - discriminate.
  - intros m [<- | []]. now right.
Defined.

(** ** The token and the Authorization header *)

Section Token.
Context {W : Type}.
Variable sdk : SDK W.

(** [initialize] when no required variable is missing, by the answers of
    the service. *)
Lemma initialize_body_run environ (s : State W) :
  missing_vars environ = [] ->
  let h := handler_with_tool environ (agent_handler s) in
  initialize_body sdk environ s =
  match answer sdk (chat_agent_request environ) (world s) with
  | (inl e, w1) =>
      (Raise e, mkState w1 h,
       startup_events environ ++ [Request (chat_agent_request environ)])
  | (inr new_agent, w1) =>
      match answer sdk ThreadsCreate w1 with
      | (inl e, w2) =>
          (Raise e, mkState w2 (set_agent (Some new_agent) h),
           startup_events environ ++
           [Request (chat_agent_request environ); Request ThreadsCreate])
      | (inr new_thread, w2) =>
          (Return true, mkState w2 (handler_ready environ new_agent new_thread),
           startup_events environ ++
           [Request (chat_agent_request environ); Request ThreadsCreate])
      end
  end.
Proof.
  intros Hnone h. unfold initialize_body.
  rewrite (bind_return _ _ _ _ _ _ (check_required_vars_passes environ s Hnone)).
  unfold chat_agent_request, startup_events, configured_tool, handler_ready.
  subst h. unfold handler_with_tool, configured_tool.
  destruct s as [w h0].
  unfold create_agent, threads_create, assign, set_project_client, set_mcp_tool,
    set_agents_client, set_agent, set_thread, definitions.
  destruct (truthy (environ !! "MCP_SERVER_TOKEN"));
    cbv [bind request emit get_self set_self attr_of ret raise print after
         world agent_handler project_client agents_client agent thread mcp_tool
         server_label server_url update_headers new_McpTool app];
    destruct (answer sdk _ w) as [[e | new_agent] w1]; try reflexivity;
    destruct (answer sdk ThreadsCreate w1) as [[e' | new_thread] w2]; reflexivity.
Qed.

Lemma carries_other Q e : is_runs_create e = false -> carries Q e.
Proof. intros Hother th ag res ->. discriminate Hother. Qed.

Lemma created_with_carries Q evs :
  Forall (carries Q) evs -> Forall Q (created_with evs).
Proof.
  induction 1 as [| e evs He _ IH]; [constructor |].
  destruct e as [| | | | c]; try exact IH.
  destruct c; try exact IH. cbn [created_with]. constructor; [| exact IH].
  now apply (He thread0 agent0).
Qed.

Lemma emits_report_run P thread run :
  (forall e, is_run_request e = false -> P e) ->
  emits P (report_run sdk thread run).
Proof.
  intros HP. unfold report_run.
  apply emits_bind; [apply emits_print, HP; reflexivity | intros _].
  apply emits_bind; [apply emits_when, emits_print, HP; reflexivity | intros _].
  now apply emits_after_report.
Qed.

Lemma emits_main_session fuel environ tool :
  emits (carries (fun res => res_headers res = headers tool))
        (main_session sdk fuel environ tool).
Proof.
  unfold main_session.
  emits_all ltac:(try (apply carries_other; reflexivity)).
  - intros th ag res [= _ _ <-]. reflexivity.
  - apply emits_poll. apply carries_other.
Qed.

Lemma main_creates_runs_with_tool fuel environ (s : State W) :
  Forall (fun res => res_headers res = headers (configured_tool environ))
         (created_with (snd (main sdk fuel environ s))).
Proof.
  apply created_with_carries.
  destruct (missing_vars environ) as [| var rest] eqn:Hmissing.
  - rewrite main_startup by exact Hmissing. rewrite snd_after.
    apply Forall_app. split.
    + unfold startup_events. destruct (truthy _); repeat constructor;
        now apply carries_other.
    + apply emits_with_client; [| now apply carries_other].
      apply emits_bind; [apply emits_main_session | intros session].
      apply emits_report_run. intros e He. apply carries_other.
      destruct e as [| | | | c]; try reflexivity. now destruct c.
  - unfold main.
    rewrite (bind_raise _ _ _ _ _ _
               (check_required_vars_raises environ s ltac:(now rewrite Hmissing))).
    constructor.
Qed.

Lemma bind_get_self {A} (k : AzureAIAgentHandler -> Prog W A) (s : State W) :
  bind get_self k s = k (agent_handler s) s.
Proof.
  unfold bind, get_self. now destruct (k (agent_handler s) s) as [[o s1] evs].
Qed.

Lemma emits_send_message_reply P thread run :
  (forall e, is_run_request e = false -> P e) ->
  emits P (send_message_reply sdk thread run).
Proof.
  intros HP. unfold send_message_reply.
  destruct (String.eqb (status run) "failed"); emits_all ltac:(apply HP; reflexivity).
Qed.

Lemma send_message_creates_runs_with_tool fuel content (s : State W) tool :
  mcp_tool (agent_handler s) = Some tool ->
  Forall (fun res => res_headers res = headers tool)
         (created_with (snd (send_message sdk fuel content s))).
Proof.
  intros Htool. apply created_with_carries.
  unfold send_message, send_message_with.
  apply events_try_except; [| intros e; apply emits_ret].
  unfold send_message_body_with.
  apply events_bind;
    [| intros session; apply emits_send_message_reply; intros e He;
       apply carries_other; destruct e as [| | | | c]; try reflexivity;
       now destruct c].
  unfold send_message_run_with. rewrite bind_get_self.
  remember (agent_handler s) as self eqn:Hself. rewrite Htool.
  clear Hself Htool. revert s.
  do 6 (apply emits_bind; [emits_step ltac:(apply carries_other; reflexivity)
                          | intros ?]).
  apply emits_bind_attr_some.
  apply emits_bind; [apply emits_runs_create | intros run].
  - intros th ag res [= _ _ <-]. reflexivity.
  - apply emits_bind; [apply emits_poll, carries_other | intros; apply emits_ret].
Qed.

Lemma snd_create_agent model name instructions tools (s : State W) :
  snd (create_agent sdk model name instructions tools s) =
  [Request (CreateAgent model name instructions tools)].
Proof. exact (snd_request sdk (CreateAgent model name instructions tools) s). Qed.

Lemma main_session_first_request fuel environ (s : State W) :
  exists rest,
    snd (main_session sdk fuel environ (configured_tool environ) s) =
    Request (main_agent_request environ) :: rest.
Proof.
  unfold main_session.
  match goal with
  | |- context [bind ?m ?k s] => destruct (bind_events m k s) as [rest Hrest]
  end.
  exists rest. rewrite Hrest. unfold main_agent_request.
  now rewrite snd_create_agent.
Qed.

Lemma snd_with_client {A} (m : Prog W A) (s : State W) :
  exists rest, snd (with_client m s) = snd (m s) ++ rest.
Proof.
  unfold with_client. destruct (m s) as [[[a | e | |] s1] evs]; cbn [snd].
  - now exists [ClientClose].
  - now exists [ClientClose].
  - exists []. now rewrite app_nil_r.
  - now exists [ClientClose].
Qed.

Lemma configured_tool_with_token environ token :
  environ !! "MCP_SERVER_TOKEN" = Some token -> token <> "" ->
  headers (configured_tool environ) !! "Authorization" = Some ("Bearer " +:+ token).
Proof.
  intros Htoken Hne. unfold configured_tool. rewrite Htoken. cbn [truthy py_str].
  apply String.eqb_neq in Hne. rewrite Hne. cbn [negb update_headers headers].
  apply lookup_insert_eq.
Qed.

Lemma configured_tool_without_token environ :
  truthy (environ !! "MCP_SERVER_TOKEN") = false ->
  headers (configured_tool environ) = ∅.
Proof. intros Hnone. unfold configured_tool. now rewrite Hnone. Qed.

(** C8, as the code has it.  With every required variable present: the
    tool both files configure carries the header Authorization, with the
    value Bearer followed by the token, when the token variable is set to
    a non-empty value; every run that [main.py] creates, and every run
    that [send_message] creates after a successful [initialize] (which
    creates none), carries the headers of that tool.  When the token
    variable is absent or empty, the tool has no Authorization header,
    and both files open the client, print the warning and go on to ask
    for the agent. *)
Theorem authorization_header_follows_token fuel environ content (s : State W) :
  missing_vars environ = [] ->
  let token := environ !! "MCP_SERVER_TOKEN" in
  let tool := configured_tool environ in
  (forall t, token = Some t -> t <> "" ->
     headers tool !! "Authorization" = Some ("Bearer " +:+ t)) /\
  Forall (fun res => res_headers res = headers tool)
         (created_with (snd (main sdk fuel environ s))) /\
  (forall s' evs,
     initialize sdk environ s = (Return true, s', evs) ->
     created_with evs = [] /\
     Forall (fun res => res_headers res = headers tool)
            (created_with (snd (send_message sdk fuel content s')))) /\
  (token = None \/ token = Some "" ->
   headers tool !! "Authorization" = None /\
   (exists o s' rest,
      main sdk fuel environ s =
      (o, s', ClientOpen (py_str (environ !! "PROJECT_ENDPOINT")) ::
              Print no_token_warning ::
              Request (main_agent_request environ) :: rest)) /\
   (exists o s' rest,
      initialize sdk environ s =
      (o, s', ClientOpen (py_str (environ !! "PROJECT_ENDPOINT")) ::
              Print no_token_warning ::
              Request (chat_agent_request environ) :: rest))).
Proof.
  intros Hnone token tool. split; [| split; [| split]].
  - intros t Ht Hne. now apply configured_tool_with_token.
  - apply main_creates_runs_with_tool.
  - intros s' evs. unfold initialize, try_except.
    rewrite initialize_body_run by exact Hnone. cbv zeta.
    destruct (answer sdk (chat_agent_request environ) (world s))
      as [[e | new_agent] w1]; [cbn; discriminate |].
    destruct (answer sdk ThreadsCreate w1) as [[e | new_thread] w2];
      [cbn; discriminate |].
    intros [= <- <-]. split.
    + unfold startup_events, chat_agent_request.
      now destruct (truthy (environ !! "MCP_SERVER_TOKEN")).
    + now apply send_message_creates_runs_with_tool
        with (tool := set_approval_mode "never" (configured_tool environ)).
  - intros Habsent. apply truthy_false in Habsent. fold token in Habsent.
    split; [| split].
    + unfold tool. rewrite configured_tool_without_token by exact Habsent.
      apply lookup_empty.
    + destruct (main_session_first_request fuel environ s) as [rest1 Hfirst].
      destruct (snd_with_client
                  (session <- main_session sdk fuel environ (configured_tool environ) ;;
                   report_run sdk (fst session) (snd session)) s) as [rest2 Hclient].
      match type of Hclient with
      | context [bind ?m ?k s] => destruct (bind_events m k s) as [rest3 Hbind]
      end.
      rewrite Hbind, Hfirst in Hclient.
      rewrite main_startup by exact Hnone.
      destruct (with_client _ s) as [[o s'] evs]. cbn [snd] in Hclient.
      exists o, s', (rest1 ++ rest3 ++ rest2). unfold after, startup_events.
      fold token. rewrite Habsent, Hclient. f_equal. cbn [app].
      now rewrite <- !app_assoc.
    + unfold initialize, try_except.
      rewrite initialize_body_run by exact Hnone. cbv zeta.
      unfold startup_events. fold token. rewrite Habsent.
      destruct (answer sdk (chat_agent_request environ) (world s))
        as [[e | new_agent] w1]; [cbn; eauto |].
      destruct (answer sdk ThreadsCreate w1) as [[e | new_thread] w2]; cbn; eauto.
Qed.

End Token.

(** C8, as stated, fails when the variable is set to the empty string:
    the tool gets no Authorization header, the script prints the warning
    and creates its run without the header. *)
Lemma empty_token_sets_no_header :
  env_empty_token !! "MCP_SERVER_TOKEN" = Some "" /\
  headers (configured_tool env_empty_token) !! "Authorization" = None /\
  ~ bearer_when_set env_empty_token (configured_tool env_empty_token) /\
  In (Print no_token_warning)
     (snd (main (scripted []) 5 env_empty_token (scenario [inr run_completed]))) /\
  List.map (fun res => res_headers res !! "Authorization")
    (created_with
       (snd (main (scripted []) 5 env_empty_token (scenario [inr run_completed])))) =
  [None].
Proof.
  assert (headers (configured_tool env_empty_token) !! "Authorization" = None)
    as Hnone by reflexivity.
  split; [reflexivity |]. split; [exact Hnone |]. split; [| split].
  - intros Hclaim. specialize (Hclaim "" eq_refl). rewrite Hnone in Hclaim.
    discriminate Hclaim.
  - vm_compute. tauto.
  - reflexivity.
Qed.

Lemma authorization_header_follows_token_witness :
  (headers (configured_tool env_token) !! "Authorization" = Some "Bearer s3cret" /\
   Forall (fun res => res_headers res = headers (configured_tool env_token))
          (created_with
             (snd (main (scripted []) 5 env_token (scenario [inr run_completed]))))) /\
  (headers (configured_tool env_required) !! "Authorization" = None /\
   exists o s' rest,
     initialize (scripted []) env_required (scenario []) =
     (o, s', ClientOpen "https://example.test/project" ::
             Print no_token_warning ::
             Request (chat_agent_request env_required) :: rest)).
Proof.
  split.
  - destruct (authorization_header_follows_token (scripted []) 5 env_token
                "temperatura?" (scenario [inr run_completed]) eq_refl)
      as (Hheader & Hmain & _).
    split; [| exact Hmain].
    apply (Hheader "s3cret"); [reflexivity | discriminate].
  - destruct (authorization_header_follows_token (scripted []) 5 env_required
                "temperatura?" (scenario []) eq_refl)
      as (_ & _ & _ & Habsent).
    destruct (Habsent (or_introl eq_refl)) as (Hnone & _ & Hinit).
    split; [exact Hnone | exact Hinit].
Defined.

(** ** The poll loop as a sequence of iterations *)

(** Splits a goal on a list of events into one goal per event or named
    part of the list. *)
Ltac each_event :=
  repeat match goal with
         | |- Forall _ (_ ++ _) => apply Forall_app; split
         | |- Forall _ (_ :: _) => constructor
         | |- Forall _ [] => constructor
         end.

Section LoopTrace.
Context {W : Type}.
Variable sdk : SDK W.

Lemma poll_once_iteration v thread tool run (s : State W) :
  iteration sdk v thread tool run
    (fst (fst (poll_once sdk v thread tool run s)))
    (snd (poll_once sdk v thread tool run s)).
Proof.
  destruct (answer sdk (RunsGet thread (run_id run)) (world s))
    as [[e | run'] w'] eqn:Hget.
  - unfold poll_once.
    rewrite (bind_return _ _ s tt s [Sleep 1]) by reflexivity.
    rewrite (bind_raise _ _ s e (mkState w' (agent_handler s))
               [Request (RunsGet thread (run_id run))])
      by (unfold runs_get, request; now rewrite Hget).
    apply fetch_fails.
  - destruct (String.eqb (status run') "requires_action") eqn:Hstatus.
    + apply String.eqb_eq in Hstatus.
      destruct (required_action run') as [| tool_calls | tool_calls] eqn:Haction.
      * rewrite (poll_once_plain sdk v thread tool run s run' w' Hget)
          by (right; unfold approval_request; now rewrite Haction).
        apply nothing_to_approve. right. unfold approval_request. now rewrite Haction.
      * destruct tool_calls as [| tc rest].
        -- rewrite (poll_once_cancel sdk v thread tool run s run' w' Hget Hstatus Haction).
           cbn [fst snd].
           destruct (fst (answer sdk (RunsCancel thread (run_id run')) w'));
             [now apply cancel_fails | now apply cancelled].
        -- rewrite (poll_once_approvals sdk v thread tool run s run' w' (tc :: rest)
                      Hget Hstatus Haction ltac:(discriminate)).
           cbv zeta.
           destruct (built_approvals sdk tool (tc :: rest)) as [| a batch] eqn:Hbatch.
           ++ cbn [fst snd]. rewrite <- app_assoc.
              replace (approval_log sdk v (tc :: rest) ++ approvals_line sdk v [])
                with (approval_log sdk v (tc :: rest) ++ approvals_line sdk v [] ++ [])
                by now rewrite app_nil_r.
              rewrite <- !app_assoc. cbn [app].
              apply (nothing_built sdk v thread tool run run' (tc :: rest));
                try assumption. discriminate.
           ++ rewrite <- Hbatch.
              assert (built_approvals sdk tool (tc :: rest) <> []) as Hne
                  by (rewrite Hbatch; discriminate).
              destruct (answer sdk _ w') as [[e | r] w'']; cbn [fst snd].
              ** rewrite <- !app_assoc.
                 now apply (submission_fails sdk v thread tool run run' (tc :: rest)).
              ** rewrite <- !app_assoc.
                 now apply (approvals_submitted sdk v thread tool run run' (tc :: rest)).
      * rewrite (poll_once_plain sdk v thread tool run s run' w' Hget)
          by (right; unfold approval_request; now rewrite Haction).
        apply nothing_to_approve. right. unfold approval_request. now rewrite Haction.
    + apply String.eqb_neq in Hstatus.
      rewrite (poll_once_plain sdk v thread tool run s run' w' Hget) by now left.
      apply nothing_to_approve. now left.
Qed.

Lemma poll_loop_trace v fuel thread tool run (s : State W) :
  loop_trace sdk v thread tool run
    (fst (fst (poll sdk v fuel thread tool run s)))
    (snd (poll sdk v fuel thread tool run s)).
Proof.
  revert run s. induction fuel as [| fuel IH]; intros run s.
  - cbn [poll]. destruct (is_pending (status run)) eqn:Hp.
    + now apply loop_still_running.
    + now apply loop_over.
  - destruct (is_pending (status run)) eqn:Hp.
    + rewrite poll_step by exact Hp.
      pose proof (poll_once_iteration v thread tool run s) as Hit.
      unfold bind.
      destruct (poll_once sdk v thread tool run s) as [[[[run' | run'] | e | |] s1] evs1];
        cbn [fst snd] in *.
      * specialize (IH run' s1).
        destruct (poll sdk v fuel thread tool run' s1) as [[o s2] evs2].
        cbn [fst snd] in *. now apply (loop_goes_on sdk v thread tool run run').
      * cbn. rewrite app_nil_r. now apply loop_broken.
      * now apply loop_raises.
      * inversion Hit.
      * inversion Hit.
    + rewrite poll_done by exact Hp. now apply loop_over.
Qed.

Lemma approval_log_prints (P : Event -> Prop) v tool_calls :
  (forall line, P (Print line)) -> Forall P (approval_log sdk v tool_calls).
Proof.
  intros HP. unfold approval_log.
  induction tool_calls as [| tc rest IH]; [constructor |].
  cbn [List.map List.concat]. apply Forall_app. split; [| exact IH].
  unfold approval_lines.
  destruct (is_mcp_tool_call tc), (verbose v), (approval_fault sdk tc);
    repeat constructor; apply HP.
Qed.

Lemma status_line_prints (P : Event -> Prop) v run :
  (forall line, P (Print line)) -> Forall P (status_line v run).
Proof. intros HP. unfold status_line. destruct (verbose v); repeat constructor; apply HP. Qed.

Lemma approvals_line_prints (P : Event -> Prop) v batch :
  (forall line, P (Print line)) -> Forall P (approvals_line sdk v batch).
Proof.
  intros HP. unfold approvals_line. destruct (verbose v); repeat constructor; apply HP.
Qed.

(** After its sleep and its fetch, an iteration only prints, cancels or
    submits what it has built. *)
Lemma iteration_shape (P : Event -> Prop) v thread tool run o evs :
  iteration sdk v thread tool run o evs ->
  (forall line, P (Print line)) ->
  (forall r, P (Request (RunsCancel thread r))) ->
  (forall r tool_calls,
     built_approvals sdk tool tool_calls <> [] ->
     P (Request (RunsSubmitToolOutputs thread r
                   (built_approvals sdk tool tool_calls)))) ->
  exists rest,
    evs = Sleep 1 :: Request (RunsGet thread (run_id run)) :: rest /\
    Forall P rest.
Proof.
  intros Hit HPrint HCancel HSubmit.
  pose proof (approval_log_prints P v) as Hlog.
  pose proof (status_line_prints P v) as Hstatus.
  pose proof (approvals_line_prints P v) as Hline.
  destruct Hit; cbn [app]; eexists; (split; [reflexivity |]);
    each_event; auto.
Qed.

Lemma iteration_events (P : Event -> Prop) v thread tool run o evs :
  iteration sdk v thread tool run o evs ->
  P (Sleep 1) ->
  (forall r, P (Request (RunsGet thread r))) ->
  (forall line, P (Print line)) ->
  (forall r, P (Request (RunsCancel thread r))) ->
  (forall r tool_calls,
     built_approvals sdk tool tool_calls <> [] ->
     P (Request (RunsSubmitToolOutputs thread r
                   (built_approvals sdk tool tool_calls)))) ->
  Forall P evs.
Proof.
  intros Hit HSleep HGet HPrint HCancel HSubmit.
  destruct (iteration_shape P v thread tool run o evs Hit HPrint HCancel HSubmit)
    as (rest & -> & Hrest).
  repeat constructor; auto.
Qed.

Lemma loop_trace_events (P : Event -> Prop) v thread tool run o evs :
  loop_trace sdk v thread tool run o evs ->
  P (Sleep 1) ->
  (forall r, P (Request (RunsGet thread r))) ->
  (forall line, P (Print line)) ->
  (forall r, P (Request (RunsCancel thread r))) ->
  (forall r tool_calls,
     built_approvals sdk tool tool_calls <> [] ->
     P (Request (RunsSubmitToolOutputs thread r
                   (built_approvals sdk tool tool_calls)))) ->
  Forall P evs.
Proof.
  intros Hloop HSleep HGet HPrint HCancel HSubmit.
  induction Hloop; try constructor;
    try (apply Forall_app; split; [| assumption]);
    eauto using iteration_events.
Qed.

Lemma built_approvals_blind hdrs tool tool_calls :
  hdrs = headers tool ->
  Forall (fun a => approve a = true /\ approval_headers a = hdrs)
         (built_approvals sdk tool tool_calls).
Proof.
  intros ->. unfold built_approvals.
  induction (List.filter (approvable sdk) tool_calls); constructor; auto.
Qed.

(** Pacing. *)

Lemma paced_quiet evs : Forall (fun e => is_runs_get e = false) evs -> paced evs.
Proof. induction 1; [constructor | now apply paced_other]. Qed.

Lemma paced_app evs1 evs2 : paced evs1 -> paced evs2 -> paced (evs1 ++ evs2).
Proof.
  intros H1 H2. induction H1; cbn [app].
  - exact H2.
  - now apply paced_fetch.
  - now apply paced_other.
Qed.

Lemma paced_fetch_after_sleep evs :
  paced evs ->
  forall before thread run rest,
    evs = before ++ Request (RunsGet thread run) :: rest ->
    exists earlier, before = earlier ++ [Sleep 1].
Proof.
  induction 1 as [| t r evs Hpaced IH | e evs Hother Hpaced IH];
    intros before thread run rest Heq.
  - now destruct before.
  - destruct before as [| b before]; [discriminate |].
    injection Heq as <- Heq.
    destruct before as [| b' before]; [now exists [] |].
    injection Heq as <- Heq.
    destruct (IH before thread run rest Heq) as [earlier ->].
    now exists (Sleep 1 :: Request (RunsGet t r) :: earlier).
  - destruct before as [| b before].
    + injection Heq as -> _. discriminate.
    + injection Heq as <- Heq.
      destruct (IH before thread run rest Heq) as [earlier ->].
      now exists (e :: earlier).
Qed.

Lemma iteration_paced v thread tool run o evs :
  iteration sdk v thread tool run o evs -> paced evs.
Proof.
  intros Hit.
  destruct (iteration_shape (fun e => is_runs_get e = false)
              v thread tool run o evs Hit) as (rest & -> & Hrest);
    try reflexivity.
  apply paced_fetch, paced_quiet, Hrest.
Qed.

Lemma loop_trace_paced v thread tool run o evs :
  loop_trace sdk v thread tool run o evs -> paced evs.
Proof.
  induction 1; try constructor;
    try (apply paced_app; [| assumption]); eauto using iteration_paced.
Qed.

(** Cancelling. *)

Lemma no_cancel_cancel_last evs :
  Forall (fun e => is_cancel e = false) evs -> cancel_last evs.
Proof.
  intros Hnone before e rest -> Hcancel.
  rewrite Forall_app in Hnone. destruct Hnone as [_ Hnone].
  inversion Hnone; congruence.
Qed.

Lemma cancel_last_snoc evs e :
  Forall (fun e => is_cancel e = false) evs -> cancel_last (evs ++ [e]).
Proof.
  intros Hnone. induction Hnone as [| x evs Hx Hnone IH];
    intros before e' rest Heq Hcancel.
  - destruct before as [| b before]; [now injection Heq |].
    injection Heq as _ Heq. now destruct before.
  - destruct before as [| b before].
    + injection Heq as -> _. congruence.
    + injection Heq as _ Heq. exact (IH before e' rest Heq Hcancel).
Qed.

Lemma cancel_last_app evs1 evs2 :
  Forall (fun e => is_cancel e = false) evs1 -> cancel_last evs2 ->
  cancel_last (evs1 ++ evs2).
Proof.
  intros Hnone Hlast. induction Hnone as [| x evs1 Hx Hnone IH];
    [exact Hlast |].
  intros before e rest Heq Hcancel.
  destruct before as [| b before].
  - injection Heq as -> _. congruence.
  - injection Heq as _ Heq. exact (IH before e rest Heq Hcancel).
Qed.

Lemma iteration_next_no_cancel v thread tool run run' evs :
  iteration sdk v thread tool run (Return (Next run')) evs ->
  Forall (fun e => is_cancel e = false) evs.
Proof.
  intros Hit.
  pose proof (approval_log_prints (fun e => is_cancel e = false) v) as Hlog.
  pose proof (status_line_prints (fun e => is_cancel e = false) v) as Hstatus.
  pose proof (approvals_line_prints (fun e => is_cancel e = false) v) as Hline.
  inversion Hit; subst;
    each_event; auto.
Qed.

Lemma iteration_cancel_last v thread tool run o evs :
  iteration sdk v thread tool run o evs -> cancel_last evs.
Proof.
  intros Hit.
  pose proof (approval_log_prints (fun e => is_cancel e = false) v) as Hlog.
  pose proof (status_line_prints (fun e => is_cancel e = false) v) as Hstatus.
  pose proof (approvals_line_prints (fun e => is_cancel e = false) v) as Hline.
  destruct Hit;
    try (apply (cancel_last_snoc
                  [Sleep 1; Request (RunsGet thread (run_id run));
                   Print "No tool calls provided - cancelling run"]);
         now repeat constructor);
    apply no_cancel_cancel_last;
    each_event; auto.
Qed.

Lemma loop_trace_cancel_last v thread tool run o evs :
  loop_trace sdk v thread tool run o evs -> cancel_last evs.
Proof.
  induction 1.
  - apply no_cancel_cancel_last. constructor.
  - apply no_cancel_cancel_last. constructor.
  - apply cancel_last_app; [| assumption].
    eauto using iteration_next_no_cancel.
  - eauto using iteration_cancel_last.
  - eauto using iteration_cancel_last.
Qed.

Lemma loop_trace_exit v thread tool run final evs :
  loop_trace sdk v thread tool run (Return final) evs ->
  is_pending (status final) = false \/
  (status final = "requires_action" /\
   required_action final = SubmitToolApprovalAction [] /\
   exists before,
     evs = before ++ [Request (RunsCancel thread (run_id final))]).
Proof.
  intros Hloop. remember (Return final) as o eqn:Ho.
  induction Hloop as [run Hdone | run Hp | run run' evs1 o evs2 Hp Hit Hloop IH
                      | run run' evs Hp Hit | run e evs Hp Hit].
  - injection Ho as ->. now left.
  - discriminate.
  - destruct (IH Ho) as [Hdone | (Hst & Hact & before & ->)]; [now left |].
    right. repeat split; try assumption. exists (evs1 ++ before).
    now rewrite app_assoc.
  - injection Ho as ->. right. inversion Hit; subst.
    repeat split; try assumption.
    now exists [Sleep 1; Request (RunsGet thread (run_id run));
                Print "No tool calls provided - cancelling run"].
  - discriminate.
Qed.

End LoopTrace.

(** ** The poll loop, whatever the service answers *)

Section LoopProperties.
Context {W : Type}.
Variable sdk : SDK W.

(** X1.  In the events of the poll loop, every request that fetches the
    run comes right after a sleep of one second: the loop never polls
    twice in a row. *)
Theorem every_fetch_follows_a_sleep
        v fuel thread tool run (s : State W) before t r rest :
  snd (poll sdk v fuel thread tool run s) =
  before ++ Request (RunsGet t r) :: rest ->
  exists earlier, before = earlier ++ [Sleep 1].
Proof.
  intros Heq.
  exact (paced_fetch_after_sleep _
           (loop_trace_paced sdk v thread tool run _ _
              (poll_loop_trace sdk v fuel thread tool run s))
           before t r rest Heq).
Qed.

(** X2.  Every submission the poll loop makes, in any iteration, is a
    non-empty batch in which every record has approve = true and carries
    the headers of the tool. *)
Theorem every_submission_is_a_blind_approval
        v fuel thread tool run (s : State W) :
  Forall (blind_approval (headers tool)) (snd (poll sdk v fuel thread tool run s)).
Proof.
  apply (loop_trace_events sdk _ v thread tool run _ _
           (poll_loop_trace sdk v fuel thread tool run s)); cbn; auto.
  intros r tool_calls Hne. split; [exact Hne |].
  now apply built_approvals_blind.
Qed.

(** X3.  Once the poll loop has asked the service to cancel the run, it
    does nothing more: a cancel request is the last event of the loop. *)
Theorem nothing_follows_a_cancel
        v fuel thread tool run (s : State W) before t r rest :
  snd (poll sdk v fuel thread tool run s) =
  before ++ Request (RunsCancel t r) :: rest ->
  rest = [].
Proof.
  intros Heq.
  exact (loop_trace_cancel_last sdk v thread tool run _ _
           (poll_loop_trace sdk v fuel thread tool run s)
           before _ rest Heq eq_refl).
Qed.

(** X4.  A run the poll loop returns either has a status outside
    queued, in_progress, requires_action, or is a run that required
    approvals for no tool call and that the loop has just asked to
    cancel. *)
Theorem poll_ends_settled_or_cancelled
        v fuel thread tool run (s s' : State W) final evs :
  poll sdk v fuel thread tool run s = (Return final, s', evs) ->
  ~ In (status final) ["queued"; "in_progress"; "requires_action"] \/
  (status final = "requires_action" /\
   required_action final = SubmitToolApprovalAction [] /\
   exists before,
     evs = before ++ [Request (RunsCancel thread (run_id final))]).
Proof.
  intros Hpoll.
  pose proof (poll_loop_trace sdk v fuel thread tool run s) as Hloop.
  rewrite Hpoll in Hloop. cbn [fst snd] in Hloop.
  destruct (loop_trace_exit sdk v thread tool run final evs Hloop) as [Hdone | Hcancel].
  - left. now apply is_pending_not.
  - now right.
Qed.


End LoopProperties.

Lemma every_fetch_follows_a_sleep_witness :
  exists earlier,
    [Sleep 1; Request (RunsGet "thread_1" "run_1"); Sleep 1] = earlier ++ [Sleep 1].
Proof.
  apply (every_fetch_follows_a_sleep (scripted []) Chat 5 "thread_1"
           tool_with_token run_queued
           (scenario [inr run_queued; inr run_completed])
           [Sleep 1; Request (RunsGet "thread_1" "run_1"); Sleep 1]
           "thread_1" "run_1" []).
  reflexivity.
Defined.

Lemma nothing_follows_a_cancel_witness :
  @nil Event = [].
Proof.
  apply (nothing_follows_a_cancel (scripted []) Chat 5 "thread_1"
           tool_with_token run_queued
           (scenario [inr (run_asking []); inr run_completed])
           [Sleep 1; Request (RunsGet "thread_1" "run_1");
            Print "No tool calls provided - cancelling run"]
           "thread_1" "run_1" []).
  reflexivity.
Defined.

Lemma poll_ends_settled_or_cancelled_witness :
  ~ In (status (run_asking [])) ["queued"; "in_progress"; "requires_action"] \/
  (status (run_asking []) = "requires_action" /\
   required_action (run_asking []) = SubmitToolApprovalAction [] /\
   exists before,
     [Sleep 1; Request (RunsGet "thread_1" "run_1");
      Print "No tool calls provided - cancelling run";
      Request (RunsCancel "thread_1" "run_1")] =
     before ++ [Request (RunsCancel "thread_1" (run_id (run_asking [])))]).
Proof.
  apply (poll_ends_settled_or_cancelled (scripted []) Chat 5 "thread_1"
           tool_with_token run_queued
           (scenario [inr (run_asking []); inr run_completed])
           (scenario [inr run_completed])).
  reflexivity.
Defined.

(** ** [main.py] as a whole *)

Section Script.
Context {W : Type}.
Variable sdk : SDK W.

Lemma emits_poll_loop (P : Event -> Prop) v fuel thread tool run :
  (forall e, loop_event thread e -> P e) ->
  emits P (poll sdk v fuel thread tool run).
Proof.
  intros HP s.
  apply (loop_trace_events sdk _ v thread tool run _ _
           (poll_loop_trace sdk v fuel thread tool run s));
    intros; apply HP; cbn; auto.
Qed.

Lemma report_run_events (P : Event -> Prop) thread run :
  (forall line, P (Print line)) ->
  (forall c, P (Request c)) ->
  emits P (report_run sdk thread run).
Proof.
  intros HPrint HRequest. unfold report_run.
  apply emits_bind; [apply emits_print, HPrint | intros _].
  apply emits_bind; [apply emits_when, emits_print, HPrint | intros _].
  apply emits_bind; [apply emits_run_steps_list, HRequest | intros steps].
  apply emits_bind; [now apply emits_print_run_steps | intros _].
  apply emits_bind; [apply emits_messages_list, HRequest | intros messages].
  apply emits_bind; [apply emits_print, HPrint | intros _].
  apply emits_bind; [apply emits_print, HPrint | intros _].
  now apply emits_print_conversation.
Qed.

Lemma main_session_events (P : Event -> Prop) fuel environ tool :
  (forall line, P (Print line)) ->
  P (Sleep 1) ->
  (forall c, P (Request c)) ->
  emits P (main_session sdk fuel environ tool).
Proof.
  intros HPrint HSleep HRequest. unfold main_session.
  emits_all ltac:(first [apply HPrint | apply HRequest]).
  apply emits_poll_loop. intros [line | n | ep | | c]; cbn; try tauto; auto.
  now intros ->.
Qed.

(** X6.  Once past the check of the variables, [main.py] opens its
    client first and, unless the poll loop never ends, closes it last, on
    every path, also when a request raises; nothing in between opens or
    closes a client. *)
Theorem main_closes_its_client fuel environ (s s' : State W) o evs :
  missing_vars environ = [] ->
  main sdk fuel environ s = (o, s', evs) ->
  o <> Diverge ->
  exists body,
    evs = ClientOpen (py_str (environ !! "PROJECT_ENDPOINT")) :: body ++ [ClientClose] /\
    Forall (fun e => is_client_event e = false) body.
Proof.
  intros Hnone Hmain Hends.
  rewrite main_startup in Hmain by exact Hnone.
  unfold with_client in Hmain.
  pose proof (emits_bind (fun e => is_client_event e = false)
                (main_session sdk fuel environ (configured_tool environ))
                (fun session => report_run sdk (fst session) (snd session))
                (main_session_events _ fuel environ _
                   (fun _ => eq_refl) eq_refl (fun _ => eq_refl))
                (fun session => report_run_events _ _ _
                                  (fun _ => eq_refl) (fun _ => eq_refl)) s)
    as Hbody.
  destruct (bind (main_session sdk fuel environ (configured_tool environ))
                 (fun session => report_run sdk (fst session) (snd session)) s)
    as [[[u | e | |] s1] evs1]; cbn [snd] in Hbody; unfold after in Hmain;
    injection Hmain as <- <- <-; try (now elim Hends).
  - exists ((if truthy (environ !! "MCP_SERVER_TOKEN") then []
             else [Print no_token_warning]) ++ evs1).
    split; [unfold startup_events; cbn [app]; now rewrite <- app_assoc |].
    apply Forall_app. split; [| exact Hbody].
    destruct (truthy _); now repeat constructor.
  - exists ((if truthy (environ !! "MCP_SERVER_TOKEN") then []
             else [Print no_token_warning]) ++ evs1).
    split; [unfold startup_events; cbn [app]; now rewrite <- app_assoc |].
    apply Forall_app. split; [| exact Hbody].
    destruct (truthy _); now repeat constructor.
  - exists ((if truthy (environ !! "MCP_SERVER_TOKEN") then []
             else [Print no_token_warning]) ++ evs1).
    split; [unfold startup_events; cbn [app]; now rewrite <- app_assoc |].
    apply Forall_app. split; [| exact Hbody].
    destruct (truthy _); now repeat constructor.
Qed.

(** Counting the runs a program creates. *)

Lemma created_with_app evs1 evs2 :
  created_with (evs1 ++ evs2) = created_with evs1 ++ created_with evs2.
Proof.
  induction evs1 as [| e evs1 IH]; [reflexivity |].
  destruct e as [| | | | c]; cbn; try exact IH.
  destruct c; cbn; try exact IH. now rewrite IH.
Qed.

Lemma created_with_none evs :
  Forall (fun e => is_runs_create e = false) evs -> created_with evs = [].
Proof.
  induction 1 as [| e evs He _ IH]; [reflexivity |].
  destruct e as [| | | | c]; try exact IH. destruct c; try exact IH. discriminate.
Qed.

Lemma creates_none {A} (m : Prog W A) :
  emits (fun e => is_runs_create e = false) m -> creates_at_most 0 m.
Proof. intros Hm s. now rewrite created_with_none. Qed.

Lemma creates_bind {A B} n1 n2 (m : Prog W A) (k : A -> Prog W B) :
  creates_at_most n1 m -> (forall a, creates_at_most n2 (k a)) ->
  creates_at_most (n1 + n2) (bind m k).
Proof.
  intros Hm Hk s. specialize (Hm s). unfold bind.
  destruct (m s) as [[[a | e | |] s1] evs1]; cbn [snd] in *; try lia.
  specialize (Hk a s1). destruct (k a s1) as [[o s2] evs2]. cbn [snd] in *.
  rewrite created_with_app, length_app. lia.
Qed.

Lemma creates_runs_create thread ag res :
  creates_at_most 1 (runs_create sdk thread ag res).
Proof.
  intros s. unfold runs_create, request.
  destruct (answer sdk _ (world s)) as [[e | r] w]; cbn; lia.
Qed.

Lemma creates_try_except {A} n (m : Prog W A) h :
  creates_at_most n m -> (forall e, creates_at_most 0 (h e)) ->
  creates_at_most n (try_except m h).
Proof.
  intros Hm Hh s. specialize (Hm s). unfold try_except.
  destruct (m s) as [[[a | e | |] s1] evs1]; cbn [snd] in *; try lia.
  specialize (Hh e s1). destruct (h e s1) as [[o s2] evs2]. cbn [snd] in *.
  rewrite created_with_app, length_app. lia.
Qed.

Lemma creates_with_client {A} n (m : Prog W A) :
  creates_at_most n m -> creates_at_most n (with_client m).
Proof.
  intros Hm s. specialize (Hm s). unfold with_client.
  destruct (m s) as [[[a | e | |] s1] evs1]; cbn [snd] in *; try lia;
    rewrite created_with_app, length_app; cbn; lia.
Qed.

Lemma creates_poll v fuel thread tool run :
  creates_at_most 0 (poll sdk v fuel thread tool run).
Proof.
  apply creates_none, emits_poll_loop.
  intros [line | n | ep | | c]; cbn; try tauto. now destruct c.
Qed.

Lemma creates_main_session fuel environ tool :
  creates_at_most 1 (main_session sdk fuel environ tool).
Proof.
  unfold main_session.
  do 7 (apply (creates_bind 0 1);
        [apply creates_none; emits_step ltac:(reflexivity) | intros ?]).
  apply (creates_bind 1 0); [apply creates_runs_create | intros run0].
  apply (creates_bind 0 0);
    [apply creates_none; emits_step ltac:(reflexivity) | intros _].
  apply (creates_bind 0 0); [apply creates_poll | intros run1].
  apply creates_none, emits_ret.
Qed.

Lemma creates_send_message fuel content :
  creates_at_most 1 (send_message sdk fuel content).
Proof.
  unfold send_message.
  apply creates_try_except; [| intros e; apply creates_none, emits_ret].
  unfold send_message_body.
  apply (creates_bind 1 0).
  - unfold send_message_run.
    do 8 (apply (creates_bind 0 1);
          [apply creates_none; emits_step ltac:(reflexivity) | intros ?]).
    apply (creates_bind 1 0); [apply creates_runs_create | intros run0].
    apply (creates_bind 0 0); [apply creates_poll | intros run1].
    apply creates_none, emits_ret.
  - intros session. apply creates_none, emits_send_message_reply.
    intros e He. destruct e as [| | | | c]; try reflexivity. now destruct c.
Qed.

(** X7.  One execution of [main.py] creates at most one run, and so does
    one call of [send_message]: neither ever creates a second run,
    whatever the service answers and however long the loop polls. *)
Theorem at_most_one_run_is_created fuel environ content (s : State W) :
  length (created_with (snd (main sdk fuel environ s))) <= 1 /\
  length (created_with (snd (send_message sdk fuel content s))) <= 1.
Proof.
  split; [| apply creates_send_message].
  destruct (missing_vars environ) as [| var rest] eqn:Hmissing.
  - rewrite main_startup by exact Hmissing. rewrite snd_after, created_with_app.
    rewrite (created_with_none (startup_events environ))
      by (unfold startup_events; destruct (truthy _); now repeat constructor).
    apply (creates_with_client 1).
    apply (creates_bind 1 0); [apply creates_main_session | intros session].
    apply creates_none, emits_report_run.
    intros e He. destruct e as [| | | | c]; try reflexivity. now destruct c.
  - unfold main.
    rewrite (bind_raise _ _ _ _ _ _
               (check_required_vars_raises environ s ltac:(now rewrite Hmissing))).
    cbn. lia.
Qed.

(** X8.  The check of the variables passes exactly when each of the four
    required variables is set to a non-empty value; exactly then does
    [main.py] get as far as opening its client.  The list of the missing
    variables never names a variable twice. *)
Theorem check_passes_iff_all_set fuel environ (s : State W) :
  let all_set :=
    forall var, In var ["PROJECT_ENDPOINT"; "MODEL_DEPLOYMENT_NAME";
                        "MCP_SERVER_URL"; "MCP_SERVER_LABEL"] ->
                exists value, environ !! var = Some value /\ value <> "" in
  (all_set <-> check_required_vars environ s = (Return tt, s, [])) /\
  (all_set <->
   exists o s' rest,
     main sdk fuel environ s =
     (o, s', ClientOpen (py_str (environ !! "PROJECT_ENDPOINT")) :: rest)) /\
  List.NoDup (missing_vars environ).
Proof.
  intros all_set.
  assert (all_set <-> missing_vars environ = []) as Hiff.
  { unfold all_set. split.
    - intros Hall. destruct (missing_vars environ) as [| var rest] eqn:Hmissing;
        [reflexivity |].
      assert (In var (missing_vars environ)) as Hin by (rewrite Hmissing; now left).
      apply in_missing_vars in Hin. destruct Hin as [Hreq Hnone].
      destruct (Hall var Hreq) as (value & Hvalue & Hne).
      rewrite Hvalue in Hnone. destruct Hnone as [Hnone | Hnone];
        [discriminate | injection Hnone as ->; now elim Hne].
    - intros Hnone var Hreq.
      destruct (environ !! var) as [value |] eqn:Hvalue.
      + exists value. split; [reflexivity |]. intros ->.
        assert (In var (missing_vars environ)) as Hin
            by (apply in_missing_vars; split; [exact Hreq | now right]).
        rewrite Hnone in Hin. destruct Hin.
      + assert (In var (missing_vars environ)) as Hin
            by (apply in_missing_vars; split; [exact Hreq | now left]).
        rewrite Hnone in Hin. destruct Hin. }
  split; [| split].
  - rewrite Hiff. split; [apply check_required_vars_passes |].
    intros Hcheck. destruct (missing_vars environ) eqn:Hmissing; [reflexivity |].
    rewrite check_required_vars_raises in Hcheck by (rewrite Hmissing; discriminate).
    discriminate.
  - rewrite Hiff. split.
    + intros Hnone. rewrite main_startup by exact Hnone.
      destruct (with_client _ s) as [[o s'] evs]. now exists o, s', (
        (if truthy (environ !! "MCP_SERVER_TOKEN") then [] else [Print no_token_warning])
        ++ evs).
    + intros (o & s' & rest & Hmain).
      destruct (missing_vars environ) eqn:Hmissing; [reflexivity |].
      unfold main in Hmain.
      rewrite (bind_raise _ _ _ _ _ _
                 (check_required_vars_raises environ s ltac:(now rewrite Hmissing)))
        in Hmain.
      discriminate.
  - unfold missing_vars. apply List.NoDup_filter.
    unfold required_vars. repeat constructor; cbn; intuition discriminate.
Qed.

(** X19.  When listing the steps of the run raises, [main.py] stops
    there: the exception leaves the report, the messages of the thread
    are never requested and no conversation is printed. *)
Theorem report_stops_when_steps_cannot_be_listed thread run (s : State W) e w' :
  answer sdk (RunStepsList thread (run_id run)) (world s) = (inl e, w') ->
  report_run sdk thread run s =
  (Raise e, mkState w' (agent_handler s),
   Print ("Run completed with status: " +:+ status run) ::
   (if String.eqb (status run) "failed"
    then [Print ("Run failed: " +:+ last_error run)] else []) ++
   [Request (RunStepsList thread (run_id run))]).
Proof.
  intros Hsteps. unfold report_run.
  rewrite (bind_return _ _ s tt s
             [Print ("Run completed with status: " +:+ status run)])
    by reflexivity.
  rewrite (bind_return _ _ s tt s
             (if String.eqb (status run) "failed"
              then [Print ("Run failed: " +:+ last_error run)] else []))
    by (unfold when; now destruct (String.eqb (status run) "failed")).
  rewrite (bind_raise _ _ s e (mkState w' (agent_handler s))
             [Request (RunStepsList thread (run_id run))])
    by (unfold run_steps_list, request; now rewrite Hsteps).
  reflexivity.
Qed.

End Script.

Lemma main_closes_its_client_witness :
  exists body,
    snd (main (scripted []) 5 env_token (scenario [])) =
    ClientOpen "https://example.test/project" :: body ++ [ClientClose] /\
    Forall (fun e => is_client_event e = false) body.
Proof.
  apply (main_closes_its_client (scripted []) 5 env_token (scenario []) (scenario [])
           (Raise service_down)).
  - reflexivity.
  - reflexivity.
  - discriminate.
Defined.

(** ** The handler of [mainchat.py], whatever the service answers *)

Section Handler.
Context {W : Type}.
Variable sdk : SDK W.

Lemma initialize_without_variables environ (s : State W) :
  missing_vars environ <> [] ->
  initialize sdk environ s =
  (Return false, s,
   [Print ("Error initializing agent: " +:+
           exn_text (ValueError (missing_message (missing_vars environ))))]) /\
  initialize_body sdk environ s =
  (Raise (ValueError (missing_message (missing_vars environ))), s, []).
Proof.
  intros Hne.
  assert (initialize_body sdk environ s =
          (Raise (ValueError (missing_message (missing_vars environ))), s, []))
    as Hbody.
  { unfold initialize_body.
    now rewrite (bind_raise _ _ _ _ _ _ (check_required_vars_raises environ s Hne)). }
  split; [| exact Hbody].
  unfold initialize, try_except. now rewrite Hbody.
Qed.

(** [initialize] with every variable present, by the answers of the
    service. *)
Lemma initialize_run environ (s : State W) :
  missing_vars environ = [] ->
  let h := handler_with_tool environ (agent_handler s) in
  let failed e := Print ("Error initializing agent: " +:+ exn_text e) in
  initialize sdk environ s =
  match answer sdk (chat_agent_request environ) (world s) with
  | (inl e, w1) =>
      (Return false, mkState w1 h,
       (startup_events environ ++ [Request (chat_agent_request environ)]) ++
       [failed e])
  | (inr new_agent, w1) =>
      match answer sdk ThreadsCreate w1 with
      | (inl e, w2) =>
          (Return false, mkState w2 (set_agent (Some new_agent) h),
           (startup_events environ ++
            [Request (chat_agent_request environ); Request ThreadsCreate]) ++
           [failed e])
      | (inr new_thread, w2) =>
          (Return true, mkState w2 (handler_ready environ new_agent new_thread),
           startup_events environ ++
           [Request (chat_agent_request environ); Request ThreadsCreate])
      end
  end.
Proof.
  intros Hnone h failed. unfold initialize, try_except.
  rewrite initialize_body_run by exact Hnone. cbv zeta. fold h.
  destruct (answer sdk (chat_agent_request environ) (world s))
    as [[e | new_agent] w1]; [reflexivity |].
  destruct (answer sdk ThreadsCreate w1) as [[e | new_thread] w2]; reflexivity.
Qed.

Lemma initialize_outcome environ (s : State W) :
  (exists s' evs, initialize sdk environ s = (Return false, s', evs)) \/
  (exists new_agent new_thread w evs,
     initialize sdk environ s =
     (Return true, mkState w (handler_ready environ new_agent new_thread), evs)).
Proof.
  destruct (missing_vars environ) as [| var rest] eqn:Hmissing.
  - rewrite initialize_run by exact Hmissing. cbv zeta.
    destruct (answer sdk (chat_agent_request environ) (world s))
      as [[e | new_agent] w1]; [left; eauto |].
    destruct (answer sdk ThreadsCreate w1) as [[e | new_thread] w2];
      [left; eauto |].
    right. now exists new_agent, new_thread, w2, (startup_events environ ++
      [Request (chat_agent_request environ); Request ThreadsCreate]).
  - destruct (initialize_without_variables environ s) as [Hfalse _];
      [rewrite Hmissing; discriminate |].
    left. eauto.
Qed.

(** X10.  [initialize] returns [True] exactly when no required variable
    is missing and the service answers both the request for the agent and
    the request for the thread.  It then has made these two requests and no
    other, and the handler holds the client, the new agent, the new thread
    and the configured tool with its approval mode set to never. *)
Theorem initialize_succeeds_exactly_when environ (s s' : State W) evs :
  initialize sdk environ s = (Return true, s', evs) <->
  missing_vars environ = [] /\
  exists new_agent w1 new_thread w2,
    answer sdk (chat_agent_request environ) (world s) = (inr new_agent, w1) /\
    answer sdk ThreadsCreate w1 = (inr new_thread, w2) /\
    s' = mkState w2 (handler_ready environ new_agent new_thread) /\
    evs = startup_events environ ++
          [Request (chat_agent_request environ); Request ThreadsCreate].
Proof.
  split.
  - intros Hinit.
    destruct (missing_vars environ) as [| var rest] eqn:Hmissing.
    + split; [reflexivity |].
      rewrite initialize_run in Hinit by exact Hmissing. cbv zeta in Hinit.
      destruct (answer sdk (chat_agent_request environ) (world s))
        as [[e | new_agent] w1]; [discriminate |].
      destruct (answer sdk ThreadsCreate w1) as [[e | new_thread] w2] eqn:Hthread;
        [discriminate |].
      injection Hinit as <- <-. now exists new_agent, w1, new_thread, w2.
    + destruct (initialize_without_variables environ s) as [Hfalse _];
        [rewrite Hmissing; discriminate |].
      rewrite Hfalse in Hinit. discriminate.
  - intros (Hnone & new_agent & w1 & new_thread & w2 & Hagent & Hthread & -> & ->).
    rewrite initialize_run by exact Hnone. cbv zeta.
    now rewrite Hagent, Hthread.
Qed.

(** X11.  When no variable is missing and [initialize] still fails, the
    service having refused the agent or the thread, the handler is left
    half set: it holds the new client and the newly configured tool, whose
    approval mode is still the default, while its thread is the one it had
    before the call. *)
Theorem failed_initialize_leaves_handler_half_set environ (s s' : State W) evs :
  missing_vars environ = [] ->
  initialize sdk environ s = (Return false, s', evs) ->
  project_client (agent_handler s') = Some (py_str (environ !! "PROJECT_ENDPOINT")) /\
  mcp_tool (agent_handler s') = Some (configured_tool environ) /\
  require_approval (configured_tool environ) = "always" /\
  thread (agent_handler s') = thread (agent_handler s).
Proof.
  intros Hnone Hinit.
  rewrite initialize_run in Hinit by exact Hnone. cbv zeta in Hinit.
  assert (require_approval (configured_tool environ) = "always") as Hmode.
  { unfold configured_tool. now destruct (truthy _). }
  destruct (answer sdk (chat_agent_request environ) (world s))
    as [[e | new_agent] w1].
  - injection Hinit as <- <-. now repeat split.
  - destruct (answer sdk ThreadsCreate w1) as [[e | new_thread] w2];
      [| discriminate].
    injection Hinit as <- <-. now repeat split.
Qed.

(** X12.  After an [initialize] that failed on a handler that was never
    initialised, [send_message] contacts nobody: it stops at the first
    attribute of the handler that is still [None] and answers with that
    error. *)
Theorem send_message_after_failed_initialize
        fuel environ content (s s' : State W) evs :
  agent_handler s = new_handler ->
  initialize sdk environ s = (Return false, s', evs) ->
  exists attr,
    send_message sdk fuel content s' =
    (Return ("Error processing message: 'NoneType' object has no attribute '"
             +:+ attr +:+ "'"), s', []).
Proof.
  intros Hnew Hinit.
  destruct (missing_vars environ) as [| var rest] eqn:Hmissing.
  - rewrite initialize_run in Hinit by exact Hmissing. cbv zeta in Hinit.
    rewrite Hnew in Hinit.
    destruct (answer sdk (chat_agent_request environ) (world s))
      as [[e | new_agent] w1].
    + injection Hinit as <- <-. now exists "id".
    + destruct (answer sdk ThreadsCreate w1) as [[e | new_thread] w2];
        [| discriminate].
      injection Hinit as <- <-. now exists "id".
  - destruct (initialize_without_variables environ s) as [Hfalse _];
      [rewrite Hmissing; discriminate |].
    rewrite Hfalse in Hinit. injection Hinit as <- <-.
    exists "messages". destruct s as [w h]. cbn in Hnew. now subst h.
Qed.

Lemma last_in {A} (l : list A) (d : A) : l <> [] -> In (List.last l d) l.
Proof.
  induction l as [| x l IH]; [now intros H |]. intros _.
  destruct l as [| y l]; [now left |].
  right. apply IH. discriminate.
Qed.

(** X13.  The answer picked from the messages of the thread is either the
    fixed answer or a text segment of a message whose role is assistant:
    never a text of the user, and never taken from a message without
    text. *)
Theorem reply_comes_from_an_assistant_message messages :
  latest_assistant_response messages = "No response received from agent." \/
  exists msg,
    In msg messages /\ role msg = "assistant" /\
    In (latest_assistant_response messages) (text_messages msg).
Proof.
  induction messages as [| msg rest IH]; [now left |].
  cbn [latest_assistant_response].
  destruct (String.eqb (role msg) "assistant") eqn:Hrole; cbn [andb].
  - destruct (text_messages msg) as [| first others] eqn:Htext; cbn [has_items].
    + destruct IH as [Hnone | (m & Hin & Hm & Htxt)]; [now left |].
      right. exists m. repeat split; [now right | exact Hm | exact Htxt].
    + right. exists msg. repeat split; [now left | now apply String.eqb_eq |].
      rewrite Htext. apply last_in. discriminate.
  - destruct IH as [Hnone | (m & Hin & Hm & Htxt)]; [now left |].
    right. exists m. repeat split; [now right | exact Hm | exact Htxt].
Qed.

End Handler.

(** ** Exceptions and cancellation in [send_message] *)

Section Cancellation.
Context {W : Type}.
Variable sdk : SDK W.

Lemma bind_ext {A B} (m : Prog W A) (k1 k2 : A -> Prog W B) s :
  (forall a s1, k1 a s1 = k2 a s1) -> bind m k1 s = bind m k2 s.
Proof.
  intros Hk. unfold bind.
  destruct (m s) as [[[a | e | |] s1] evs1]; try reflexivity.
  now rewrite Hk.
Qed.

Lemma bind_attr_of_some {A B} (x : A) attr (k : A -> Prog W B) s :
  bind (attr_of (Some x) attr) k s = k x s.
Proof. unfold bind, attr_of, ret. now destruct (k x s) as [[o s1] evs]. Qed.

(** A task that is not cancelled runs the loop of the chat variant. *)
Lemma poll_awaited_never fuel thread tool run (s : State W) :
  poll_awaited sdk None fuel thread tool run s = poll sdk Chat fuel thread tool run s.
Proof.
  revert run s. induction fuel as [| fuel IH]; intros run s; [reflexivity |].
  cbn [poll_awaited poll option_map].
  destruct (is_pending (status run)); [| reflexivity].
  apply bind_ext. intros [run' | run'] s1; [apply IH | reflexivity].
Qed.

(** A task cancelled at the sleep it is about to start: the loop is left
    there, with nothing fetched. *)
Lemma poll_awaited_cancelled fuel thread tool run (s : State W) :
  is_pending (status run) = true ->
  poll_awaited sdk (Some 0) (S fuel) thread tool run s = (Cancelled, s, [Sleep 1]).
Proof. intros Hp. cbn [poll_awaited]. now rewrite Hp. Qed.

Lemma send_message_with_ext loop1 loop2 content (s : State W) :
  (forall thread tool run s1, loop1 thread tool run s1 = loop2 thread tool run s1) ->
  send_message_with sdk loop1 content s = send_message_with sdk loop2 content s.
Proof.
  intros Hloop.
  unfold send_message_with, try_except, send_message_body_with.
  assert (send_message_run_with sdk loop1 content s =
          send_message_run_with sdk loop2 content s) as Hrun.
  { unfold send_message_run_with.
    do 9 (apply bind_ext; intros ? ?).
    unfold bind. now rewrite Hloop. }
  unfold bind. now rewrite Hrun.
Qed.

(** [send_message] on a handler whose attributes are set, by cases on
    what the service answers and on how the loop ends. *)
Lemma send_message_ready loop content (s : State W) ac ag th tool :
  agents_client (agent_handler s) = Some ac ->
  agent (agent_handler s) = Some ag ->
  thread (agent_handler s) = Some th ->
  mcp_tool (agent_handler s) = Some tool ->
  let error := fun e => "Error processing message: " +:+ exn_text e in
  let create_message := MessagesCreate (thread_id th) "user" content in
  let create_run := RunsCreate (thread_id th) (agent_id ag) (resources tool) in
  send_message_with sdk loop content s =
  match answer sdk create_message (world s) with
  | (inl e, w1) =>
      (Return (error e), mkState w1 (agent_handler s), [Request create_message])
  | (inr _, w1) =>
      match answer sdk create_run w1 with
      | (inl e, w2) =>
          (Return (error e), mkState w2 (agent_handler s),
           [Request create_message; Request create_run])
      | (inr run, w2) =>
          after [Request create_message; Request create_run]
            match loop (thread_id th) tool run (mkState w2 (agent_handler s)) with
            | (Return final, s3, evs) =>
                after evs
                  (try_except (send_message_reply sdk (thread_id th) final)
                     (fun e => ret (error e)) s3)
            | (Raise e, s3, evs) => (Return (error e), s3, evs)
            | (Diverge, s3, evs) => (Diverge, s3, evs)
            | (Cancelled, s3, evs) => (Cancelled, s3, evs)
            end
      end
  end.
Proof.
  intros Hac Hag Hth Htool error create_message create_run.
  unfold send_message_with, try_except, send_message_body_with,
    send_message_run_with.
  unfold bind at 1. rewrite bind_get_self.
  rewrite Hac, Hth, Hag, Htool.
  rewrite bind_attr_of_some, bind_attr_of_some.
  unfold bind at 1, messages_create, request. fold create_message.
  destruct (answer sdk create_message (world s)) as [[e | m] w1];
    [reflexivity |].
  rewrite !bind_attr_of_some.
  unfold bind at 1, runs_create, request. fold create_run. cbn [world agent_handler].
  destruct (answer sdk create_run w1) as [[e | run] w2]; [reflexivity |].
  unfold bind at 1.
  destruct (loop (thread_id th) tool run (mkState w2 (agent_handler s)))
    as [[[final | e | |] s3] evs]; unfold ret, after; cbn [fst snd app];
    rewrite ?app_nil_r; try reflexivity.
  destruct (send_message_reply sdk (thread_id th) final s3)
    as [[[reply | e | |] s4] evs4]; cbn [app]; rewrite ?app_nil_r;
    try reflexivity.
Qed.

(** C6, amended.  [send_message] catches the instances of [Exception] and
    nothing else.  No instance of [Exception] ever leaves it: when its
    [try] block raises one, the method returns the text
    ["Error processing message: ..."] made from it, and does nothing
    more.  On a handler whose attributes are set this is what happens
    when the service refuses the new message, refuses the new run, makes
    the poll loop raise (by refusing to fetch or cancel the run, or to
    take the approvals), or refuses to list the messages.  A
    cancellation of the task, which reaches the method at the sleep of
    its loop, is no instance of [Exception]: it is not caught and leaves
    the method; so it is whenever the run just created is still to be
    polled and the task is cancelled during the first sleep.  A task
    that is not cancelled runs [send_message] as the other theorems
    describe it. *)
Theorem send_message_catches_exceptions_only
        cancel_at fuel content (s : State W) :
  let loop := poll_awaited sdk cancel_at fuel in
  let error := fun e => "Error processing message: " +:+ exn_text e in
  (forall e,
     fst (fst (send_message_awaited sdk cancel_at fuel content s)) <> Raise e) /\
  (forall e s1 evs,
     send_message_body_with sdk loop content s = (Raise e, s1, evs) ->
     send_message_awaited sdk cancel_at fuel content s = (Return (error e), s1, evs)) /\
  (forall s1 evs,
     send_message_body_with sdk loop content s = (Cancelled, s1, evs) ->
     send_message_awaited sdk cancel_at fuel content s = (Cancelled, s1, evs)) /\
  (forall ac ag th tool,
     agents_client (agent_handler s) = Some ac ->
     agent (agent_handler s) = Some ag ->
     thread (agent_handler s) = Some th ->
     mcp_tool (agent_handler s) = Some tool ->
     let create_message := MessagesCreate (thread_id th) "user" content in
     let create_run := RunsCreate (thread_id th) (agent_id ag) (resources tool) in
     (forall e w1,
        answer sdk create_message (world s) = (inl e, w1) ->
        send_message_awaited sdk cancel_at fuel content s =
        (Return (error e), mkState w1 (agent_handler s), [Request create_message])) /\
     (forall (m : Message) w1 e w2,
        answer sdk create_message (world s) = (inr m, w1) ->
        answer sdk create_run w1 = (inl e, w2) ->
        send_message_awaited sdk cancel_at fuel content s =
        (Return (error e), mkState w2 (agent_handler s),
         [Request create_message; Request create_run])) /\
     (forall (m : Message) w1 (run : Run) w2,
        answer sdk create_message (world s) = (inr m, w1) ->
        answer sdk create_run w1 = (inr run, w2) ->
        (forall e s3 evs,
           loop (thread_id th) tool run (mkState w2 (agent_handler s)) =
           (Raise e, s3, evs) ->
           send_message_awaited sdk cancel_at fuel content s =
           (Return (error e), s3,
            [Request create_message; Request create_run] ++ evs)) /\
        (forall s3 evs,
           loop (thread_id th) tool run (mkState w2 (agent_handler s)) =
           (Cancelled, s3, evs) ->
           send_message_awaited sdk cancel_at fuel content s =
           (Cancelled, s3, [Request create_message; Request create_run] ++ evs)) /\
        (forall fuel',
           In (status run) ["queued"; "in_progress"; "requires_action"] ->
           send_message_awaited sdk (Some 0) (S fuel') content s =
           (Cancelled, mkState w2 (agent_handler s),
            [Request create_message; Request create_run; Sleep 1])) /\
        (forall final s3 evs e w4,
           loop (thread_id th) tool run (mkState w2 (agent_handler s)) =
           (Return final, s3, evs) ->
           status final <> "failed" ->
           answer sdk (MessagesList (thread_id th)) (world s3) = (inl e, w4) ->
           send_message_awaited sdk cancel_at fuel content s =
           (Return (error e), mkState w4 (agent_handler s3),
            [Request create_message; Request create_run] ++ evs ++
            [Request (MessagesList (thread_id th))])))) /\
  send_message_awaited sdk None fuel content s = send_message sdk fuel content s.
Proof.
  intros loop error. split; [| split; [| split; [| split]]].
  - intros e. unfold send_message_awaited, send_message_with, try_except.
    fold loop.
    destruct (send_message_body_with sdk loop content s) as [[[reply | e' | |] s1] evs];
      cbn; discriminate.
  - intros e s1 evs Hbody.
    unfold send_message_awaited, send_message_with, try_except. fold loop.
    rewrite Hbody. cbn. now rewrite app_nil_r.
  - intros s1 evs Hbody.
    unfold send_message_awaited, send_message_with, try_except. fold loop.
    now rewrite Hbody.
  - intros ac ag th tool Hac Hag Hth Htool create_message create_run.
    pose proof (send_message_ready loop content s ac ag th tool Hac Hag Hth Htool)
      as Hready.
    cbv zeta in Hready. fold error create_message create_run in Hready.
    unfold send_message_awaited. fold loop. rewrite Hready.
    split; [| split].
    + intros e w1 Hmessage. now rewrite Hmessage.
    + intros m w1 e w2 Hmessage Hrun. now rewrite Hmessage, Hrun.
    + intros m w1 run w2 Hmessage Hrun. rewrite Hmessage, Hrun.
      split; [| split; [| split]].
      * intros e s3 evs Hloop. now rewrite Hloop.
      * intros s3 evs Hloop. now rewrite Hloop.
      * intros fuel' Hpending. apply is_pending_iff in Hpending.
        unfold send_message_awaited.
        rewrite (send_message_ready _ content s ac ag th tool Hac Hag Hth Htool).
        cbv zeta. fold create_message create_run.
        rewrite Hmessage, Hrun.
        now rewrite (poll_awaited_cancelled fuel' _ _ _ _ Hpending).
      * intros final s3 evs e w4 Hloop Hstatus Hlist. rewrite Hloop.
        unfold try_except, send_message_reply.
        apply String.eqb_neq in Hstatus. rewrite Hstatus.
        unfold bind, messages_list, request. rewrite Hlist.
        unfold after, ret. reflexivity.
  - apply send_message_with_ext. intros thread tool run s1.
    apply poll_awaited_never.
Qed.

End Cancellation.

(** C6, as stated, fails: the handler is ready and the service has taken
    the message and created the run, which is queued; the task that runs
    [send_message] is cancelled while it awaits the first sleep of the
    loop.  The cancellation passes the [except Exception] clause and
    reaches the caller: no text is returned. *)
Lemma cancelled_sleep_leaves_send_message :
  send_message_awaited (scripted []) (Some 0) 5 "temperatura?"
    (chat_scenario [inr run_completed]) =
  (Cancelled, chat_scenario [inr run_completed],
   [Request (MessagesCreate "thread_1" "user" "temperatura?");
    Request (RunsCreate "thread_1" "asst_1"
               (resources (set_approval_mode "never" tool_with_token)));
    Sleep 1]) /\
  ~ converted_into_reply
      (send_message_body_with (scripted []) (poll_awaited (scripted []) (Some 0) 5)
         "temperatura?" (chat_scenario [inr run_completed]))
      (send_message_awaited (scripted []) (Some 0) 5 "temperatura?"
         (chat_scenario [inr run_completed])).
Proof.
  split; [reflexivity |].
  intros [reply Hreply]. discriminate Hreply.
Qed.

Lemma send_message_catches_exceptions_only_witness :
  send_message_awaited (scripted []) (Some 1) 5 "temperatura?" (chat_scenario []) =
  (Return "Error processing message: service unavailable",
   chat_scenario [],
   [Request (MessagesCreate "thread_1" "user" "temperatura?");
    Request (RunsCreate "thread_1" "asst_1"
               (resources (set_approval_mode "never" tool_with_token)));
    Sleep 1; Request (RunsGet "thread_1" "run_1")]) /\
  send_message_awaited (scripted []) (Some 1) 5 "temperatura?"
    (chat_scenario [inr run_queued; inr run_completed]) =
  (Cancelled, chat_scenario [inr run_completed],
   [Request (MessagesCreate "thread_1" "user" "temperatura?");
    Request (RunsCreate "thread_1" "asst_1"
               (resources (set_approval_mode "never" tool_with_token)));
    Sleep 1; Request (RunsGet "thread_1" "run_1"); Sleep 1]).
Proof.
  split.
  - destruct (send_message_catches_exceptions_only (scripted []) (Some 1) 5
                "temperatura?" (chat_scenario []))
      as (_ & _ & _ & Hready & _).
    destruct (Hready "https://example.test/project" (mkAgent "asst_1")
                (mkThread "thread_1") (set_approval_mode "never" tool_with_token)
                eq_refl eq_refl eq_refl eq_refl) as (_ & _ & Hloop).
    destruct (Hloop (mkMessage "msg_1" "user" ["temperatura?"])
                (world (chat_scenario [])) run_queued (world (chat_scenario []))
                eq_refl eq_refl) as (Hraise & _ & _ & _).
    exact (Hraise service_down (chat_scenario [])
             [Sleep 1; Request (RunsGet "thread_1" "run_1")] eq_refl).
  - destruct (send_message_catches_exceptions_only (scripted []) (Some 1) 5
                "temperatura?" (chat_scenario [inr run_queued; inr run_completed]))
      as (_ & _ & _ & Hready & _).
    destruct (Hready "https://example.test/project" (mkAgent "asst_1")
                (mkThread "thread_1") (set_approval_mode "never" tool_with_token)
                eq_refl eq_refl eq_refl eq_refl) as (_ & _ & Hloop).
    destruct (Hloop (mkMessage "msg_1" "user" ["temperatura?"])
                (world (chat_scenario [inr run_queued; inr run_completed]))
                run_queued
                (world (chat_scenario [inr run_queued; inr run_completed]))
                eq_refl eq_refl) as (_ & Hcancelled & _ & _).
    exact (Hcancelled (chat_scenario [inr run_completed])
             [Sleep 1; Request (RunsGet "thread_1" "run_1"); Sleep 1] eq_refl).
Defined.

(** ** The hooks of the chat *)

Section Hooks.
Context {W : Type}.
Variable sdk : SDK W.

Lemma chat_bind_return {A B} (m : ChatProg W A) (k : A -> ChatProg W B)
      cs a cs1 evs1 :
  m cs = (Return a, cs1, evs1) ->
  chat_bind m k cs = chat_after evs1 (k a cs1).
Proof. intros Hm. unfold chat_bind, chat_after. now rewrite Hm. Qed.

Lemma chat_after_after {A} evs1 evs2 (r : Outcome A * ChatState W * list ChatEvent) :
  chat_after evs1 (chat_after evs2 r) = chat_after (evs1 ++ evs2) r.
Proof. destruct r as [[o cs] evs]. unfold chat_after. now rewrite app_assoc. Qed.

Lemma lift_run {A} (m : Prog W A) cs o s evs :
  m (backend cs) = (o, s, evs) ->
  lift m cs = (o, mkChat s (user_session cs), List.map Backend evs).
Proof. intros Hm. unfold lift. now rewrite Hm. Qed.

(** X15.  [start] records in the session what [initialize] returned:
    [agent_ready] is that result; after a failure nothing else is stored
    and the user is told; after a success the session also holds the ids
    of the agent and the thread of the handler. *)
Theorem start_records_the_result environ (cs : ChatState W) b s' evs :
  initialize sdk environ (backend cs) = (Return b, s', evs) ->
  exists cs' shown,
    ChatApp.start sdk environ cs =
    (Return tt, cs',
     ChatSend "System" initializing_message :: List.map Backend evs ++ shown) /\
    backend cs' = s' /\
    user_session cs' !! "agent_ready" = Some (SBool b) /\
    (b = false ->
     user_session cs' = <["agent_ready" := SBool false]> (user_session cs) /\
     shown = [ChatSend "System" not_initialized_message]) /\
    (b = true ->
     exists new_agent new_thread,
       agent (agent_handler s') = Some new_agent /\
       thread (agent_handler s') = Some new_thread /\
       user_session cs' !! "agent_id" = Some (SText (agent_id new_agent)) /\
       user_session cs' !! "thread_id" = Some (SText (thread_id new_thread))).
Proof.
  intros Hinit. destruct b.
  - destruct (initialize_outcome sdk environ (backend cs))
      as [(s2 & evs2 & Hfalse) | (new_agent & new_thread & w & evs2 & Htrue)].
    + rewrite Hfalse in Hinit. discriminate.
    + rewrite Htrue in Hinit. injection Hinit as <- <-.
      unfold ChatApp.start.
      rewrite (chat_bind_return _ _ cs tt cs [ChatSend "System" initializing_message])
        by reflexivity.
      rewrite (chat_bind_return _ _ _ _ _ _ (lift_run _ cs _ _ _ Htrue)).
      rewrite chat_after_after.
      do 2 eexists. split; [reflexivity |].
      cbn [backend user_session].
      split; [reflexivity |]. split; [| split; [discriminate |]].
      * rewrite !lookup_insert_ne by discriminate. apply lookup_insert_eq.
      * intros _. exists new_agent, new_thread.
        split; [reflexivity |]. split; [reflexivity |]. split.
        -- rewrite lookup_insert_ne by discriminate. apply lookup_insert_eq.
        -- apply lookup_insert_eq.
  - unfold ChatApp.start.
    rewrite (chat_bind_return _ _ cs tt cs [ChatSend "System" initializing_message])
      by reflexivity.
    rewrite (chat_bind_return _ _ _ _ _ _ (lift_run _ cs _ _ _ Hinit)).
    rewrite chat_after_after.
    do 2 eexists. split; [reflexivity |].
    cbn [backend user_session].
    split; [reflexivity |]. split; [apply lookup_insert_eq |].
    split; [now intros _ | discriminate].
Qed.

(** X16.  While the session is not marked ready, [main] refuses the
    message: it tells the user so and does nothing else; the handler is
    not called and nothing changes. *)
Theorem message_refused_when_not_ready fuel content (cs : ChatState W) :
  session_truthy (user_session cs !! "agent_ready") = false ->
  ChatApp.main sdk fuel content cs =
  (Return tt, cs, [ChatSend "System" not_ready_message]).
Proof.
  intros Hready. unfold ChatApp.main.
  rewrite (chat_bind_return _ _ cs (user_session cs !! "agent_ready") cs [])
    by reflexivity.
  now rewrite Hready.
Qed.

(** X17.  When [initialize] fails, whatever the cause, a [start] followed
    by a message does nothing behind the chat beyond what [initialize]
    did: the user gets the notice of failure and then the refusal, and
    the service is never asked to handle the message. *)
Theorem failed_start_then_message_is_refused
        fuel environ content (cs : ChatState W) s' evs :
  initialize sdk environ (backend cs) = (Return false, s', evs) ->
  chat_bind (ChatApp.start sdk environ) (fun _ => ChatApp.main sdk fuel content) cs =
  (Return tt,
   mkChat s' (<["agent_ready" := SBool false]> (user_session cs)),
   ChatSend "System" initializing_message :: List.map Backend evs ++
   [ChatSend "System" not_initialized_message;
    ChatSend "System" not_ready_message]).
Proof.
  intros Hinit.
  assert (ChatApp.start sdk environ cs =
          (Return tt,
           mkChat s' (<["agent_ready" := SBool false]> (user_session cs)),
           ChatSend "System" initializing_message :: List.map Backend evs ++
           [ChatSend "System" not_initialized_message])) as Hstart.
  { unfold ChatApp.start.
    rewrite (chat_bind_return _ _ cs tt cs [ChatSend "System" initializing_message])
      by reflexivity.
    rewrite (chat_bind_return _ _ _ _ _ _ (lift_run _ cs _ _ _ Hinit)).
    unfold chat_after, chat_bind, send, chat_emit, session_set. cbn.
    reflexivity. }
  rewrite (chat_bind_return _ _ _ _ _ _ Hstart).
  unfold ChatApp.main.
  match goal with
  | |- context [chat_bind (session_get ?k) ?f ?c] =>
      rewrite (chat_bind_return (session_get k) f c (user_session c !! k) c [])
        by reflexivity
  end.
  cbn [user_session]. rewrite lookup_insert_eq. cbn.
  now rewrite <- app_assoc.
Qed.

(** X18.  When the session is marked ready and [send_message] has
    returned, the message [main] sends to the user as AI Assistant is
    exactly the text [send_message] returned; the step shown meanwhile is
    closed before that, after reporting the number of characters of that
    text. *)
Theorem reply_is_what_send_message_returned
        fuel content (cs : ChatState W) response s' evs :
  session_truthy (user_session cs !! "agent_ready") = true ->
  send_message sdk fuel content (backend cs) = (Return response, s', evs) ->
  ChatApp.main sdk fuel content cs =
  (Return tt, mkChat s' (user_session cs),
   [StepOpen "Processing with Azure AI Agent + MCP";
    StepOutput "Sending message to agent..."] ++
   List.map Backend evs ++
   [StepOutput ("Response received: " +:+ show_nat (py_len response)
                +:+ " characters");
    StepClose;
    ChatSend "AI Assistant" response]).
Proof.
  intros Hready Hsend. unfold ChatApp.main.
  rewrite (chat_bind_return _ _ cs (user_session cs !! "agent_ready") cs [])
    by reflexivity.
  rewrite Hready. cbn [negb].
  unfold chat_bind at 1, with_step, chat_bind, chat_emit, lift, chat_ret, send,
    chat_after.
  rewrite Hsend. cbn. rewrite ?app_nil_r, <- ?app_assoc. reflexivity.
Qed.

End Hooks.

(** ** The handler and the hooks on concrete services *)

Lemma report_stops_when_steps_cannot_be_listed_witness :
  report_run refusing "thread_1" run_failed (scenario []) =
  (Raise service_down, scenario [],
   [Print "Run completed with status: failed";
    Print "Run failed: server_error: tool call timed out";
    Request (RunStepsList "thread_1" "run_1")]).
Proof.
  apply (report_stops_when_steps_cannot_be_listed refusing "thread_1" run_failed
           (scenario []) service_down (world (scenario []))).
  reflexivity.
Defined.

Lemma failed_initialize_leaves_handler_half_set_witness :
  project_client
    (agent_handler (snd (fst (initialize refusing env_token (chat_scenario []))))) =
  Some "https://example.test/project" /\
  thread (agent_handler (snd (fst (initialize refusing env_token (chat_scenario []))))) =
  Some (mkThread "thread_1").
Proof.
  destruct (failed_initialize_leaves_handler_half_set refusing env_token
              (chat_scenario [])
              (snd (fst (initialize refusing env_token (chat_scenario []))))
              (snd (initialize refusing env_token (chat_scenario [])))
              eq_refl eq_refl) as (Hclient & _ & _ & Hthread).
  split; [exact Hclient | exact Hthread].
Defined.

Lemma send_message_after_failed_initialize_witness :
  exists attr,
    send_message refusing 5 "temperatura?"
      (snd (fst (initialize refusing env_token (scenario [])))) =
    (Return ("Error processing message: 'NoneType' object has no attribute '"
             +:+ attr +:+ "'"),
     snd (fst (initialize refusing env_token (scenario []))), []).
Proof.
  apply (send_message_after_failed_initialize refusing 5 env_token "temperatura?"
           (scenario [])
           (snd (fst (initialize refusing env_token (scenario []))))
           (snd (initialize refusing env_token (scenario [])))).
  - reflexivity.
  - reflexivity.
Defined.

Lemma message_refused_when_not_ready_witness :
  ChatApp.main (scripted []) 5 "temperatura?" (chat_start []) =
  (Return tt, chat_start [], [ChatSend "System" not_ready_message]).
Proof.
  apply (message_refused_when_not_ready (scripted []) 5 "temperatura?" (chat_start [])).
  reflexivity.
Defined.

Lemma failed_start_then_message_is_refused_witness :
  snd (chat_bind (ChatApp.start (scripted []) env_incomplete)
         (fun _ => ChatApp.main (scripted []) 5 "temperatura?") (chat_start [])) =
  [ChatSend "System" initializing_message;
   Backend (Print "Error initializing agent: Missing required environment variables: MODEL_DEPLOYMENT_NAME, MCP_SERVER_URL, MCP_SERVER_LABEL");
   ChatSend "System" not_initialized_message;
   ChatSend "System" not_ready_message].
Proof.
  rewrite (failed_start_then_message_is_refused (scripted []) 5 env_incomplete
             "temperatura?" (chat_start []) (scenario [])
             [Print "Error initializing agent: Missing required environment variables: MODEL_DEPLOYMENT_NAME, MCP_SERVER_URL, MCP_SERVER_LABEL"]
             eq_refl).
  reflexivity.
Defined.

Lemma start_records_the_result_witness :
  exists cs' shown,
    ChatApp.start (scripted []) env_token (chat_start []) =
    (Return tt, cs',
     ChatSend "System" initializing_message ::
     List.map Backend
       [ClientOpen "https://example.test/project";
        Request (chat_agent_request env_token); Request ThreadsCreate] ++ shown) /\
    user_session cs' !! "agent_ready" = Some (SBool true) /\
    user_session cs' !! "agent_id" = Some (SText "asst_1") /\
    user_session cs' !! "thread_id" = Some (SText "thread_1").
Proof.
  destruct (start_records_the_result (scripted []) env_token (chat_start [])
              true
              (mkState (world (scenario []))
                 (handler_ready env_token (mkAgent "asst_1") (mkThread "thread_1")))
              [ClientOpen "https://example.test/project";
               Request (chat_agent_request env_token); Request ThreadsCreate]
              eq_refl)
    as (cs' & shown & Hstart & Hbackend & Hready & _ & Hids).
  destruct (Hids eq_refl) as (new_agent & new_thread & Hagent & Hthread & Hid1 & Hid2).
  exists cs', shown. cbn in Hagent, Hthread.
  injection Hagent as <-. injection Hthread as <-.
  split; [exact Hstart |]. split; [exact Hready |]. split; assumption.
Defined.

Lemma reply_is_what_send_message_returned_witness :
  snd (ChatApp.main (scripted []) 5 "temperatura?" (ready_chat [inr run_completed])) =
  [StepOpen "Processing with Azure AI Agent + MCP";
   StepOutput "Sending message to agent...";
   Backend (Request (MessagesCreate "thread_1" "user" "temperatura?"));
   Backend (Request (RunsCreate "thread_1" "asst_1"
                       (resources (set_approval_mode "never" tool_with_token))));
   Backend (Sleep 1);
   Backend (Request (RunsGet "thread_1" "run_1"));
   Backend (Request (MessagesList "thread_1"));
   StepOutput "Response received: 9 characters";
   StepClose;
   ChatSend "AI Assistant" "22 grados"].
Proof.
  rewrite (reply_is_what_send_message_returned (scripted []) 5 "temperatura?"
             (ready_chat [inr run_completed])
             "22 grados" (chat_scenario [])
             [Request (MessagesCreate "thread_1" "user" "temperatura?");
              Request (RunsCreate "thread_1" "asst_1"
                         (resources (set_approval_mode "never" tool_with_token)));
              Sleep 1; Request (RunsGet "thread_1" "run_1");
              Request (MessagesList "thread_1")]
             eq_refl eq_refl).
  reflexivity.
Defined.
